(** * Jumia product preprocessing: a shallow embedding of
      [preprocess_jumia_data.py] and the properties of its pipeline.

    The script is a linear pandas pipeline.  Tables are modelled as ordered
    lists of labelled, dtype-tagged columns; the pandas/Python primitives the
    script calls are modelled first (strings, the three regular expressions,
    number parsing, Series and DataFrame access), then each function of the
    script is translated line by line on top of them.  File input and output
    are left out: [process_file] takes the frame [read_csv] loaded, and the
    functions return what the script writes.

    Modelling conventions.
    - pandas behaves as in its 2.x releases: a frame read from a CSV file has
      columns of dtype [int64]/[float64] (here [Numeric]), [bool] and
      [object]; a text column is an [object] column of [str] and [NaN].
    - Text is a byte string, the UTF-8 encoding of the Python [str].  Case
      mapping and the classes [\d], [\w] and whitespace are those of the
      ASCII range: a byte above 127 is carried through unchanged and is
      neither a digit, a letter nor a blank.  Python's own classes are wider
      (any decimal digit of Unicode is a [\d] and is read by [float], any
      letter is a [\w] and is cased by [title], any blank is stripped), so
      the two agree on a text exactly when it holds no such character
      outside the ASCII range.  Module [Unicode] decodes a text into code
      points and tells the decimal digits among them; a statement whose
      conclusion depends on the class of a character carries the matching
      condition on the text ([Unicode.has_decimal], [Unicode.foreign_decimal],
      [Unicode.is_ascii]) as a hypothesis.
    - Floating-point numbers are exact rationals.  Parsing a decimal text
      and arithmetic are computed exactly, where binary64 rounds; the
      statements below state the value of a number only where binary64 holds
      it exactly (integers up to 2^53, dyadic fractions, results of exact
      operations), and otherwise only which cells are numbers and which are
      missing.
    - An exception is a value: a function that can raise returns an
      [outcome]. *)

From Stdlib Require Import String Ascii List Bool Arith NArith ZArith QArith Qround Lia.
From Stdlib Require Import Permutation.
Import ListNotations.

Local Close Scope Q_scope.
Local Close Scope Z_scope.
Local Open Scope string_scope.
Local Open Scope list_scope.
Local Open Scope nat_scope.

(* ===================================================================== *)
(** * Python [str] methods used by the script *)
(* ===================================================================== *)

Module PyStr.

Definition code (c : ascii) : nat := nat_of_ascii c.

Definition is_upper (c : ascii) : bool := (65 <=? code c) && (code c <=? 90).
Definition is_lower (c : ascii) : bool := (97 <=? code c) && (code c <=? 122).
Definition is_digit (c : ascii) : bool := (48 <=? code c) && (code c <=? 57).

(** [str.isspace] on the ASCII range: TAB..CR, FS..US and the blank. *)
Definition is_space (c : ascii) : bool :=
  ((9 <=? code c) && (code c <=? 13)) || ((28 <=? code c) && (code c <=? 32)).

(** The class [\w] on the ASCII range: letters, digits and the underscore.
    Python's [\w] also holds the letters and digits beyond it; the two agree
    on the characters of a text that [Unicode.is_ascii] accepts. *)
Definition is_word (c : ascii) : bool :=
  is_upper c || is_lower c || is_digit c || (code c =? 95).

Definition to_lower (c : ascii) : ascii :=
  if is_upper c then ascii_of_nat (code c + 32) else c.
Definition to_upper (c : ascii) : ascii :=
  if is_lower c then ascii_of_nat (code c - 32) else c.

(** [s.lower()] *)
Fixpoint lower (s : string) : string :=
  match s with
  | EmptyString => EmptyString
  | String c r => String (to_lower c) (lower r)
  end.

(** [s.replace(old, new)] for a one-character [old]. *)
Fixpoint replace (old : ascii) (new : string) (s : string) : string :=
  match s with
  | EmptyString => EmptyString
  | String c r =>
      if Ascii.eqb c old then String.append new (replace old new r)
      else String c (replace old new r)
  end.

Fixpoint lstrip (s : string) : string :=
  match s with
  | EmptyString => EmptyString
  | String c r => if is_space c then lstrip r else s
  end.

(** Drops trailing whitespace: a character is kept when it is not a blank
    or when something is kept after it. *)
Fixpoint rstrip (s : string) : string :=
  match s with
  | EmptyString => EmptyString
  | String c r =>
      match rstrip r with
      | EmptyString => if is_space c then EmptyString else String c EmptyString
      | r' => String c r'
      end
  end.

(** [s.strip()], for the blanks of the ASCII range; Python also strips the
    blanks beyond it (U+00A0, U+2003, ...), which an ASCII text does not
    hold. *)
Definition strip (s : string) : string := rstrip (lstrip s).

(** [s.title()]: a cased character is upper-cased when the character
    before it is not cased, and lower-cased otherwise.  The cased characters
    are the ASCII letters here; Python also cases the letters beyond them,
    which an ASCII text does not hold. *)
Fixpoint title_from (previous_is_cased : bool) (s : string) : string :=
  match s with
  | EmptyString => EmptyString
  | String c r =>
      if is_lower c then
        String (if previous_is_cased then c else to_upper c) (title_from true r)
      else if is_upper c then
        String (if previous_is_cased then to_lower c else c) (title_from true r)
      else String c (title_from false r)
  end.

Definition title (s : string) : string := title_from false s.

Fixpoint prefixb (p s : string) : bool :=
  match p, s with
  | EmptyString, _ => true
  | String a p', String b s' => Ascii.eqb a b && prefixb p' s'
  | String _ _, EmptyString => false
  end.

(** [sub in s] *)
Fixpoint contains (sub s : string) : bool :=
  prefixb sub s ||
  match s with
  | EmptyString => false
  | String _ r => contains sub r
  end.

(** [s.split(sep)[0]] for a one-character [sep]: the text before the first
    separator, the whole text when there is none. *)
Fixpoint split_first (sep : ascii) (s : string) : string :=
  match s with
  | EmptyString => EmptyString
  | String c r => if Ascii.eqb c sep then EmptyString else String c (split_first sep r)
  end.

Fixpoint has_digit (s : string) : bool :=
  match s with
  | EmptyString => false
  | String c r => is_digit c || has_digit r
  end.

Fixpoint mem (c : ascii) (s : string) : bool :=
  match s with
  | EmptyString => false
  | String d r => Ascii.eqb d c || mem c r
  end.

(** [s.split(sep)[-1]] for a one-character [sep]: the text after the last
    separator, the whole text when there is none. *)
Fixpoint split_last (sep : ascii) (s : string) : string :=
  match s with
  | EmptyString => EmptyString
  | String c r => if mem sep s then split_last sep r else s
  end.

End PyStr.

(* ===================================================================== *)
(** * Code points: where the ASCII classes are Python's *)
(* ===================================================================== *)

Module Unicode.

Definition byte (c : ascii) : N := N_of_ascii c.

(** The payload of a continuation byte of UTF-8 (10xxxxxx). *)
Definition continuation (c : ascii) : option N :=
  if ((128 <=? byte c) && (byte c <=? 191))%N then Some (byte c - 128)%N else None.

(** What a byte sequence that encodes no character is read as (U+FFFD);
    the encoding of a Python [str] holds none. *)
Definition replacement : N := 65533%N.

(** The code points a UTF-8 text encodes: the characters of the Python
    [str], in order. *)
Fixpoint codepoints (s : string) : list N :=
  match s with
  | EmptyString => []
  | String b1 r1 =>
      if (byte b1 <=? 191)%N then
        (if (byte b1 <=? 127)%N then byte b1 else replacement) :: codepoints r1
      else
        match r1 with
        | EmptyString => [replacement]
        | String b2 r2 =>
            match continuation b2 with
            | None => replacement :: codepoints r1
            | Some c2 =>
                if (byte b1 <=? 223)%N
                then ((byte b1 - 192) * 64 + c2)%N :: codepoints r2
                else
                  match r2 with
                  | EmptyString => [replacement]
                  | String b3 r3 =>
                      match continuation b3 with
                      | None => replacement :: codepoints r1
                      | Some c3 =>
                          if (byte b1 <=? 239)%N
                          then (((byte b1 - 224) * 64 + c2) * 64 + c3)%N :: codepoints r3
                          else
                            match r3 with
                            | EmptyString => [replacement]
                            | String b4 r4 =>
                                match continuation b4 with
                                | None => replacement :: codepoints r1
                                | Some c4 =>
                                    ((((byte b1 - 240) * 64 + c2) * 64 + c3) * 64 + c4)%N
                                      :: codepoints r4
                                end
                            end
                      end
                  end
            end
        end
  end.

(** The decimal digits of Unicode 14.0 (general category Nd, the characters
    [str.isdecimal], [\d] and [float] accept in CPython 3.11) come in 66 runs
    of ten, zero to nine; these are the code points of the zeros, the first
    being the ASCII zero. *)
Definition decimal_zeros : list N :=
  [48; 1632; 1776; 1984; 2406; 2534; 2662; 2790; 2918; 3046; 3174; 3302; 3430;
   3558; 3664; 3792; 3872; 4160; 4240; 6112; 6160; 6470; 6608; 6784; 6800; 6992;
   7088; 7232; 7248; 42528; 43216; 43264; 43472; 43504; 43600; 44016; 65296;
   66720; 68912; 69734; 69872; 69942; 70096; 70384; 70736; 70864; 71248; 71360;
   71472; 71904; 72016; 72784; 73040; 73120; 92768; 92864; 93008; 120782;
   120792; 120802; 120812; 120822; 123200; 123632; 125264; 130032]%N.

Definition is_decimal (c : N) : bool :=
  existsb (fun z => (z <=? c) && (c <=? z + 9))%N decimal_zeros.

(** The text holds a decimal digit, ASCII or not. *)
Definition has_decimal (s : string) : bool := existsb is_decimal (codepoints s).

(** The text holds a decimal digit outside the ASCII range: a character
    that is a [\d] for Python and is not one for [Regex.digit]. *)
Definition foreign_decimal (s : string) : bool :=
  existsb (fun c => (128 <=? c)%N && is_decimal c) (codepoints s).

(** Every character of the text is an ASCII character; on such a text the
    classes and the case mapping of [PyStr] and [Regex] are Python's. *)
Definition is_ascii (s : string) : bool :=
  forallb (fun c => (byte c <=? 127)%N) (list_ascii_of_string s).

End Unicode.

(* ===================================================================== *)
(** * Regular expressions: a backtracking matcher for [re.search] *)
(* ===================================================================== *)

Module Regex.

Inductive regex : Type :=
| RChar (cls : ascii -> bool)   (* one character of a class *)
| REps                          (* the empty pattern *)
| RSeq (a b : regex)
| RAlt (a b : regex)            (* a|b, [a] tried first *)
| RStar (a : regex)             (* a*, greedy *)
| RWordB.                       (* \b *)

Definition RPlus (a : regex) : regex := RSeq a (RStar a).

Fixpoint RLit (s : string) : regex :=
  match s with
  | EmptyString => REps
  | String c r => RSeq (RChar (Ascii.eqb c)) (RLit r)
  end.

Definition word_opt (c : option ascii) : bool :=
  match c with Some a => PyStr.is_word a | None => false end.

(** [rmatch r prev s k]: match [r] at the head of [s], [prev] being the
    character just before it, and hand what is left to the continuation
    [k]; alternatives are explored in Python's priority order and the
    first success wins. A star iterates at most [length s] times, each
    iteration having to consume at least one character. *)
Fixpoint rmatch {A : Type} (r : regex) (prev : option ascii) (s : list ascii)
         (k : option ascii -> list ascii -> option A) {struct r} : option A :=
  match r with
  | RChar cls =>
      match s with
      | c :: s' => if cls c then k (Some c) s' else None
      | [] => None
      end
  | REps => k prev s
  | RSeq a b => rmatch a prev s (fun p' s' => rmatch b p' s' k)
  | RAlt a b =>
      match rmatch a prev s k with
      | Some x => Some x
      | None => rmatch b prev s k
      end
  | RStar a =>
      (fix star (n : nat) (p0 : option ascii) (s0 : list ascii) {struct n} : option A :=
         match n with
         | O => k p0 s0
         | S n' =>
             match rmatch a p0 s0
                     (fun p' s' => if length s' <? length s0 then star n' p' s' else None) with
             | Some x => Some x
             | None => k p0 s0
             end
         end) (length s) prev s
  | RWordB => if xorb (word_opt prev) (word_opt (hd_error s)) then k prev s else None
  end.

(** A pattern with exactly one capture group: [pre(grp)post]. *)
Record pattern : Type := { pre : regex; grp : regex; post : regex }.

(** One attempt anchored at the head of [s]; yields the group's text. *)
Definition match_here (p : pattern) (prev : option ascii) (s : list ascii)
  : option (list ascii) :=
  rmatch (pre p) prev s (fun p1 s1 =>
    rmatch (grp p) p1 s1 (fun p2 s2 =>
      rmatch (post p) p2 s2 (fun _ _ => Some (firstn (length s1 - length s2) s1)))).

(** Leftmost match: [re.search]. *)
Fixpoint search_from (p : pattern) (prev : option ascii) (s : list ascii)
  : option (list ascii) :=
  match match_here p prev s with
  | Some g => Some g
  | None =>
      match s with
      | [] => None
      | c :: s' => search_from p (Some c) s'
      end
  end.

(** [re.search(p, s).group(1)], [None] when nothing matches. *)
Definition search (p : pattern) (s : string) : option string :=
  option_map string_of_list_ascii (search_from p None (list_ascii_of_string s)).

(** [\d] on the ASCII range.  Python's [\d] is any decimal digit of
    Unicode: the two find the same match in a text for which
    [Unicode.foreign_decimal] is [false]. *)
Definition digit : regex := RChar PyStr.is_digit.

Definition digit_or (set : string) : regex :=
  RChar (fun c => PyStr.is_digit c || PyStr.mem c set).

(** The pattern of [clean_price_data]: one group holding [\d+] followed by
    a greedy run of the class [\d\.,]. *)
Definition price_pattern : pattern :=
  {| pre := REps; grp := RSeq (RPlus digit) (RStar (digit_or ".,")); post := REps |}.

(** The pattern of [extract_attributes]: [\b], one group holding
    [XS|S|M|L|XL|XXL|XXXL|[0-9]+], then [\b]. *)
Definition size_pattern : pattern :=
  {| pre := RWordB;
     grp := RAlt (RLit "XS") (RAlt (RLit "S") (RAlt (RLit "M") (RAlt (RLit "L")
            (RAlt (RLit "XL") (RAlt (RLit "XXL") (RAlt (RLit "XXXL") (RPlus digit)))))));
     post := RWordB |}.

(** The pattern of [feature_engineering]: the literal [old price ₦], then
    one group holding a non-empty run of the class [\d,]. *)
Definition old_price_pattern : pattern :=
  {| pre := RLit "old price ₦"; grp := RPlus (digit_or ","); post := REps |}.

End Regex.

(* ===================================================================== *)
(** * Numbers: decimal parsing and rounding *)
(* ===================================================================== *)

Module PyNum.

Definition digit_val (c : ascii) : Z := Z.of_nat (PyStr.code c - 48).

Fixpoint all_digits (s : string) : bool :=
  match s with
  | EmptyString => true
  | String c r => PyStr.is_digit c && all_digits r
  end.

Fixpoint digits_value (acc : Z) (s : string) : Z :=
  match s with
  | EmptyString => acc
  | String c r => digits_value (10 * acc + digit_val c)%Z r
  end.

(** The text after the first [sep], empty when there is none. *)
Fixpoint after_first (sep : ascii) (s : string) : string :=
  match s with
  | EmptyString => EmptyString
  | String c r => if Ascii.eqb c sep then r else after_first sep r
  end.

Fixpoint pow10 (n : nat) : positive :=
  match n with
  | O => 1%positive
  | S n' => (10 * pow10 n')%positive
  end.

(** [float(s)] on the texts that reach it in this script: ASCII digits
    with at most one decimal point and at least one digit.  [None] stands
    for the [ValueError] Python raises on anything else made of digits and
    points (two points, a lone point).  The value is the exact decimal; the
    binary64 float Python returns is that value when it is an integer up to
    2^53 or a dyadic fraction, and the nearest float otherwise. *)
Definition py_float (s : string) : option Q :=
  let ip := PyStr.split_first "." s in
  let fp := after_first "." s in
  if all_digits ip && all_digits fp && (1 <=? String.length ip + String.length fp) then
    Some (Qred (Qmake (digits_value 0 (String.append ip fp)) (pow10 (String.length fp))))
  else None.

Definition half : Q := Qmake 1 2.

(** [numpy.rint]: round to the nearest integer, ties to the even one. *)
Definition rint (x : Q) : Z :=
  let f := Qfloor x in
  let d := Qminus x (inject_Z f) in
  match Qcompare d half with
  | Lt => f
  | Gt => (f + 1)%Z
  | Eq => if Z.even f then f else (f + 1)%Z
  end.

(** [round(2)] of numpy: [rint(x * 100) / 100]. *)
Definition round2 (x : Q) : Q :=
  Qred (Qmake (rint (Qmult x (inject_Z 100))) 100).

End PyNum.

(* ===================================================================== *)
(** * The pandas data model *)
(* ===================================================================== *)

(** A cell is missing ([NaN]), a number, a text or a boolean. *)
Inductive cell : Type :=
| NaN
| Num (q : Q)
| Str (s : string)
| Bool (b : bool).

(** The dtypes a frame loaded by [read_csv] and transformed by this script
    can carry: [int64]/[float64], [bool] and [object]. *)
Inductive dtype : Type := Numeric | Boolean | Object.

Record Series : Type := mkSeries { dtype_of : dtype; values : list cell }.

(** A frame is the ordered list of its labelled columns. *)
Definition DataFrame : Type := list (string * Series).

Inductive exn : Type := AttributeError | KeyError | TypeError | ValueError.

Inductive outcome (A : Type) : Type :=
| Returned (a : A)
| Raised (e : exn).
Arguments Returned {A} a.
Arguments Raised {A} e.

Definition bind {A B : Type} (c : outcome A) (k : A -> outcome B) : outcome B :=
  match c with
  | Returned a => k a
  | Raised e => Raised e
  end.

Declare Scope py_scope.
Delimit Scope py_scope with py.
Notation "x <- c ;; k" := (bind c (fun x => k))
  (at level 61, c at next level, right associativity) : py_scope.
Local Open Scope py_scope.

Module Pandas.

Definition dtype_eqb (a b : dtype) : bool :=
  match a, b with
  | Numeric, Numeric | Boolean, Boolean | Object, Object => true
  | _, _ => false
  end.

Definition isnull (c : cell) : bool :=
  match c with NaN => true | _ => false end.

Definition notnull (c : cell) : bool := negb (isnull c).

(** [df.columns] *)
Definition columns (df : DataFrame) : list string := map fst df.

(** [name in df.columns] *)
Definition has_column (name : string) (df : DataFrame) : bool :=
  existsb (String.eqb name) (columns df).

(** [len(df)]: every column of a frame has the same length. *)
Definition nrows (df : DataFrame) : nat :=
  match df with
  | [] => 0
  | (_, s) :: _ => length (values s)
  end.

(** The columns carrying a label, in frame order. *)
Definition labelled (name : string) (df : DataFrame) : list Series :=
  map snd (filter (fun c => String.eqb (fst c) name) df).

(** [df[name]] where the script goes on with a Series: a missing label is
    a [KeyError]; a label carried by two columns yields a DataFrame, on
    which the Series-only attribute the script reads next ([.str]) is an
    [AttributeError].  The model raises at every access to a repeated
    label; the statements about whole frames assume distinct labels. *)
Definition getitem (df : DataFrame) (name : string) : outcome Series :=
  match labelled name df with
  | [] => Raised KeyError
  | [s] => Returned s
  | _ :: _ :: _ => Raised AttributeError
  end.

(** [df[name] = s]: replaces the column(s) carrying the label, appends a
    new last column otherwise. *)
Definition setitem (df : DataFrame) (name : string) (s : Series) : DataFrame :=
  if has_column name df
  then map (fun c => if String.eqb (fst c) name then (name, s) else c) df
  else df ++ [(name, s)].

(** [df.rename(columns={old: new})] *)
Definition rename (old new : string) (df : DataFrame) : DataFrame :=
  map (fun c => if String.eqb (fst c) old then (new, snd c) else c) df.

Definition is_num (c : cell) : bool := match c with Num _ => true | _ => false end.
Definition is_bool (c : cell) : bool := match c with Bool _ => true | _ => false end.

(** The check behind the [.str] accessor: the column must be of dtype
    [object] and its non-missing values must not be inferred as all
    numbers or all booleans. *)
Definition str_values_ok (v : list cell) : bool :=
  let present := filter notnull v in
  match present with
  | [] => true
  | _ => negb (forallb is_num present) && negb (forallb is_bool present)
  end.

(** [s.str], yielding the values the string method will map over. *)
Definition str_accessor (s : Series) : outcome (list cell) :=
  match dtype_of s with
  | Object => if str_values_ok (values s) then Returned (values s)
              else Raised AttributeError
  | _ => Raised AttributeError
  end.

(** A [.str] method with per-element function [f]: elements that are
    not texts come out missing. *)
Definition str_map (f : string -> cell) (v : list cell) : list cell :=
  map (fun c => match c with Str s => f s | _ => NaN end) v.

(** [.str.extract(pattern, expand=False)] for a one-group pattern. *)
Definition str_extract (p : Regex.pattern) (v : list cell) : list cell :=
  str_map (fun s => match Regex.search p s with Some g => Str g | None => NaN end) v.

(** [.str.replace(',', '')] *)
Definition str_replace (old : ascii) (new : string) (v : list cell) : list cell :=
  str_map (fun s => Str (PyStr.replace old new s)) v.

Definition num_of_bool (b : bool) : Q := if b then Qmake 1 1 else Qmake 0 1.

(** [.astype(float)] element by element: texts go through [float()]. *)
Definition float_of_cell (c : cell) : outcome cell :=
  match c with
  | NaN => Returned NaN
  | Num q => Returned (Num q)
  | Bool b => Returned (Num (num_of_bool b))
  | Str s => match PyNum.py_float s with
             | Some q => Returned (Num q)
             | None => Raised ValueError
             end
  end.

Fixpoint astype_float (v : list cell) : outcome (list cell) :=
  match v with
  | [] => Returned []
  | c :: r =>
      x <- float_of_cell c ;;
      xs <- astype_float r ;;
      Returned (x :: xs)
  end.

(** [pd.to_numeric(s, errors='coerce')] on texts and missing values. *)
Definition to_numeric_coerce (v : list cell) : list cell :=
  map (fun c => match c with
                | Str s => match PyNum.py_float s with Some q => Num q | None => NaN end
                | Num q => Num q
                | Bool b => Bool b
                | NaN => NaN
                end) v.

(** [.fillna(x)] *)
Definition fillna (x : cell) (v : list cell) : list cell :=
  map (fun c => if isnull c then x else c) v.

(** [df[cols] = df[cols].fillna(x)] for [cols] the columns of dtype [d]
    ([df.select_dtypes(...).columns]). *)
Definition fill_dtype (d : dtype) (x : cell) (df : DataFrame) : DataFrame :=
  map (fun c => if dtype_eqb (dtype_of (snd c)) d
                then (fst c, mkSeries d (fillna x (values (snd c))))
                else c) df.

(** Structural equality of cells, and the equality pandas hashes rows
    with: missing values are equal to each other, numbers are compared by
    value and a boolean equals the number 1 or 0, as in Python. *)
Definition cell_eqb (a b : cell) : bool :=
  match a, b with
  | NaN, NaN => true
  | Num p, Num q => Z.eqb (Qnum p) (Qnum q) && Pos.eqb (Qden p) (Qden q)
  | Str s, Str t => String.eqb s t
  | Bool x, Bool y => Bool.eqb x y
  | _, _ => false
  end.

Definition norm_cell (c : cell) : cell :=
  match c with
  | Num q => Num (Qred q)
  | Bool b => Num (num_of_bool b)
  | _ => c
  end.

Definition py_eqb (a b : cell) : bool := cell_eqb (norm_cell a) (norm_cell b).

Fixpoint row_eqb (r1 r2 : list cell) : bool :=
  match r1, r2 with
  | [], [] => true
  | a :: r1', b :: r2' => py_eqb a b && row_eqb r1' r2'
  | _, _ => false
  end.

(** The rows of a frame, read off its columns: the first row is made of
    the head of every column, the others come from the tails. *)
Definition cells (df : DataFrame) : list (list cell) :=
  map (fun c => values (snd c)) df.

Fixpoint rows_of (n : nat) (cols : list (list cell)) : list (list cell) :=
  match n with
  | O => []
  | S n' => map (hd NaN) cols :: rows_of n' (map (@tl cell) cols)
  end.

Definition rows (df : DataFrame) : list (list cell) :=
  rows_of (nrows df) (cells df).

Definition row (df : DataFrame) (i : nat) : list cell := nth i (rows df) [].

(** [df.duplicated()]: a row is flagged when an earlier row equals it. *)
Fixpoint duplicated_from (seen : list (list cell)) (rs : list (list cell)) : list bool :=
  match rs with
  | [] => []
  | r :: rs' => existsb (row_eqb r) seen :: duplicated_from (r :: seen) rs'
  end.

Definition duplicated (df : DataFrame) : list bool := duplicated_from [] (rows df).

(** Boolean indexing: the elements whose mask entry is [true]. *)
Fixpoint select {A : Type} (mask : list bool) (l : list A) : list A :=
  match mask, l with
  | b :: m, x :: l' => if b then x :: select m l' else select m l'
  | _, _ => []
  end.

Definition select_rows (mask : list bool) (df : DataFrame) : DataFrame :=
  map (fun c => (fst c, mkSeries (dtype_of (snd c)) (select mask (values (snd c))))) df.

(** [df.drop_duplicates()] *)
Definition drop_duplicates (df : DataFrame) : DataFrame :=
  select_rows (map negb (duplicated df)) df.

(** Masked assignment of aligned values: [old.loc[mask] = new.loc[mask]]. *)
Fixpoint assign_where (mask : list bool) (old new : list cell) : list cell :=
  match mask, old, new with
  | b :: m, o :: old', n :: new' => (if b then n else o) :: assign_where m old' new'
  | _, _, _ => old
  end.

Definition join_dtype (a b : dtype) : dtype :=
  match a, b with
  | Numeric, Numeric => Numeric
  | Boolean, Boolean => Boolean
  | _, _ => Object
  end.

(** [df.loc[mask, name] = s.loc[mask]]: an existing column keeps its cells
    outside the mask; a missing one is created, missing outside the mask. *)
Definition loc_set (df : DataFrame) (mask : list bool) (name : string) (s : Series)
  : DataFrame :=
  if has_column name df
  then map (fun c => if String.eqb (fst c) name
                     then (name, mkSeries (join_dtype (dtype_of (snd c)) (dtype_of s))
                                          (assign_where mask (values (snd c)) (values s)))
                     else c) df
  else df ++ [(name, mkSeries (dtype_of s)
                              (assign_where mask (repeat NaN (nrows df)) (values s)))].

(** ** Well-formed frames *)

Fixpoint distinct (l : list string) : bool :=
  match l with
  | [] => true
  | x :: r => negb (existsb (String.eqb x) r) && distinct r
  end.

(** Every column has as many cells as the frame has rows. *)
Definition aligned (df : DataFrame) : bool :=
  forallb (fun c => length (values (snd c)) =? nrows df) df.

(** The cells a column of each dtype can hold: numbers and missing values
    in a numeric column, booleans in a boolean one, anything in an
    [object] one. *)
Definition fits (d : dtype) (c : cell) : bool :=
  match d, c with
  | Numeric, Num _ | Numeric, NaN => true
  | Boolean, Bool _ => true
  | Object, _ => true
  | _, _ => false
  end.

Definition well_typed (df : DataFrame) : bool :=
  forallb (fun c => forallb (fits (dtype_of (snd c))) (values (snd c))) df.

Definition well_formed (df : DataFrame) : bool :=
  distinct (columns df) && aligned df && well_typed df.

(** [df.isnull().sum().sum() == 0] *)
Definition no_nulls (df : DataFrame) : bool :=
  forallb (fun c => forallb notnull (values (snd c))) df.

End Pandas.

(* ===================================================================== *)
(** * The script *)
(* ===================================================================== *)

Import Pandas.

Definition INPUT_DIR : string := "Jumia Data/raw".
Definition OUTPUT_DIR : string := "Jumia Data/processed".

(** The one printed line the properties below speak of: the warning of
    [feature_engineering], with the exception it reports. *)
Inductive log_line : Type := Warning (e : exn).

(** [for x in l: state = body(state, x)], stopping at the first exception. *)
Fixpoint for_each {A S : Type} (l : list A) (body : S -> A -> outcome S) (st : S)
  : outcome S :=
  match l with
  | [] => Returned st
  | x :: r => st' <- body st x ;; for_each r body st'
  end.

(** [standardize_column_names]: [col.lower().replace(' ', '_')] per label. *)
Definition standardize_label (col : string) : string :=
  PyStr.replace " " "_" (PyStr.lower col).

Definition standardize_column_names (df : DataFrame) : DataFrame :=
  map (fun c => (standardize_label (fst c), snd c)) df.

(** [pd.api.types.is_numeric_dtype]: integers, floats and booleans. *)
Definition is_numeric_dtype (s : Series) : bool :=
  match dtype_of s with
  | Numeric | Boolean => true
  | Object => false
  end.

Section Script.

(** Python's [str(x)] for a number [x] held in an [object] column (the
    shortest text that reads back as the same float, or the decimal text
    of an integer).  It is reached only when an [object] column that
    [clean_price_data] converts holds numbers besides texts; the
    development is parametric in it. *)
Variable num_repr : Q -> string.

(** [.astype(str)] element by element. *)
Definition astype_str (c : cell) : cell :=
  match c with
  | Str s => Str s
  | NaN => Str "nan"
  | Bool true => Str "True"
  | Bool false => Str "False"
  | Num q => Str (num_repr q)
  end.

(** The body of the loop of [clean_price_data] for one label. *)
Definition clean_price_column (df : DataFrame) (col : string) : outcome DataFrame :=
  if has_column col df then
    s <- getitem df col ;;
    if is_numeric_dtype s then Returned df
    else
      (* df[col] = df[col].astype(str).str.extract(pattern, expand=False) *)
      v <- str_accessor (mkSeries Object (map astype_str (values s))) ;;
      let df := setitem df col (mkSeries Object (str_extract Regex.price_pattern v)) in
      (* df[col] = df[col].str.replace(',', '').astype(float) *)
      s <- getitem df col ;;
      v <- str_accessor s ;;
      v <- astype_float (str_replace "," "" v) ;;
      Returned (setitem df col (mkSeries Numeric v))
  else Returned df.

Definition clean_price_data (df : DataFrame) : outcome DataFrame :=
  let df := if has_column "product_price" df
            then rename "product_price" "price" df else df in
  let price_columns :=
    filter (fun col => PyStr.contains "price" (PyStr.lower col)) (columns df) in
  for_each price_columns clean_price_column df.

Definition object_series (v : list cell) : Series := mkSeries Object v.

(** [df[name].str], the values of the column when the accessor exists. *)
Definition str_of (df : DataFrame) (name : string) : outcome (list cell) :=
  s <- getitem df name ;; str_accessor s.

(** The four blocks of [extract_attributes], in source order. *)

(** [if 'category' not in df.columns: df['category'] = category_name] *)
Definition add_category (category_name : string) (df : DataFrame) : DataFrame :=
  if negb (has_column "category" df)
  then setitem df "category" (object_series (repeat (Str category_name) (nrows df)))
  else df.

(** [if 'product_name' in df.columns:] rename it to [name], strip and
    title-case the names. *)
Definition clean_names (df : DataFrame) : outcome DataFrame :=
  if has_column "product_name" df then
    let df := rename "product_name" "name" df in
    v <- str_of df "name" ;;
    let df := setitem df "name"
                (object_series (str_map (fun s => Str (PyStr.strip s)) v)) in
    v <- str_of df "name" ;;
    Returned (setitem df "name"
                (object_series (str_map (fun s => Str (PyStr.title s)) v)))
  else Returned df.

(** [if 'name' in df.columns and 'extracted_size' not in df.columns:]
    search the names for a size, fall back on [sizes] where none is found. *)
Definition extract_size (df : DataFrame) : outcome DataFrame :=
  if has_column "name" df && negb (has_column "extracted_size" df) then
    v <- str_of df "name" ;;
    let df := setitem df "extracted_size"
                (object_series (str_extract Regex.size_pattern v)) in
    if has_column "sizes" df then
      es <- getitem df "extracted_size" ;;
      let mask := map isnull (values es) in
      sizes <- getitem df "sizes" ;;
      Returned (loc_set df mask "extracted_size" sizes)
    else Returned df
  else Returned df.

(** [if 'name' in df.columns and 'brand' not in df.columns:]
    [df['brand'] = df['name'].str.split(' ').str[0]] *)
Definition extract_brand (df : DataFrame) : outcome DataFrame :=
  if has_column "name" df && negb (has_column "brand" df) then
    v <- str_of df "name" ;;
    Returned (setitem df "brand"
                (object_series (str_map (fun s => Str (PyStr.split_first " " s)) v)))
  else Returned df.

Definition extract_attributes (df : DataFrame) (category_name : string)
  : outcome DataFrame :=
  let df := add_category category_name df in
  df <- clean_names df ;;
  df <- extract_size df ;;
  df <- extract_brand df ;;
  Returned df.

(** The two [fillna] assignments of [handle_missing_and_duplicates]. *)
Definition fill_missing (df : DataFrame) : DataFrame :=
  let df := fill_dtype Numeric (Num (Qmake 0 1)) df in
  fill_dtype Object (Str "Unknown") df.

Definition handle_missing_and_duplicates (df : DataFrame) : DataFrame :=
  let df := fill_missing df in
  drop_duplicates df.

Definition positive_number (c : cell) : bool :=
  match c with
  | Num q => match Qcompare q (Qmake 0 1) with Gt => true | _ => false end
  | _ => false
  end.

(** [(old_price - price) / old_price * 100] on one row, computed exactly;
    binary64 rounds the quotient and the product, so the value is the
    float's only where both operations are exact (as for 2000 and 1500),
    while whether the cell is a number or missing is the same in both. *)
Definition discount_cell (old_price price : cell) : outcome cell :=
  match old_price, price with
  | Num o, Num p => Returned (Num (Qred (Qmult (Qdiv (Qminus o p) o) (inject_Z 100))))
  | Num o, Bool b =>
      Returned (Num (Qred (Qmult (Qdiv (Qminus o (num_of_bool b)) o) (inject_Z 100))))
  | Num _, Str _ => Raised TypeError
  | _, _ => Returned NaN
  end.

(** The right-hand side of the masked assignment: computed on the rows of
    the mask only. *)
Fixpoint discount_values (mask : list bool) (old_price price : list cell)
  : outcome (list cell) :=
  match mask, old_price, price with
  | b :: m, o :: old', p :: price' =>
      x <- (if b then discount_cell o p else Returned NaN) ;;
      xs <- discount_values m old' price' ;;
      Returned (x :: xs)
  | _, _, _ => Returned []
  end.

(** [df[name] = df[name].round(2)]: numeric columns are rounded, others
    are left as they are. *)
Definition round_column (name : string) (df : DataFrame) : DataFrame :=
  map (fun c => if String.eqb (fst c) name && dtype_eqb (dtype_of (snd c)) Numeric
                then (fst c, mkSeries Numeric
                               (map (fun x => match x with
                                              | Num q => Num (PyNum.round2 q)
                                              | _ => x
                                              end) (values (snd c))))
                else c) df.

(** The block guarded by [try]: the frame as the block left it, and the
    exception that interrupted it, if any. *)
Inductive attempt : Type :=
| Completed (df : DataFrame)
| Interrupted (df : DataFrame) (e : exn).

Definition discount_block (df : DataFrame) : attempt :=
  (* df['old_price'] = df['price_info'].str.extract(pattern, expand=False) *)
  match str_of df "price_info" with
  | Raised e => Interrupted df e
  | Returned v =>
      let df := setitem df "old_price"
                  (object_series (str_extract Regex.old_price_pattern v)) in
      (* df['old_price'] = pd.to_numeric(df['old_price'].str.replace(',', ''),
                                         errors='coerce') *)
      match str_of df "old_price" with
      | Raised e => Interrupted df e
      | Returned v =>
          let df := setitem df "old_price"
                      (mkSeries Numeric (to_numeric_coerce (str_replace "," "" v))) in
          (* mask = df['old_price'].notnull() & (df['old_price'] > 0) *)
          match getitem df "old_price" with
          | Raised e => Interrupted df e
          | Returned old_price =>
              let mask := map positive_number (values old_price) in
              (* if mask.any(): the masked assignment, then round(2) *)
              if existsb (fun b => b) mask then
                match (price <- getitem df "price" ;;
                       d <- discount_values mask (values old_price) (values price) ;;
                       Returned (mkSeries (match dtype_of price with
                                           | Object => Object
                                           | _ => Numeric
                                           end) d)) with
                | Raised e => Interrupted df e
                | Returned d =>
                    Completed (round_column "discount_percentage"
                                 (loc_set df mask "discount_percentage" d))
                end
              else Completed df
          end
      end
  end.

Definition feature_engineering (df : DataFrame) : outcome (DataFrame * list log_line) :=
  if has_column "price_info" df && has_column "price" df then
    match discount_block df with
    | Completed df' => Returned (df', [])
    | Interrupted df' e => Returned (df', [Warning e])
    end
  else Returned (df, []).

(** [os.path.basename(file_path).split('_')[-1].split('.')[0]] *)
Definition category_of_path (file_path : string) : string :=
  PyStr.split_first "." (PyStr.split_last "_" (PyStr.split_last "/" file_path)).

Record processed : Type := mkProcessed {
  table : DataFrame;          (* the frame returned and written *)
  category : string;          (* the label derived from the file name *)
  output_path : string;       (* where the frame is written *)
  warnings : list log_line
}.

(** [process_file], given the frame [read_csv] loaded from [file_path]. *)
Definition process_file (file_path : string) (loaded : DataFrame) : outcome processed :=
  let category_name := category_of_path file_path in
  let df := loaded in
  let df := standardize_column_names df in
  df <- clean_price_data df ;;
  df <- extract_attributes df category_name ;;
  let df := handle_missing_and_duplicates df in
  r <- feature_engineering df ;;
  let output_path :=
    String.append OUTPUT_DIR
      (String.append "/" (String.append "processed_"
         (String.append category_name ".csv"))) in
  Returned (mkProcessed (fst r) category_name output_path (snd r)).

End Script.

(* ===================================================================== *)
(** * Aggregation and summary *)
(* ===================================================================== *)

(** The labels of [pd.concat(frames)]: the union of the frames' labels in
    order of first appearance. *)
Definition union_labels (frames : list DataFrame) : list string :=
  fold_left
    (fun acc df =>
       acc ++ filter (fun l => negb (existsb (String.eqb l) acc)) (columns df))
    frames [].

(** What a frame contributes to a column of the concatenation: its own
    cells, or one missing value per row when it lacks the label. *)
Definition contribution (name : string) (df : DataFrame) : list cell :=
  match labelled name df with
  | s :: _ => values s
  | [] => repeat NaN (nrows df)
  end.

Definition contributed_dtype (name : string) (df : DataFrame) : option dtype :=
  match labelled name df with
  | s :: _ => Some (dtype_of s)
  | [] => None
  end.

(** The dtype of a concatenated column: [bool] when every frame has it as
    [bool], numeric when every frame has it numeric or lacks it, [object]
    otherwise. *)
Definition concat_dtype (name : string) (frames : list DataFrame) : dtype :=
  let ds := map (contributed_dtype name) frames in
  if forallb (fun d => match d with Some Boolean => true | _ => false end) ds then Boolean
  else if forallb (fun d => match d with Some Numeric | None => true | _ => false end) ds
       then Numeric
       else Object.

(** [pd.concat(frames, ignore_index=True)] for a non-empty list. *)
Definition concat (frames : list DataFrame) : DataFrame :=
  map (fun l => (l, mkSeries (concat_dtype l frames) (flat_map (contribution l) frames)))
      (union_labels frames).

Definition combine_datasets (dataframes : list DataFrame) : outcome DataFrame :=
  match dataframes with
  | [] => Raised ValueError
  | _ => Returned (concat dataframes)
  end.

(** The group keys of a column: its distinct non-missing values, in order
    of first appearance. *)
Fixpoint unique_from (seen : list cell) (v : list cell) : list cell :=
  match v with
  | [] => []
  | c :: r =>
      if isnull c || existsb (py_eqb c) seen then unique_from seen r
      else c :: unique_from (c :: seen) r
  end.

Definition unique (v : list cell) : list cell := unique_from [] v.

(** The order group keys are sorted in: numbers by value, texts by code
    point, numbers before texts. *)
Definition key_leb (a b : cell) : bool :=
  match norm_cell a, norm_cell b with
  | Num p, Num q => Qle_bool p q
  | Num _, _ => true
  | Str s, Str t => String.leb s t
  | Str _, Num _ => false
  | _, _ => true
  end.

Section Sorting.
Context {A : Type} (leb : A -> A -> bool).

Fixpoint insert_sorted (x : A) (l : list A) : list A :=
  match l with
  | [] => [x]
  | y :: r => if leb x y then x :: l else y :: insert_sorted x r
  end.

Definition sort (l : list A) : list A := fold_right insert_sorted [] l.
End Sorting.

(** The cells of [v] on the rows whose category is [k]. *)
Definition group_cells (k : cell) (cat v : list cell) : list cell :=
  select (map (py_eqb k) cat) v.

Definition numbers_of (v : list cell) : list Q :=
  flat_map (fun c => match c with
                     | Num q => [q]
                     | Bool b => [num_of_bool b]
                     | _ => []
                     end) v.

Definition is_str (c : cell) : bool := match c with Str _ => true | _ => false end.

Definition agg_count (v : list cell) : cell :=
  Num (inject_Z (Z.of_nat (length (filter notnull v)))).

Definition agg_mean (v : list cell) : cell :=
  match numbers_of v with
  | [] => NaN
  | qs => Num (Qred (Qdiv (fold_right Qplus (Qmake 0 1) qs)
                          (inject_Z (Z.of_nat (length qs)))))
  end.

Definition agg_min (v : list cell) : cell :=
  match numbers_of v with
  | [] => NaN
  | q :: qs => Num (fold_right (fun a b => if Qle_bool a b then a else b) q qs)
  end.

Definition agg_max (v : list cell) : cell :=
  match numbers_of v with
  | [] => NaN
  | q :: qs => Num (fold_right (fun a b => if Qle_bool a b then b else a) q qs)
  end.

(** The aggregates of one column over one group; the mean of a group that
    holds a text is a [TypeError]. *)
Definition aggregate (with_count : bool) (v : list cell) : outcome (list cell) :=
  if existsb is_str v then Raised TypeError
  else Returned ((if with_count then [agg_count v] else [])
                   ++ [agg_mean v; agg_min v; agg_max v]).

(** What [create_summary_statistics] writes: category counts, or one row
    of aggregates per category. *)
Inductive summary : Type :=
| CategoryCounts (counts : list (cell * nat))
| Aggregated (stats : list (cell * list cell)).

Definition summary_keys (sm : summary) : list cell :=
  match sm with
  | CategoryCounts counts => map fst counts
  | Aggregated stats => map fst stats
  end.

(** [df['category'].value_counts()]: one row per distinct value, the most
    frequent first. *)
Definition value_counts (cat : list cell) : list (cell * nat) :=
  sort (fun a b => snd b <=? snd a)
       (map (fun k => (k, length (filter (py_eqb k) cat))) (unique cat)).

Definition create_summary_statistics (df : DataFrame) : outcome summary :=
  let with_price := has_column "price" df in
  let with_discount := has_column "discount_percentage" df in
  if negb (with_price || with_discount) then
    cat <- getitem df "category" ;;
    Returned (CategoryCounts (value_counts (values cat)))
  else
    cat <- getitem df "category" ;;
    stats <- for_each (sort key_leb (unique (values cat)))
               (fun acc k =>
                  ps <- (if with_price then
                           price <- getitem df "price" ;;
                           aggregate true (group_cells k (values cat) (values price))
                         else Returned []) ;;
                  ds <- (if with_discount then
                           d <- getitem df "discount_percentage" ;;
                           aggregate false (group_cells k (values cat) (values d))
                         else Returned []) ;;
                  Returned (acc ++ [(k, ps ++ ds)]))
               [] ;;
    Returned (Aggregated stats).

(** [main], given the CSV files of [INPUT_DIR] already loaded. *)
Definition main (num_repr : Q -> string) (files : list (string * DataFrame))
  : outcome (list processed * DataFrame * summary) :=
  processed_dfs <- for_each files
                     (fun acc f =>
                        r <- process_file num_repr
                               (String.append INPUT_DIR (String.append "/" (fst f)))
                               (snd f) ;;
                        Returned (acc ++ [r]))
                     [] ;;
  combined_df <- combine_datasets (map table processed_dfs) ;;
  sm <- create_summary_statistics combined_df ;;
  Returned (processed_dfs, combined_df, sm).

(** A stand-in for [num_repr] to run examples with; it is not reached on
    frames whose [object] columns hold only texts and missing values. *)
Definition sample_repr (q : Q) : string := "0".

(** What the loop of [clean_price_data] does to a column it visits, as a
    function of the column alone: a numeric column is kept, any other has
    each cell turned into text, searched, stripped of commas and parsed. *)
Definition price_text (num_repr : Q -> string) (c : cell) : cell :=
  match astype_str num_repr c with
  | Str s => match Regex.search Regex.price_pattern s with
             | Some g => Str (PyStr.replace "," "" g)
             | None => NaN
             end
  | _ => NaN
  end.

Definition convert_series (num_repr : Q -> string) (s : Series) : outcome Series :=
  if is_numeric_dtype s then Returned s
  else v <- astype_float (map (price_text num_repr) (values s)) ;;
       Returned (mkSeries Numeric v).

(* ===================================================================== *)
(** * Notions used in the statements and proofs *)
(* ===================================================================== *)

(** The labels [clean_price_data] visits, and the relabelling it starts with. *)
Definition price_like (label : string) : bool :=
  PyStr.contains "price" (PyStr.lower label).

Definition relabelled (label : string) : string :=
  if String.eqb label "product_price" then "price" else label.

(** The relation between a column before and after the loop has visited
    the labels of [L]. *)
Definition converted (num_repr : Q -> string) (L : list string)
           (c c' : string * Series) : Prop :=
  fst c' = fst c
  /\ if existsb (String.eqb (fst c)) L
     then convert_series num_repr (snd c) = Returned (snd c')
     else snd c' = snd c.

(** The rows that survive [drop_duplicates], from the rows of the frame
    and the rows seen before them. *)
Definition kept (seen rs : list (list cell)) : list (list cell) :=
  select (map negb (duplicated_from seen rs)) rs.

Definition occurrences (r : list cell) (rs : list (list cell)) : nat :=
  length (filter (row_eqb r) rs).

(** What the two [fillna] assignments do to a cell of a column of dtype [d]. *)
Definition fill_cell (d : dtype) (c : cell) : cell :=
  match d, c with
  | Numeric, NaN => Num (Qmake 0 1)
  | Object, NaN => Str "Unknown"
  | _, _ => c
  end.

Definition fill_column (c : string * Series) : string * Series :=
  (fst c, mkSeries (dtype_of (snd c)) (map (fill_cell (dtype_of (snd c))) (values (snd c)))).

(** The cells of a column fit its dtype. *)
Definition series_typed (s : Series) : bool := forallb (fits (dtype_of s)) (values s).

(** No column carrying the label is of dtype [object]. *)
Definition not_text (name : string) (df : DataFrame) : bool :=
  forallb is_numeric_dtype (labelled name df).

(** The discount step, row by row: the old price read off a [price_info]
    cell, and the discount it gives against a price, before and after
    rounding. *)
Definition old_price_of (c : cell) : cell :=
  match c with
  | Str t =>
      match Regex.search Regex.old_price_pattern t with
      | Some g =>
          match PyNum.py_float (PyStr.replace "," "" g) with
          | Some q => Num q
          | None => NaN
          end
      | None => NaN
      end
  | _ => NaN
  end.

Definition unrounded_discount (old_price price : cell) : cell :=
  if positive_number old_price then
    match old_price, price with
    | Num o, Num p => Num (Qred (Qmult (Qdiv (Qminus o p) o) (inject_Z 100)))
    | _, _ => NaN
    end
  else NaN.

Definition discount_of (old_price price : cell) : cell :=
  match unrounded_discount old_price price with
  | Num q => Num (PyNum.round2 q)
  | c => c
  end.

(** Every column of [df] holds [n] cells, and [n] is its number of rows. *)
Definition rectangular (n : nat) (df : DataFrame) : Prop :=
  Forall (fun c => length (values (snd c)) = n) df /\ nrows df = n.

(** The category label as the specification words it: the part of the base
    file name that follows the last underscore and precedes the extension,
    the extension being what follows the last dot of the base name. *)
Fixpoint before_last (sep : ascii) (s : string) : string :=
  match s with
  | EmptyString => EmptyString
  | String c r =>
      if Ascii.eqb c sep && negb (PyStr.mem sep r) then EmptyString
      else String c (before_last sep r)
  end.

Definition label_before_extension (file_path : string) : string :=
  PyStr.split_last "_" (before_last "." (PyStr.split_last "/" file_path)).

(** The file name [dir/stem_label.rest]. *)
Definition file_named (dir stem label rest : string) : string :=
  String.append dir (String "/" (String.append stem
    (String "_" (String.append label (String "." rest))))).

(** What the column normalizer does to one ASCII character of a label. *)
Definition normalized_char (c : ascii) : ascii :=
  if Ascii.eqb c " " then "_"%char else PyStr.to_lower c.

(** The characters the price pattern goes on with after its first digit,
    and a text at which a run of them stops. *)
Definition amount_char (c : ascii) : bool := PyStr.is_digit c || PyStr.mem c ".,".

Definition stops (cls : ascii -> bool) (rest : list ascii) : Prop :=
  match rest with
  | [] => True
  | c :: _ => cls c = false
  end.

(** An amount written with ASCII digits and grouping commas, the first
    character being a digit: [1,500], [42]. *)
Fixpoint digits_and_commas (s : string) : bool :=
  match s with
  | EmptyString => true
  | String c r => (PyStr.is_digit c || Ascii.eqb c ",") && digits_and_commas r
  end.

Definition grouped_integer (s : string) : bool :=
  match s with
  | EmptyString => false
  | String d r => PyStr.is_digit d && digits_and_commas r
  end.

(** The text that follows an amount ends it: it is empty, or its first
    character is neither a decimal digit (of any script), a point nor a
    comma. *)
Definition ends_amount (post : string) : bool :=
  match Unicode.codepoints post with
  | [] => true
  | c :: _ => negb (Unicode.is_decimal c || (c =? 46)%N || (c =? 44)%N)
  end.

(** The integers a binary64 float holds exactly, and the cells holding a
    number within their range. *)
Definition exact_integer (n : Z) : bool := (n <=? 2 ^ 53)%Z.

Definition within_exact_range (c : cell) : bool :=
  match c with
  | Num q => Qle_bool q (inject_Z (2 ^ 53))
  | _ => true
  end.

(** A cell that is a text holds ASCII characters only, respectively no
    decimal digit outside the ASCII range. *)
Definition ascii_cell (c : cell) : bool :=
  match c with Str t => Unicode.is_ascii t | _ => true end.

Definition plain_digits_cell (c : cell) : bool :=
  match c with Str t => negb (Unicode.foreign_decimal t) | _ => true end.

(** Every column carrying the label is of dtype [int64]/[float64]. *)
Definition holds_numbers (name : string) (df : DataFrame) : bool :=
  forallb (fun s => dtype_eqb (dtype_of s) Numeric) (labelled name df).

(** A processed table the summarizer accepts: distinct labels, columns of
    equal length whose cells fit their dtype, a [category] column, and
    numbers in the columns [price] and [discount_percentage] it may have. *)
Definition summarizable (t : DataFrame) : bool :=
  well_formed t && has_column "category" t
  && holds_numbers "price" t && holds_numbers "discount_percentage" t.

(* ===================================================================== *)
(** * The primitives on examples *)
(* ===================================================================== *)

Example codepoints_of_text :
  Unicode.codepoints "A₦é١𝟘" = [65; 8358; 233; 1633; 120792]%N.
Proof. vm_compute. reflexivity. Qed.

Example digits_of_other_scripts :
  Unicode.has_decimal "١٢٣" = true
  /\ Unicode.foreign_decimal "٣ 1.2.3" = true
  /\ Unicode.has_decimal "₦ N/A" = false
  /\ Unicode.foreign_decimal "₦1,200.50" = false.
Proof. vm_compute. repeat split. Qed.

Example price_pattern_finds_amount :
  Regex.search Regex.price_pattern "₦1,200.50" = Some "1,200.50".
Proof. vm_compute. reflexivity. Qed.

Example size_pattern_upper_case :
  Regex.search Regex.size_pattern "Nike Air Max XL" = Some "XL".
Proof. vm_compute. reflexivity. Qed.

Example size_pattern_title_case :
  Regex.search Regex.size_pattern "Nike Air Max Xl" = None.
Proof. vm_compute. reflexivity. Qed.

Example size_pattern_digits :
  Regex.search Regex.size_pattern "Classic Shirt 42" = Some "42".
Proof. vm_compute. reflexivity. Qed.

Example size_pattern_needs_boundaries :
  Regex.search Regex.size_pattern "Shirt 42cm XXL S" = Some "XXL".
Proof. vm_compute. reflexivity. Qed.

Example old_price_pattern_finds_amount :
  Regex.search Regex.old_price_pattern "old price ₦2,000" = Some "2,000".
Proof. vm_compute. reflexivity. Qed.

Example title_example : PyStr.title "nike AIR max XL 42x" = "Nike Air Max Xl 42X".
Proof. vm_compute. reflexivity. Qed.

Example strip_example : PyStr.strip "  a b  " = "a b".
Proof. vm_compute. reflexivity. Qed.

Example py_float_decimal : PyNum.py_float "1200.50" = Some (Qmake 2401 2).
Proof. vm_compute. reflexivity. Qed.

Example py_float_two_points : PyNum.py_float "1.2.3" = None.
Proof. vm_compute. reflexivity. Qed.

Example round2_ties_to_even : PyNum.round2 (Qmake 125 1000) = Qmake 3 25.
Proof. vm_compute. reflexivity. Qed.

Example round2_negative : PyNum.round2 (Qmake (-375) 1000) = Qmake (-19) 50.
Proof. vm_compute. reflexivity. Qed.

(* ===================================================================== *)
(** * Column normalizer *)
(* ===================================================================== *)

Lemma to_lower_idem (c : ascii) : PyStr.to_lower (PyStr.to_lower c) = PyStr.to_lower c.
Proof. destruct c as [[] [] [] [] [] [] [] []]; vm_compute; reflexivity. Qed.

Lemma to_lower_underscore : PyStr.to_lower "_" = "_"%char.
Proof. reflexivity. Qed.

Lemma standardize_label_cons (c : ascii) (r : string) :
  standardize_label (String c r) =
  String (if Ascii.eqb (PyStr.to_lower c) " " then "_"%char else PyStr.to_lower c)
         (standardize_label r).
Proof.
  unfold standardize_label. simpl.
  destruct (Ascii.eqb (PyStr.to_lower c) " "); reflexivity.
Qed.

Lemma normalized_char_fixed (c : ascii) :
  let d := if Ascii.eqb (PyStr.to_lower c) " " then "_"%char else PyStr.to_lower c in
  PyStr.to_lower d = d /\ Ascii.eqb d " " = false.
Proof. destruct c as [[] [] [] [] [] [] [] []]; vm_compute; split; reflexivity. Qed.

Lemma standardize_label_lower (s : string) :
  PyStr.lower (standardize_label s) = standardize_label s.
Proof.
  induction s as [|c r IH]; [reflexivity|].
  rewrite standardize_label_cons. simpl. rewrite IH.
  destruct (normalized_char_fixed c) as [H _]. simpl in H. rewrite H. reflexivity.
Qed.

Lemma standardize_label_no_space (s : string) :
  PyStr.mem " " (standardize_label s) = false.
Proof.
  induction s as [|c r IH]; [reflexivity|].
  rewrite standardize_label_cons. simpl. rewrite IH.
  destruct (normalized_char_fixed c) as [_ H]. simpl in H. rewrite H. reflexivity.
Qed.

Lemma standardize_label_idem (s : string) :
  standardize_label (standardize_label s) = standardize_label s.
Proof.
  induction s as [|c r IH]; [reflexivity|].
  rewrite standardize_label_cons. rewrite standardize_label_cons. rewrite IH.
  destruct (normalized_char_fixed c) as [H1 H2]. simpl in H1, H2.
  rewrite H1, H2. reflexivity.
Qed.

Lemma normalized_char_lower (c : ascii) :
  (if Ascii.eqb (PyStr.to_lower c) " " then "_"%char else PyStr.to_lower c)
  = normalized_char c.
Proof. destruct c as [[] [] [] [] [] [] [] []]; vm_compute; reflexivity. Qed.

Lemma standardize_label_length (s : string) :
  String.length (standardize_label s) = String.length s.
Proof.
  induction s as [|c r IH]; [reflexivity|].
  rewrite standardize_label_cons. simpl. rewrite IH. reflexivity.
Qed.

Lemma standardize_label_get (s : string) :
  forall i c, String.get i s = Some c ->
              String.get i (standardize_label s) = Some (normalized_char c).
Proof.
  induction s as [|d r IH]; intros i c H; [destruct i; discriminate|].
  rewrite standardize_label_cons, normalized_char_lower.
  destruct i as [|i]; simpl in *.
  - injection H as <-. reflexivity.
  - apply IH, H.
Qed.

(** C7. The column normalizer keeps every column and its cells and only
    rewrites the labels.  The label it gives to a column whose label is made
    of ASCII characters has the same length and is that label character by
    character, each capital letter lowered and each space turned into an
    underscore.  Whatever the labels of the input frame, every label produced
    is lowercase (equal to its own [lower()]) and holds no space, and
    normalizing a second time changes nothing. *)
Theorem standardize_column_names_lowercase_idempotent (df : DataFrame) :
  map snd (standardize_column_names df) = map snd df
  /\ Forall2 (fun old new =>
                Unicode.is_ascii old = true ->
                String.length new = String.length old
                /\ forall i c, String.get i old = Some c ->
                               String.get i new = Some (normalized_char c))
             (columns df) (columns (standardize_column_names df))
  /\ Forall (fun n => PyStr.lower n = n /\ PyStr.mem " " n = false)
            (columns (standardize_column_names df))
  /\ standardize_column_names (standardize_column_names df)
     = standardize_column_names df.
Proof.
  split; [|split; [|split]].
  - unfold standardize_column_names. rewrite map_map. reflexivity.
  - unfold columns, standardize_column_names. rewrite map_map. cbn [fst].
    induction df as [|[l s] df IH]; simpl; constructor; [|exact IH].
    intros _. split; [apply standardize_label_length|apply standardize_label_get].
  - unfold columns, standardize_column_names. rewrite map_map. simpl.
    apply Forall_forall. intros n Hn. apply in_map_iff in Hn.
    destruct Hn as [c [<- _]]. split.
    + apply standardize_label_lower.
    + apply standardize_label_no_space.
  - unfold standardize_column_names. rewrite map_map. apply map_ext.
    intros [l s]. simpl. rewrite standardize_label_idem. reflexivity.
Qed.

Lemma standardize_column_names_lowercase_idempotent_witness :
  columns (standardize_column_names
             [("Product Name", mkSeries Object [Str "Nike Air Max XL"]);
              ("PRICE", mkSeries Object [Str "₦1,500"])])
  = ["product_name"; "price"]
  /\ map snd (standardize_column_names
                [("Product Name", mkSeries Object [Str "Nike Air Max XL"]);
                 ("PRICE", mkSeries Object [Str "₦1,500"])])
     = [mkSeries Object [Str "Nike Air Max XL"]; mkSeries Object [Str "₦1,500"]].
Proof.
  split; [reflexivity|].
  apply (proj1 (standardize_column_names_lowercase_idempotent
                  [("Product Name", mkSeries Object [Str "Nike Air Max XL"]);
                   ("PRICE", mkSeries Object [Str "₦1,500"])])).
Defined.

(* ===================================================================== *)
(** * Category label *)
(* ===================================================================== *)

Lemma mem_append (c : ascii) (a b : string) :
  PyStr.mem c (String.append a b) = PyStr.mem c a || PyStr.mem c b.
Proof.
  induction a as [|d a IH]; simpl; [reflexivity|].
  rewrite IH. rewrite orb_assoc. reflexivity.
Qed.

Lemma append_assoc (a b c : string) :
  String.append (String.append a b) c = String.append a (String.append b c).
Proof. induction a as [|d a IH]; simpl; [reflexivity|]. rewrite IH. reflexivity. Qed.

Lemma split_last_absent (sep : ascii) (s : string) :
  PyStr.mem sep s = false -> PyStr.split_last sep s = s.
Proof.
  destruct s as [|c r]; [reflexivity|].
  intros H. unfold PyStr.split_last. rewrite H. reflexivity.
Qed.

Lemma split_last_append (sep : ascii) (a x : string) :
  PyStr.mem sep x = false ->
  PyStr.split_last sep (String.append a (String sep x)) = x.
Proof.
  intros Hx. induction a as [|c a IH].
  - simpl. rewrite Ascii.eqb_refl. simpl. apply split_last_absent, Hx.
  - change (String.append (String c a) (String sep x))
      with (String c (String.append a (String sep x))).
    cbn [PyStr.split_last].
    replace (PyStr.mem sep (String c (String.append a (String sep x)))) with true.
    + exact IH.
    + symmetry. cbn [PyStr.mem]. rewrite mem_append. cbn [PyStr.mem].
      rewrite Ascii.eqb_refl. simpl. rewrite !orb_true_r. reflexivity.
Qed.

Lemma split_first_append (sep : ascii) (a x : string) :
  PyStr.mem sep a = false ->
  PyStr.split_first sep (String.append a (String sep x)) = a.
Proof.
  induction a as [|c a IH]; intros Ha.
  - simpl. rewrite Ascii.eqb_refl. reflexivity.
  - simpl in Ha. apply orb_false_iff in Ha. destruct Ha as [Hc Ha].
    simpl. rewrite Hc. rewrite IH by exact Ha. reflexivity.
Qed.

Lemma before_last_append (sep : ascii) (a x : string) :
  PyStr.mem sep x = false ->
  before_last sep (String.append a (String sep x)) = a.
Proof.
  intros Hx. induction a as [|c a IH].
  - simpl. rewrite Ascii.eqb_refl, Hx. reflexivity.
  - change (String.append (String c a) (String sep x))
      with (String c (String.append a (String sep x))).
    cbn [before_last]. rewrite IH.
    rewrite mem_append. cbn [PyStr.mem]. rewrite Ascii.eqb_refl.
    rewrite orb_true_r. simpl. rewrite andb_false_r. reflexivity.
Qed.

Lemma base_of_file_named (dir stem label rest : string) :
  PyStr.mem "/" stem = false -> PyStr.mem "/" label = false ->
  PyStr.mem "/" rest = false ->
  PyStr.split_last "/" (file_named dir stem label rest)
  = String.append stem (String "_" (String.append label (String "." rest))).
Proof.
  intros Hs Hl Hr. unfold file_named. apply split_last_append.
  rewrite mem_append. cbn [PyStr.mem]. rewrite mem_append. cbn [PyStr.mem].
  rewrite Hs, Hl, Hr. reflexivity.
Qed.

(** C9, as the code has it. For a file [dir/stem_label.rest], where [label]
    holds no underscore and no dot and [rest] holds no underscore, the
    category label is [label]: the text after the last underscore of the base
    name, up to the first dot that follows. It is the text before the
    extension when [rest] holds no further dot, and it names the output file
    of every run of [process_file] that returns. *)
Theorem category_of_path_up_to_first_dot
    (num_repr : Q -> string) (dir stem label rest : string) :
  PyStr.mem "/" stem = false ->
  PyStr.mem "/" label = false -> PyStr.mem "_" label = false ->
  PyStr.mem "." label = false ->
  PyStr.mem "/" rest = false -> PyStr.mem "_" rest = false ->
  let file_path := file_named dir stem label rest in
  category_of_path file_path = label
  /\ (PyStr.mem "." rest = false -> label_before_extension file_path = label)
  /\ (forall loaded r,
        process_file num_repr file_path loaded = Returned r ->
        category r = label
        /\ output_path r
           = String.append "Jumia Data/processed/processed_" (String.append label ".csv")).
Proof.
  intros Hs Hl1 Hl2 Hl3 Hr1 Hr2 file_path.
  assert (Hcat : category_of_path file_path = label).
  { unfold category_of_path, file_path.
    rewrite base_of_file_named by assumption.
    rewrite split_last_append.
    - apply split_first_append, Hl3.
    - rewrite mem_append. cbn [PyStr.mem]. rewrite Hl2, Hr2. reflexivity. }
  split; [exact Hcat|]. split.
  - intros Hr3. unfold label_before_extension, file_path.
    rewrite base_of_file_named by assumption.
    replace (String.append stem (String "_" (String.append label (String "." rest))))
      with (String.append (String.append stem (String "_" label)) (String "." rest)).
    + rewrite before_last_append by exact Hr3.
      apply split_last_append, Hl2.
    + rewrite append_assoc. reflexivity.
  - intros loaded r Hrun. unfold process_file in Hrun.
    destruct (clean_price_data num_repr (standardize_column_names loaded)) as [d1|e];
      [|discriminate].
    cbn [bind] in Hrun.
    destruct (extract_attributes d1 (category_of_path file_path)) as [d2|e];
      [|discriminate].
    cbn [bind] in Hrun.
    destruct (feature_engineering (handle_missing_and_duplicates d2)) as [d3|e];
      [|discriminate].
    cbn [bind] in Hrun. injection Hrun as <-. cbn [category output_path].
    rewrite Hcat. split; reflexivity.
Qed.

Lemma category_of_path_up_to_first_dot_witness :
  category_of_path "Jumia Data/raw/jumia_men.v2.csv" = "men".
Proof.
  exact (proj1 (category_of_path_up_to_first_dot sample_repr
                  "Jumia Data/raw" "jumia" "men" "v2.csv"
                  eq_refl eq_refl eq_refl eq_refl eq_refl eq_refl)).
Defined.

(** C9 as stated fails on a base name with two dots after its last
    underscore: the code stops at the first dot, the text before the
    extension goes on to the last. *)
Lemma category_of_path_not_before_extension :
  category_of_path "Jumia Data/raw/jumia_men.v2.csv"
  <> label_before_extension "Jumia Data/raw/jumia_men.v2.csv".
Proof. vm_compute. discriminate. Qed.

(* ===================================================================== *)
(** * Attribute extractor: size *)
(* ===================================================================== *)

(** C3 on the code. A frame loaded with a [product_name] column holding
    "Nike Air Max XL" and "Classic Shirt 42": the names are title-cased
    before the size pattern runs, so the first one reads "Nike Air Max Xl",
    no size token is found in it and its [extracted_size] is missing; the
    second one gets "42". *)
Theorem extract_attributes_size_after_title_case :
  extract_attributes
    [("product_name", mkSeries Object [Str "Nike Air Max XL"; Str "Classic Shirt 42"])]
    "men"
  = Returned
      [("name", mkSeries Object [Str "Nike Air Max Xl"; Str "Classic Shirt 42"]);
       ("category", mkSeries Object [Str "men"; Str "men"]);
       ("extracted_size", mkSeries Object [NaN; Str "42"]);
       ("brand", mkSeries Object [Str "Nike"; Str "Classic"])].
Proof. vm_compute. reflexivity. Qed.

(** The same names in a column already called [name] are not title-cased,
    and both sizes are found. *)
Lemma extract_attributes_size_without_title_case :
  extract_attributes
    [("name", mkSeries Object [Str "Nike Air Max XL"; Str "Classic Shirt 42"])]
    "men"
  = Returned
      [("name", mkSeries Object [Str "Nike Air Max XL"; Str "Classic Shirt 42"]);
       ("category", mkSeries Object [Str "men"; Str "men"]);
       ("extracted_size", mkSeries Object [Str "XL"; Str "42"]);
       ("brand", mkSeries Object [Str "Nike"; Str "Classic"])].
Proof. vm_compute. reflexivity. Qed.

(* ===================================================================== *)
(** * Discount derivation inside the pipeline *)
(* ===================================================================== *)

(** C1 on the code. A file whose only row has [price_info] "old price
    ₦2,000" and a price that parses to 1500: the label [price_info] contains
    "price", so the price cleaner turns that column into the number 2000;
    the [.str] accessor of [feature_engineering] then fails on it, the
    failure is caught, and the processed frame has no [discount_percentage]
    column at all. *)
Theorem process_file_derives_no_discount (num_repr : Q -> string) :
  process_file num_repr "Jumia Data/raw/jumia_men.csv"
    [("Price", mkSeries Object [Str "₦1,500"]);
     ("price_info", mkSeries Object [Str "old price ₦2,000"])]
  = Returned
      (mkProcessed
         [("price", mkSeries Numeric [Num (Qmake 1500 1)]);
          ("price_info", mkSeries Numeric [Num (Qmake 2000 1)]);
          ("category", mkSeries Object [Str "men"])]
         "men" "Jumia Data/processed/processed_men.csv"
         [Warning AttributeError]).
Proof. vm_compute. reflexivity. Qed.

(** The discount step alone, on a frame whose [price_info] is still text,
    derives 25.00 for the row and leaves the row without an old price
    unset. *)
Lemma feature_engineering_on_text_price_info :
  feature_engineering
    [("price", mkSeries Numeric [Num (Qmake 1500 1); Num (Qmake 100 1)]);
     ("price_info", mkSeries Object [Str "old price ₦2,000"; Str "in stock"])]
  = Returned
      ([("price", mkSeries Numeric [Num (Qmake 1500 1); Num (Qmake 100 1)]);
        ("price_info", mkSeries Object [Str "old price ₦2,000"; Str "in stock"]);
        ("old_price", mkSeries Numeric [Num (Qmake 2000 1); NaN]);
        ("discount_percentage", mkSeries Numeric [Num (Qmake 25 1); NaN])],
       []).
Proof. vm_compute. reflexivity. Qed.

(* ===================================================================== *)
(** * Frame lemmas: what an assignment leaves alone *)
(* ===================================================================== *)

Lemma has_column_labelled (n : string) (df : DataFrame) :
  has_column n df = false <-> labelled n df = [].
Proof.
  unfold has_column, labelled, columns.
  induction df as [|[l s] df IH]; simpl; [tauto|].
  rewrite String.eqb_sym. destruct (String.eqb l n); simpl.
  - split; discriminate.
  - exact IH.
Qed.

Lemma labelled_map_other (n : string) (f : string * Series -> string * Series)
      (df : DataFrame) :
  (forall c, String.eqb (fst c) n = true -> f c = c) ->
  (forall c, String.eqb (fst c) n = false -> String.eqb (fst (f c)) n = false) ->
  labelled n (map f df) = labelled n df.
Proof.
  intros Hsame Hother. unfold labelled.
  induction df as [|c df IH]; simpl; [reflexivity|].
  destruct (String.eqb (fst c) n) eqn:E.
  - rewrite (Hsame c E), E. simpl. f_equal. exact IH.
  - rewrite (Hother c E). exact IH.
Qed.

Lemma labelled_app (n : string) (a b : DataFrame) :
  labelled n (a ++ b) = labelled n a ++ labelled n b.
Proof. unfold labelled. rewrite filter_app, map_app. reflexivity. Qed.

Lemma eqb_trans_false (a l n : string) :
  String.eqb a l = true -> String.eqb l n = false -> String.eqb a n = false.
Proof. intros H1 H2. apply String.eqb_eq in H1. subst. exact H2. Qed.

Lemma labelled_setitem_other (n l : string) (s : Series) (df : DataFrame) :
  String.eqb l n = false -> labelled n (setitem df l s) = labelled n df.
Proof.
  intros Hne. unfold setitem. destruct (has_column l df).
  - apply labelled_map_other; intros c Hc.
    + destruct (String.eqb (fst c) l) eqn:E; [|reflexivity].
      rewrite (eqb_trans_false _ _ _ E Hne) in Hc. discriminate.
    + destruct (String.eqb (fst c) l); [exact Hne|exact Hc].
  - rewrite labelled_app. unfold labelled at 2. simpl. rewrite Hne.
    simpl. apply app_nil_r.
Qed.

Lemma labelled_rename_other (n old new : string) (df : DataFrame) :
  String.eqb old n = false -> String.eqb new n = false ->
  labelled n (rename old new df) = labelled n df.
Proof.
  intros Ho Hn. unfold rename. apply labelled_map_other; intros c Hc.
  - destruct (String.eqb (fst c) old) eqn:E; [|reflexivity].
    rewrite (eqb_trans_false _ _ _ E Ho) in Hc. discriminate.
  - destruct (String.eqb (fst c) old); [exact Hn|exact Hc].
Qed.

Lemma labelled_loc_set_other (n l : string) (mask : list bool) (s : Series)
      (df : DataFrame) :
  String.eqb l n = false -> labelled n (loc_set df mask l s) = labelled n df.
Proof.
  intros Hne. unfold loc_set. destruct (has_column l df).
  - apply labelled_map_other; intros c Hc.
    + destruct (String.eqb (fst c) l) eqn:E; [|reflexivity].
      rewrite (eqb_trans_false _ _ _ E Hne) in Hc. discriminate.
    + destruct (String.eqb (fst c) l); [exact Hne|exact Hc].
  - rewrite labelled_app. unfold labelled at 2. simpl. rewrite Hne.
    simpl. apply app_nil_r.
Qed.

Lemma has_column_same (n : string) (a b : DataFrame) :
  labelled n a = labelled n b -> has_column n a = has_column n b.
Proof.
  intros H. destruct (has_column n b) eqn:Eb.
  - destruct (has_column n a) eqn:Ea; [reflexivity|].
    apply has_column_labelled in Ea. rewrite Ea in H. symmetry in H.
    apply has_column_labelled in H. congruence.
  - apply has_column_labelled in Eb. rewrite Eb in H.
    apply has_column_labelled. exact H.
Qed.

(** Inversion of a bind that returned. *)
Lemma bind_returned {A B : Type} (c : outcome A) (k : A -> outcome B) (b : B) :
  bind c k = Returned b -> exists a, c = Returned a /\ k a = Returned b.
Proof. destruct c as [a|e]; simpl; [eauto|discriminate]. Qed.

Ltac invert_bind H :=
  let a := fresh "x" in
  let Ha := fresh "Hx" in
  apply bind_returned in H; destruct H as [a [Ha H]].

(* ===================================================================== *)
(** * Attribute extractor: the columns it leaves alone *)
(* ===================================================================== *)

Section ExtractFrame.

(** A label that is neither [product_name] nor [name]. *)
Variable n : string.
Hypothesis not_product_name : String.eqb "product_name" n = false.
Hypothesis not_name : String.eqb "name" n = false.

Lemma add_category_keeps (category_name : string) (df : DataFrame) :
  (String.eqb "category" n = true -> has_column n df = true) ->
  labelled n (add_category category_name df) = labelled n df.
Proof.
  intros Hc. unfold add_category.
  destruct (String.eqb "category" n) eqn:E.
  - apply String.eqb_eq in E. subst n. rewrite (Hc eq_refl). reflexivity.
  - destruct (negb (has_column "category" df)); [|reflexivity].
    apply labelled_setitem_other, E.
Qed.

Lemma clean_names_keeps (df df' : DataFrame) :
  clean_names df = Returned df' -> labelled n df' = labelled n df.
Proof.
  unfold clean_names. intros H.
  destruct (has_column "product_name" df).
  - invert_bind H. invert_bind H. injection H as <-.
    rewrite !labelled_setitem_other by exact not_name.
    apply labelled_rename_other; assumption.
  - injection H as <-. reflexivity.
Qed.

Lemma extract_size_keeps (df df' : DataFrame) :
  (String.eqb "extracted_size" n = true -> has_column n df = true) ->
  extract_size df = Returned df' -> labelled n df' = labelled n df.
Proof.
  intros Hc. unfold extract_size. intros H.
  destruct (String.eqb "extracted_size" n) eqn:E.
  - apply String.eqb_eq in E. subst n. rewrite (Hc eq_refl) in H.
    rewrite andb_false_r in H. injection H as <-. reflexivity.
  - destruct (has_column "name" df && negb (has_column "extracted_size" df)).
    + invert_bind H.
      destruct (has_column "sizes" _).
      * invert_bind H. invert_bind H. injection H as <-.
        rewrite labelled_loc_set_other by exact E.
        apply labelled_setitem_other, E.
      * injection H as <-. apply labelled_setitem_other, E.
    + injection H as <-. reflexivity.
Qed.

Lemma extract_brand_keeps (df df' : DataFrame) :
  (String.eqb "brand" n = true -> has_column n df = true) ->
  extract_brand df = Returned df' -> labelled n df' = labelled n df.
Proof.
  intros Hc. unfold extract_brand. intros H.
  destruct (String.eqb "brand" n) eqn:E.
  - apply String.eqb_eq in E. subst n. rewrite (Hc eq_refl) in H.
    rewrite andb_false_r in H. injection H as <-. reflexivity.
  - destruct (has_column "name" df && negb (has_column "brand" df)).
    + invert_bind H. injection H as <-. apply labelled_setitem_other, E.
    + injection H as <-. reflexivity.
Qed.

(** The columns labelled [n] go through [extract_attributes] untouched
    when [n] is not one of the labels it derives, or is one that the
    frame already has. *)
Lemma extract_attributes_keeps (df df' : DataFrame) (category_name : string) :
  (String.eqb "category" n || String.eqb "extracted_size" n || String.eqb "brand" n = true
   -> has_column n df = true) ->
  extract_attributes df category_name = Returned df' ->
  labelled n df' = labelled n df.
Proof.
  intros Hc H. unfold extract_attributes in H.
  invert_bind H. invert_bind H. invert_bind H. injection H as <-.
  assert (H0 : labelled n (add_category category_name df) = labelled n df).
  { apply add_category_keeps. intros E. apply Hc. rewrite E. reflexivity. }
  assert (H1 : labelled n x = labelled n df).
  { rewrite (clean_names_keeps _ _ Hx). exact H0. }
  assert (H2 : labelled n x0 = labelled n df).
  { rewrite (extract_size_keeps x x0); [exact H1| |exact Hx0].
    intros E. rewrite (has_column_same _ _ _ H1). apply Hc. rewrite E.
    rewrite orb_true_r. reflexivity. }
  rewrite (extract_brand_keeps x0 x1); [exact H2| |exact Hx1].
  intros E. rewrite (has_column_same _ _ _ H2). apply Hc. rewrite E.
  rewrite orb_true_r. reflexivity.
Qed.

End ExtractFrame.

(** C10. When the input frame already has a [category], [extracted_size] or
    [brand] column, a run of the attribute extractor that returns leaves the
    column(s) carrying that label exactly as they were, dtype and values. *)
Theorem extract_attributes_keeps_existing_columns
    (df df' : DataFrame) (category_name name : string) :
  In name ["category"; "extracted_size"; "brand"] ->
  has_column name df = true ->
  extract_attributes df category_name = Returned df' ->
  labelled name df' = labelled name df.
Proof.
  intros Hin Hhas Hrun.
  apply (extract_attributes_keeps name) with (category_name := category_name);
    try assumption.
  - destruct Hin as [<-|[<-|[<-|[]]]]; reflexivity.
  - destruct Hin as [<-|[<-|[<-|[]]]]; reflexivity.
  - intros _. exact Hhas.
Qed.

Lemma extract_attributes_keeps_existing_columns_witness :
  labelled "brand"
    [("name", mkSeries Object [Str "Nike Air Max XL"]);
     ("brand", mkSeries Object [Str "Adidas"]);
     ("category", mkSeries Object [Str "shoes"]);
     ("extracted_size", mkSeries Object [Str "XL"])]
  = labelled "brand"
    [("name", mkSeries Object [Str "Nike Air Max XL"]);
     ("brand", mkSeries Object [Str "Adidas"]);
     ("category", mkSeries Object [Str "shoes"])].
Proof.
  apply (extract_attributes_keeps_existing_columns _ _ "men" "brand").
  - simpl. tauto.
  - reflexivity.
  - vm_compute. reflexivity.
Defined.

(* ===================================================================== *)
(** * Discount derivation: the guarded block *)
(* ===================================================================== *)

(** An interrupted block has not touched [discount_percentage]: every
    exception of the model is raised before the masked assignment. *)
Lemma discount_block_interrupted (df d : DataFrame) (e : exn) :
  discount_block df = Interrupted d e ->
  labelled "discount_percentage" d = labelled "discount_percentage" df.
Proof.
  unfold discount_block. intros H.
  destruct (str_of df "price_info") as [v|e1]; [|injection H as <- _; reflexivity].
  match type of H with
  | context [str_of ?d1 "old_price"] =>
      assert (H1 : labelled "discount_percentage" d1
                   = labelled "discount_percentage" df)
        by (apply labelled_setitem_other; reflexivity);
      destruct (str_of d1 "old_price") as [v1|e2];
        [|injection H as <- _; exact H1]
  end.
  match type of H with
  | context [getitem ?d2 "old_price"] =>
      assert (H2 : labelled "discount_percentage" d2
                   = labelled "discount_percentage" df)
        by (rewrite labelled_setitem_other by reflexivity; exact H1);
      destruct (getitem d2 "old_price") as [op|e3];
        [|injection H as <- _; exact H2]
  end.
  destruct (existsb _ _); [|discriminate].
  match type of H with
  | context [bind ?c ?k] => destruct (bind c k) as [s|e4]
  end; [discriminate|].
  injection H as <- _. exact H2.
Qed.

(** C4. Whatever the input frame, [feature_engineering] returns: it never
    raises to its caller. When the guarded block is interrupted by an
    exception, the frame it returns is the frame as the block left it, the
    exception is reported in one warning, and the columns labelled
    [discount_percentage] are those of the input (none if the input had
    none). *)
Theorem feature_engineering_never_raises (df : DataFrame) :
  exists df' log,
    feature_engineering df = Returned (df', log)
    /\ (forall d e,
          has_column "price_info" df && has_column "price" df = true ->
          discount_block df = Interrupted d e ->
          df' = d /\ log = [Warning e]
          /\ labelled "discount_percentage" df' = labelled "discount_percentage" df).
Proof.
  unfold feature_engineering.
  destruct (has_column "price_info" df && has_column "price" df).
  - destruct (discount_block df) as [d1|d1 e1] eqn:E.
    + exists d1, []. split; [reflexivity|]. intros d e _ H. discriminate.
    + exists d1, [Warning e1]. split; [reflexivity|].
      intros d e _ H. injection H as <- <-.
      repeat split. apply (discount_block_interrupted _ _ _ E).
  - exists df, []. split; [reflexivity|]. intros d e H. discriminate.
Qed.

(** The three places where the block can be interrupted, on examples:
    a [price_info] column that is not text, and a price that is a text. *)
Example feature_engineering_numeric_price_info :
  feature_engineering
    [("price", mkSeries Numeric [Num (Qmake 1500 1)]);
     ("price_info", mkSeries Numeric [Num (Qmake 2000 1)])]
  = Returned
      ([("price", mkSeries Numeric [Num (Qmake 1500 1)]);
        ("price_info", mkSeries Numeric [Num (Qmake 2000 1)])],
       [Warning AttributeError]).
Proof. vm_compute. reflexivity. Qed.

Example feature_engineering_text_price :
  feature_engineering
    [("price", mkSeries Object [Str "cheap"]);
     ("price_info", mkSeries Object [Str "old price ₦2,000"])]
  = Returned
      ([("price", mkSeries Object [Str "cheap"]);
        ("price_info", mkSeries Object [Str "old price ₦2,000"]);
        ("old_price", mkSeries Numeric [Num (Qmake 2000 1)])],
       [Warning TypeError]).
Proof. vm_compute. reflexivity. Qed.

(* ===================================================================== *)
(** * Price cleaner *)
(* ===================================================================== *)

Lemma getitem_unique (df : DataFrame) (l : string) (s : Series) :
  getitem df l = Returned s ->
  forall c, In c df -> String.eqb (fst c) l = true -> snd c = s.
Proof.
  unfold getitem. intros H c Hin Hc.
  assert (Hl : In (snd c) (labelled l df)).
  { unfold labelled. apply in_map. apply filter_In. split; assumption. }
  destruct (labelled l df) as [|s1 [|s2 r]]; try discriminate.
  injection H as <-. destruct Hl as [Hl|[]]. symmetry. exact Hl.
Qed.

Lemma labelled_relabel (l : string) (s : Series) (df : DataFrame) :
  labelled l (map (fun c => if String.eqb (fst c) l then (l, s) else c) df)
  = map (fun _ => s) (labelled l df).
Proof.
  unfold labelled. induction df as [|c df IH]; simpl; [reflexivity|].
  destruct (String.eqb (fst c) l) eqn:E; simpl.
  - rewrite String.eqb_refl. simpl. f_equal. exact IH.
  - rewrite E. exact IH.
Qed.

Lemma has_column_true_labelled (n : string) (df : DataFrame) :
  has_column n df = true <-> labelled n df <> [].
Proof.
  split.
  - intros H E. apply has_column_labelled in E. congruence.
  - intros H. destruct (has_column n df) eqn:E; [reflexivity|].
    apply has_column_labelled in E. contradiction.
Qed.

Lemma getitem_has_column (df : DataFrame) (l : string) (s : Series) :
  getitem df l = Returned s -> has_column l df = true.
Proof.
  unfold getitem. intros H. apply has_column_true_labelled.
  destruct (labelled l df); [discriminate|discriminate].
Qed.

Lemma str_accessor_values (s : Series) (v : list cell) :
  str_accessor s = Returned v -> v = values s.
Proof.
  unfold str_accessor. destruct (dtype_of s); try discriminate.
  destruct (str_values_ok (values s)); [|discriminate].
  intros H. injection H as <-. reflexivity.
Qed.

Lemma price_text_map (num_repr : Q -> string) (v : list cell) :
  str_replace "," "" (str_extract Regex.price_pattern (map (astype_str num_repr) v))
  = map (price_text num_repr) v.
Proof.
  unfold str_replace, str_extract, str_map. rewrite !map_map.
  apply map_ext. intros c. unfold price_text.
  destruct (astype_str num_repr c); try reflexivity.
  destruct (Regex.search Regex.price_pattern s); reflexivity.
Qed.

(** One visit of the loop rewrites the columns carrying the label into
    their conversion and leaves the others alone. *)
Lemma clean_price_column_visit (num_repr : Q -> string) (df df' : DataFrame) (col : string) :
  has_column col df = true ->
  clean_price_column num_repr df col = Returned df' ->
  exists s s',
    getitem df col = Returned s
    /\ convert_series num_repr s = Returned s'
    /\ df' = map (fun c => if String.eqb (fst c) col then (col, s') else c) df.
Proof.
  intros Hhas H. unfold clean_price_column in H. rewrite Hhas in H.
  invert_bind H. rename x into s. exists s.
  unfold convert_series.
  destruct (is_numeric_dtype s) eqn:En.
  - injection H as <-. exists s. repeat split; [assumption|].
    rewrite <- (map_id df) at 1. apply map_ext_in. intros c Hin.
    destruct (String.eqb (fst c) col) eqn:E; [|reflexivity].
    rewrite <- (getitem_unique _ _ _ Hx c Hin E).
    apply String.eqb_eq in E. rewrite <- E. destruct c; reflexivity.
  - invert_bind H. apply str_accessor_values in Hx0. simpl in Hx0. subst x.
    unfold setitem in H. rewrite Hhas in H.
    invert_bind H.
    assert (Hx1 : x = mkSeries Object
                        (str_extract Regex.price_pattern (map (astype_str num_repr) (values s)))).
    { unfold getitem in Hx0. rewrite labelled_relabel in Hx0.
      unfold getitem in Hx. destruct (labelled col df) as [|s1 [|s2 r]]; try discriminate.
      simpl in Hx0. injection Hx0 as <-. reflexivity. }
    subst x. invert_bind H. apply str_accessor_values in Hx1. simpl in Hx1. subst x.
    invert_bind H. injection H as <-.
    rewrite price_text_map in Hx1. rewrite Hx1. simpl.
    exists (mkSeries Numeric x). repeat split; [assumption|].
    rewrite (getitem_has_column _ _ _ Hx0).
    rewrite map_map. apply map_ext. intros c.
    destruct (String.eqb (fst c) col) eqn:E; simpl.
    + rewrite String.eqb_refl. reflexivity.
    + rewrite E. reflexivity.
Qed.

Lemma convert_series_numeric (num_repr : Q -> string) (s s' : Series) :
  convert_series num_repr s = Returned s' ->
  is_numeric_dtype s' = true /\ convert_series num_repr s' = Returned s'.
Proof.
  unfold convert_series. destruct (is_numeric_dtype s) eqn:E.
  - intros H. injection H as <-. rewrite E. split; reflexivity.
  - intros H. invert_bind H. injection H as <-. split; reflexivity.
Qed.

Lemma Forall2_compose {A : Type} (R1 R2 R3 : A -> A -> Prop) (l1 l2 l3 : list A) :
  (forall a b c, R1 a b -> R2 b c -> R3 a c) ->
  Forall2 R1 l1 l2 -> Forall2 R2 l2 l3 -> Forall2 R3 l1 l3.
Proof.
  intros Hc H12. revert l3. induction H12; intros l3 H23; inversion H23; subst.
  - constructor.
  - constructor; eauto.
Qed.

Lemma Forall2_columns (R : string * Series -> string * Series -> Prop) (a b : DataFrame) :
  (forall c c', R c c' -> fst c' = fst c) -> Forall2 R a b -> columns b = columns a.
Proof.
  intros HR H. unfold columns. induction H; simpl; [reflexivity|].
  rewrite (HR _ _ H), IHForall2. reflexivity.
Qed.

Lemma for_each_converted (num_repr : Q -> string) (L : list string) :
  forall df df',
    (forall l, In l L -> has_column l df = true) ->
    for_each L (clean_price_column num_repr) df = Returned df' ->
    Forall2 (converted num_repr L) df df'.
Proof.
  induction L as [|col L IH]; intros df df' Hhas H.
  - simpl in H. injection H as <-.
    clear Hhas. induction df; constructor; [|assumption]. split; reflexivity.
  - simpl in H. invert_bind H. rename x into df1.
    destruct (clean_price_column_visit num_repr df df1 col (Hhas col (or_introl eq_refl)) Hx)
      as [s [s' [Hget [Hconv Hdf1]]]].
    assert (H1 : Forall2 (converted num_repr [col]) df df1).
    { subst df1. clear - Hget Hconv.
      assert (Hu := getitem_unique _ _ _ Hget). clear Hget.
      induction df as [|c df IHdf]; simpl; constructor.
      - unfold converted. simpl. rewrite orb_false_r.
        destruct (String.eqb (fst c) col) eqn:E; simpl.
        + split; [symmetry; apply String.eqb_eq; exact E|].
          rewrite (Hu c (or_introl eq_refl) E). exact Hconv.
        + split; reflexivity.
      - apply IHdf. intros c0 Hin. apply Hu. right. exact Hin. }
    assert (Hcols : columns df1 = columns df).
    { apply (Forall2_columns _ _ _ (fun c c' H => proj1 H) H1). }
    assert (H2 : Forall2 (converted num_repr L) df1 df').
    { apply IH; [|exact H]. intros l Hl. unfold has_column. rewrite Hcols.
      apply (Hhas l). right. exact Hl. }
    refine (Forall2_compose _ _ _ _ _ _ _ H1 H2).
    intros a b c Hab Hbc.
    destruct Hab as [Hf1 Hs1], Hbc as [Hf2 Hs2].
    split; [congruence|]. simpl in Hs1. rewrite orb_false_r in Hs1.
    rewrite Hf1 in Hs2. simpl.
    destruct (String.eqb (fst a) col) eqn:E; simpl.
    + destruct (convert_series_numeric _ _ _ Hs1) as [_ Hid].
      destruct (existsb (String.eqb (fst a)) L).
      * rewrite Hid in Hs2. injection Hs2 as Hs2. rewrite <- Hs2. exact Hs1.
      * rewrite Hs2. exact Hs1.
    + rewrite Hs1 in Hs2. exact Hs2.
Qed.

Lemma rename_absent (old new : string) (df : DataFrame) :
  has_column old df = false -> rename old new df = df.
Proof.
  unfold has_column, columns, rename. induction df as [|c df IH]; simpl; [reflexivity|].
  intros H. apply orb_false_iff in H. destruct H as [Hc H].
  rewrite String.eqb_sym in Hc. rewrite Hc, (IH H). reflexivity.
Qed.

Lemma Forall2_map_left {A B : Type} (R : A -> B -> Prop) (f : A -> A) (l : list A)
      (l' : list B) :
  Forall2 R (map f l) l' -> Forall2 (fun a b => R (f a) b) l l'.
Proof.
  revert l'. induction l as [|a l IH]; intros l' H; inversion H; subst; constructor; auto.
Qed.

Lemma Forall2_weaken_in {A B : Type} (R R' : A -> B -> Prop) (l : list A) (l' : list B) :
  (forall a b, In a l -> R a b -> R' a b) -> Forall2 R l l' -> Forall2 R' l l'.
Proof.
  intros Hw H. induction H; constructor.
  - apply Hw; [left; reflexivity|assumption].
  - apply IHForall2. intros a b Hin. apply Hw. right. exact Hin.
Qed.

Lemma Forall2_nth_error {A B : Type} (R : A -> B -> Prop) (l : list A) (l' : list B) :
  Forall2 R l l' ->
  forall i a, nth_error l i = Some a -> exists b, nth_error l' i = Some b /\ R a b.
Proof.
  intros H. induction H; intros i a Hi.
  - destruct i; discriminate.
  - destruct i as [|i]; simpl in *.
    + injection Hi as <-. eauto.
    + eauto.
Qed.

Lemma Forall2_length_eq {A B : Type} (R : A -> B -> Prop) (l : list A) (l' : list B) :
  Forall2 R l l' -> length l' = length l.
Proof. intros H. induction H; simpl; congruence. Qed.

Lemma existsb_filter_label (p : string -> bool) (l : string) (ls : list string) :
  In l ls -> existsb (String.eqb l) (filter p ls) = p l.
Proof.
  intros Hin. destruct (p l) eqn:E.
  - apply existsb_exists. exists l. split; [|apply String.eqb_refl].
    apply filter_In. split; assumption.
  - destruct (existsb (String.eqb l) (filter p ls)) eqn:Ex; [|reflexivity].
    apply existsb_exists in Ex. destruct Ex as [x [Hx Hlx]].
    apply String.eqb_eq in Hlx. subst x. apply filter_In in Hx.
    destruct Hx as [_ Hx]. congruence.
Qed.

(** What a run of [clean_price_data] that returns has done to each column:
    [product_price] is relabelled [price], the columns whose label contains
    "price" are converted, the others are untouched. *)
Lemma clean_price_data_columns (num_repr : Q -> string) (df df' : DataFrame) :
  clean_price_data num_repr df = Returned df' ->
  Forall2 (fun c c' =>
             fst c' = relabelled (fst c)
             /\ if price_like (relabelled (fst c))
                then convert_series num_repr (snd c) = Returned (snd c')
                else snd c' = snd c) df df'.
Proof.
  unfold clean_price_data. intros H.
  assert (Hr : (if has_column "product_price" df
                then rename "product_price" "price" df else df)
               = rename "product_price" "price" df).
  { destruct (has_column "product_price" df) eqn:E; [reflexivity|].
    symmetry. apply rename_absent, E. }
  rewrite Hr in H. clear Hr.
  apply for_each_converted in H.
  - apply Forall2_map_left in H.
    refine (Forall2_weaken_in _ _ _ _ _ H). intros c c' Hin [Hf Hs].
    assert (Hlab : fst (if String.eqb (fst c) "product_price" then ("price", snd c) else c)
                   = relabelled (fst c)).
    { unfold relabelled. destruct (String.eqb (fst c) "product_price"); reflexivity. }
    assert (Hsnd : snd (if String.eqb (fst c) "product_price" then ("price", snd c) else c)
                   = snd c).
    { destruct (String.eqb (fst c) "product_price"); reflexivity. }
    rewrite Hlab in Hf, Hs. rewrite Hsnd in Hs. split; [exact Hf|].
    rewrite existsb_filter_label in Hs; [exact Hs|].
    unfold columns, rename. rewrite map_map. apply in_map_iff.
    exists c. split; [exact Hlab|exact Hin].
  - intros l Hl. apply filter_In in Hl. destruct Hl as [Hl _].
    unfold has_column. apply existsb_exists. exists l. split; [exact Hl|].
    apply String.eqb_refl.
Qed.

Lemma astype_float_cells (f : cell -> cell) (v v' : list cell) :
  astype_float (map f v) = Returned v' ->
  Forall2 (fun c c' => float_of_cell (f c) = Returned c') v v'.
Proof.
  revert v'. induction v as [|c v IH]; simpl; intros v' H.
  - injection H as <-. constructor.
  - invert_bind H. invert_bind H. injection H as <-. constructor; auto.
Qed.

Lemma search_price_no_digit (prev : option ascii) (l : list ascii) :
  forallb (fun c => negb (PyStr.is_digit c)) l = true ->
  Regex.search_from Regex.price_pattern prev l = None.
Proof.
  revert prev. induction l as [|c l IH]; intros prev H.
  - reflexivity.
  - simpl in H. apply andb_true_iff in H. destruct H as [Hc H].
    apply negb_true_iff in Hc.
    cbn [Regex.search_from]. unfold Regex.match_here.
    cbn [Regex.price_pattern Regex.pre Regex.grp Regex.post Regex.rmatch Regex.RPlus
         Regex.digit].
    rewrite Hc. apply IH, H.
Qed.

Lemma has_digit_chars (t : string) :
  PyStr.has_digit t = false ->
  forallb (fun c => negb (PyStr.is_digit c)) (list_ascii_of_string t) = true.
Proof.
  induction t as [|c t IH]; simpl; [reflexivity|].
  intros H. apply orb_false_iff in H. destruct H as [Hc H].
  rewrite Hc, (IH H). reflexivity.
Qed.

Lemma price_text_no_digit (num_repr : Q -> string) (t : string) :
  PyStr.has_digit t = false -> price_text num_repr (Str t) = NaN.
Proof.
  intros H. unfold price_text. cbn [astype_str]. unfold Regex.search.
  rewrite search_price_no_digit by (apply has_digit_chars, H). reflexivity.
Qed.

(** ** Digits of other scripts *)

(** An ASCII digit is a character of its own and a decimal digit; a byte
    inside the encoding of another character is not an ASCII digit.  So a
    text without decimal digit holds no ASCII digit. *)
Lemma ascii_digit_decimal (b : ascii) :
  PyStr.is_digit b = true ->
  (Unicode.byte b <=? 191)%N = true /\ (Unicode.byte b <=? 127)%N = true
  /\ Unicode.is_decimal (Unicode.byte b) = true.
Proof.
  destruct b as [[] [] [] [] [] [] [] []]; vm_compute; intros H;
    try discriminate; repeat split.
Qed.

Lemma continuation_not_digit (b : ascii) (c : N) :
  Unicode.continuation b = Some c -> PyStr.is_digit b = false.
Proof.
  destruct b as [[] [] [] [] [] [] [] []]; vm_compute; intros H;
    try discriminate; reflexivity.
Qed.

Lemma has_decimal_digit_bounded (n : nat) :
  forall t, String.length t <= n ->
            Unicode.has_decimal t = false -> PyStr.has_digit t = false.
Proof.
  induction n as [|n IH]; intros [|b1 r1] Hlen H; try reflexivity.
  - simpl in Hlen. lia.
  - simpl in Hlen. cbn [PyStr.has_digit].
    destruct (PyStr.is_digit b1) eqn:Ed.
    + exfalso. destruct (ascii_digit_decimal _ Ed) as [H1 [H2 H3]].
      unfold Unicode.has_decimal in H. cbn [Unicode.codepoints] in H.
      rewrite H1, H2 in H. cbn [existsb] in H. rewrite H3 in H. discriminate.
    + cbn [orb]. unfold Unicode.has_decimal in H. cbn [Unicode.codepoints] in H.
      assert (Hr1 : Unicode.has_decimal r1 = false -> PyStr.has_digit r1 = false)
        by (apply IH; lia).
      assert (Htail : forall c l, existsb Unicode.is_decimal (c :: l) = false ->
                                  existsb Unicode.is_decimal l = false).
      { intros c l E. cbn [existsb] in E. apply orb_false_iff in E. tauto. }
      destruct (Unicode.byte b1 <=? 191)%N; [apply Hr1, (Htail _ _ H)|].
      destruct r1 as [|b2 r2]; [reflexivity|].
      destruct (Unicode.continuation b2) as [c2|] eqn:E2; [|apply Hr1, (Htail _ _ H)].
      cbn [PyStr.has_digit]. rewrite (continuation_not_digit _ _ E2). cbn [orb].
      simpl in Hlen.
      destruct (Unicode.byte b1 <=? 223)%N; [apply IH; [lia|apply (Htail _ _ H)]|].
      destruct r2 as [|b3 r3]; [reflexivity|].
      destruct (Unicode.continuation b3) as [c3|] eqn:E3.
      2:{ apply Htail in H. apply Hr1 in H. cbn [PyStr.has_digit] in H.
          rewrite (continuation_not_digit _ _ E2) in H. exact H. }
      cbn [PyStr.has_digit]. rewrite (continuation_not_digit _ _ E3). cbn [orb].
      simpl in Hlen.
      destruct (Unicode.byte b1 <=? 239)%N; [apply IH; [lia|apply (Htail _ _ H)]|].
      destruct r3 as [|b4 r4]; [reflexivity|].
      destruct (Unicode.continuation b4) as [c4|] eqn:E4.
      2:{ apply Htail in H. apply Hr1 in H. cbn [PyStr.has_digit] in H.
          rewrite (continuation_not_digit _ _ E2), (continuation_not_digit _ _ E3) in H.
          exact H. }
      cbn [PyStr.has_digit]. rewrite (continuation_not_digit _ _ E4). cbn [orb].
      simpl in Hlen. apply IH; [lia|apply (Htail _ _ H)].
Qed.

Lemma has_decimal_digit (t : string) :
  Unicode.has_decimal t = false -> PyStr.has_digit t = false.
Proof. apply (has_decimal_digit_bounded (String.length t)). lia. Qed.

(** ** What the price pattern finds *)

(** A greedy star over a class consumes the whole run of the class when the
    rest of the pattern accepts what follows the run. *)
Lemma star_fuel {A : Type} (cls : ascii -> bool)
      (k : option ascii -> list ascii -> option A) (x : A) (rest : list ascii) :
  stops cls rest ->
  (forall p, k p rest = Some x) ->
  forall run n prev,
    Forall (fun c => cls c = true) run ->
    length (run ++ rest) <= n ->
    (fix star (n : nat) (p0 : option ascii) (s0 : list ascii) {struct n} : option A :=
       match n with
       | O => k p0 s0
       | S n' =>
           match Regex.rmatch (Regex.RChar cls) p0 s0
                   (fun p' s' => if length s' <? length s0 then star n' p' s' else None) with
           | Some x => Some x
           | None => k p0 s0
           end
       end) n prev (run ++ rest) = Some x.
Proof.
  intros Hstop Hk. induction run as [|c run IH]; intros n prev Hrun Hn.
  - cbn [app] in *. destruct n as [|n]; [apply Hk|].
    cbn [Regex.rmatch]. destruct rest as [|c rest]; [apply Hk|].
    simpl in Hstop. rewrite Hstop. apply Hk.
  - inversion Hrun as [|? ? Hc Hrun']; subst.
    destruct n as [|n]; [simpl in Hn; lia|].
    cbn [app Regex.rmatch]. rewrite Hc.
    replace (length (run ++ rest) <? length (c :: run ++ rest)) with true
      by (symmetry; apply Nat.ltb_lt; simpl; lia).
    rewrite IH; [reflexivity|assumption|simpl in Hn; lia].
Qed.

Lemma star_run {A : Type} (cls : ascii -> bool)
      (k : option ascii -> list ascii -> option A) (x : A)
      (run rest : list ascii) (prev : option ascii) :
  Forall (fun c => cls c = true) run -> stops cls rest ->
  (forall p, k p rest = Some x) ->
  Regex.rmatch (Regex.RStar (Regex.RChar cls)) prev (run ++ rest) k = Some x.
Proof.
  intros Hrun Hstop Hk. cbn [Regex.rmatch].
  apply (star_fuel cls k x rest Hstop Hk run _ prev Hrun). lia.
Qed.

Lemma star_star_fuel {A : Type} (cls1 cls2 : ascii -> bool)
      (k : option ascii -> list ascii -> option A) (x : A) (rest : list ascii) :
  (forall c, cls1 c = true -> cls2 c = true) ->
  stops cls2 rest ->
  (forall p, k p rest = Some x) ->
  forall run n prev,
    Forall (fun c => cls2 c = true) run ->
    length (run ++ rest) <= n ->
    (fix star (n : nat) (p0 : option ascii) (s0 : list ascii) {struct n} : option A :=
       match n with
       | O => Regex.rmatch (Regex.RStar (Regex.RChar cls2)) p0 s0 k
       | S n' =>
           match Regex.rmatch (Regex.RChar cls1) p0 s0
                   (fun p' s' => if length s' <? length s0 then star n' p' s' else None) with
           | Some x => Some x
           | None => Regex.rmatch (Regex.RStar (Regex.RChar cls2)) p0 s0 k
           end
       end) n prev (run ++ rest) = Some x.
Proof.
  intros Hsub Hstop Hk. induction run as [|c run IH]; intros n prev Hrun Hn.
  - assert (H2 : Regex.rmatch (Regex.RStar (Regex.RChar cls2)) prev ([] ++ rest) k = Some x)
      by (apply star_run; [constructor|assumption|assumption]).
    destruct n as [|n]; [exact H2|].
    cbn [app] in *. cbn [Regex.rmatch] in *. destruct rest as [|c rest]; [exact H2|].
    simpl in Hstop. destruct (cls1 c) eqn:E1; [rewrite (Hsub _ E1) in Hstop; discriminate|].
    exact H2.
  - assert (H2 : Regex.rmatch (Regex.RStar (Regex.RChar cls2)) prev ((c :: run) ++ rest) k
                 = Some x)
      by (apply star_run; assumption).
    inversion Hrun as [|? ? Hc Hrun']; subst.
    destruct n as [|n]; [simpl in Hn; lia|].
    cbn [app] in *. cbn [Regex.rmatch] in *. destruct (cls1 c) eqn:E1.
    + replace (length (run ++ rest) <? length (c :: run ++ rest)) with true
        by (symmetry; apply Nat.ltb_lt; simpl; lia).
      rewrite IH; [reflexivity|assumption|simpl in Hn; lia].
    + exact H2.
Qed.

Lemma star_star_run {A : Type} (cls1 cls2 : ascii -> bool)
      (k : option ascii -> list ascii -> option A) (x : A)
      (run rest : list ascii) (prev : option ascii) :
  (forall c, cls1 c = true -> cls2 c = true) ->
  Forall (fun c => cls2 c = true) run -> stops cls2 rest ->
  (forall p, k p rest = Some x) ->
  Regex.rmatch (Regex.RStar (Regex.RChar cls1)) prev (run ++ rest)
    (fun p s => Regex.rmatch (Regex.RStar (Regex.RChar cls2)) p s k) = Some x.
Proof.
  intros Hsub Hrun Hstop Hk.
  exact (star_star_fuel cls1 cls2 k x rest Hsub Hstop Hk run _ prev Hrun (Nat.le_refl _)).
Qed.

Lemma firstn_consumed {A : Type} (a b : list A) :
  firstn (length (a ++ b) - length b) (a ++ b) = a.
Proof.
  rewrite length_app. replace (length a + length b - length b) with (length a) by lia.
  rewrite firstn_app, Nat.sub_diag, firstn_all. simpl. apply app_nil_r.
Qed.

Lemma match_price_amount (prev : option ascii) (d : ascii) (tl post : list ascii) :
  PyStr.is_digit d = true ->
  Forall (fun c => amount_char c = true) tl ->
  stops amount_char post ->
  Regex.match_here Regex.price_pattern prev (d :: tl ++ post) = Some (d :: tl).
Proof.
  intros Hd Htl Hpost.
  change (Regex.match_here Regex.price_pattern prev (d :: tl ++ post))
    with (if PyStr.is_digit d
          then Regex.rmatch (Regex.RStar (Regex.RChar PyStr.is_digit)) (Some d) (tl ++ post)
                 (fun p s => Regex.rmatch (Regex.RStar (Regex.RChar amount_char)) p s
                    (fun _ s2 => Some (firstn (length (d :: tl ++ post) - length s2)
                                              (d :: tl ++ post))))
          else None).
  rewrite Hd. apply star_star_run.
  - intros c Hc. unfold amount_char. rewrite Hc. reflexivity.
  - exact Htl.
  - exact Hpost.
  - intros p. f_equal. apply (firstn_consumed (d :: tl) post).
Qed.

Lemma search_price_amount (pre : list ascii) (d : ascii) (tl post : list ascii) :
  forallb (fun c => negb (PyStr.is_digit c)) pre = true ->
  PyStr.is_digit d = true ->
  Forall (fun c => amount_char c = true) tl ->
  stops amount_char post ->
  forall prev,
    Regex.search_from Regex.price_pattern prev (pre ++ d :: tl ++ post) = Some (d :: tl).
Proof.
  intros Hpre Hd Htl Hpost. induction pre as [|c pre IH]; intros prev.
  - cbn [app Regex.search_from]. rewrite match_price_amount by assumption. reflexivity.
  - simpl in Hpre. apply andb_true_iff in Hpre. destruct Hpre as [Hc Hpre].
    apply negb_true_iff in Hc.
    cbn [app Regex.search_from]. unfold Regex.match_here.
    cbn [Regex.price_pattern Regex.pre Regex.grp Regex.post Regex.rmatch Regex.RPlus
         Regex.digit].
    rewrite Hc. apply IH, Hpre.
Qed.

Lemma amount_char_codepoint (b : ascii) :
  amount_char b = true ->
  (Unicode.byte b <=? 191)%N = true /\ (Unicode.byte b <=? 127)%N = true
  /\ (Unicode.is_decimal (Unicode.byte b) || (Unicode.byte b =? 46)%N
      || (Unicode.byte b =? 44)%N) = true.
Proof.
  destruct b as [[] [] [] [] [] [] [] []]; vm_compute; intros H;
    try discriminate; repeat split.
Qed.

Lemma ends_amount_stops (post : string) :
  ends_amount post = true -> stops amount_char (list_ascii_of_string post).
Proof.
  destruct post as [|b r]; [intros _; exact I|].
  intros H. cbn [list_ascii_of_string stops].
  destruct (amount_char b) eqn:E; [|reflexivity].
  destruct (amount_char_codepoint _ E) as [H1 [H2 H3]].
  unfold ends_amount in H. cbn [Unicode.codepoints] in H. rewrite H1, H2 in H.
  rewrite H3 in H. discriminate.
Qed.

Lemma list_ascii_of_string_append (a b : string) :
  list_ascii_of_string (String.append a b)
  = list_ascii_of_string a ++ list_ascii_of_string b.
Proof. induction a as [|c a IH]; simpl; [reflexivity|]. rewrite IH. reflexivity. Qed.

Lemma digits_and_commas_chars (s : string) :
  digits_and_commas s = true ->
  Forall (fun c => amount_char c = true) (list_ascii_of_string s).
Proof.
  induction s as [|c r IH]; simpl; intros H; constructor.
  - apply andb_true_iff in H. destruct H as [H _]. unfold amount_char.
    destruct (PyStr.is_digit c) eqn:Ec; [reflexivity|]. simpl in H.
    apply Ascii.eqb_eq in H. subst c. reflexivity.
  - apply IH. apply andb_true_iff in H. tauto.
Qed.

Lemma search_price_grouped (pre amount post : string) :
  PyStr.has_digit pre = false ->
  grouped_integer amount = true ->
  ends_amount post = true ->
  Regex.search Regex.price_pattern (String.append pre (String.append amount post))
  = Some amount.
Proof.
  intros Hpre Ham Hpost. unfold Regex.search.
  rewrite !list_ascii_of_string_append.
  destruct amount as [|d r]; [discriminate|].
  cbn [grouped_integer] in Ham. apply andb_true_iff in Ham. destruct Ham as [Hd Hr].
  cbn [list_ascii_of_string app].
  rewrite search_price_amount.
  - cbn [option_map]. f_equal.
    change (d :: list_ascii_of_string r) with (list_ascii_of_string (String d r)).
    apply string_of_list_ascii_of_string.
  - clear - Hpre. induction pre as [|c pre IH]; simpl in *; [reflexivity|].
    apply orb_false_iff in Hpre. destruct Hpre as [Hc Hpre].
    rewrite Hc, (IH Hpre). reflexivity.
  - exact Hd.
  - apply digits_and_commas_chars, Hr.
  - apply ends_amount_stops, Hpost.
Qed.

Lemma replace_commas_digits (s : string) :
  digits_and_commas s = true -> PyNum.all_digits (PyStr.replace "," "" s) = true.
Proof.
  induction s as [|c r IH]; simpl; [reflexivity|].
  intros H. apply andb_true_iff in H. destruct H as [Hc H].
  destruct (Ascii.eqb c ",") eqn:E; simpl.
  - apply IH, H.
  - simpl in Hc. rewrite orb_false_r in Hc. rewrite Hc. apply IH, H.
Qed.

Lemma all_digits_no_point (s : string) :
  PyNum.all_digits s = true ->
  PyStr.split_first "." s = s /\ PyNum.after_first "." s = "".
Proof.
  induction s as [|c r IH]; simpl; [split; reflexivity|].
  intros H. apply andb_true_iff in H. destruct H as [Hc H].
  destruct (Ascii.eqb c ".") eqn:E.
  - apply Ascii.eqb_eq in E. subst c. discriminate.
  - destruct (IH H) as [H1 H2]. rewrite H1, H2. split; reflexivity.
Qed.

Lemma append_empty (s : string) : String.append s "" = s.
Proof. induction s as [|c r IH]; simpl; [reflexivity|]. rewrite IH. reflexivity. Qed.

Lemma py_float_grouped (amount : string) :
  grouped_integer amount = true ->
  PyNum.py_float (PyStr.replace "," "" amount)
  = Some (Qred (Qmake (PyNum.digits_value 0 (PyStr.replace "," "" amount)) 1)).
Proof.
  intros H. destruct amount as [|d r]; [discriminate|].
  cbn [grouped_integer] in H. apply andb_true_iff in H. destruct H as [Hd Hr].
  assert (Hall : PyNum.all_digits (PyStr.replace "," "" (String d r)) = true).
  { apply replace_commas_digits. cbn [digits_and_commas]. rewrite Hd, Hr. reflexivity. }
  assert (Hlen : 1 <= String.length (PyStr.replace "," "" (String d r))).
  { cbn [PyStr.replace]. destruct (Ascii.eqb d ",") eqn:E.
    - apply Ascii.eqb_eq in E. subst d. discriminate.
    - simpl. lia. }
  unfold PyNum.py_float.
  destruct (all_digits_no_point _ Hall) as [H1 H2]. rewrite H1, H2, Hall.
  cbn [PyNum.all_digits andb String.length]. rewrite Nat.add_0_r.
  replace (1 <=? _) with true by (symmetry; apply Nat.leb_le; exact Hlen).
  rewrite append_empty. reflexivity.
Qed.

Lemma price_text_grouped (num_repr : Q -> string) (pre amount post : string) :
  Unicode.has_decimal pre = false ->
  grouped_integer amount = true ->
  ends_amount post = true ->
  price_text num_repr (Str (String.append pre (String.append amount post)))
  = Str (PyStr.replace "," "" amount).
Proof.
  intros Hpre Ham Hpost. unfold price_text. cbn [astype_str].
  rewrite (search_price_grouped _ _ _ (has_decimal_digit _ Hpre) Ham Hpost).
  reflexivity.
Qed.

(** C5. In a run of the price cleaner that returns, every column that is
    not numeric and whose label contains "price" comes out as a numeric
    column of the same length, labelled as before ([price] for
    [product_price]).  In it the cell that read "₦1,200.50" holds the number
    1200.50.  More generally a cell whose text holds no decimal digit up to
    an amount written with digits and grouping commas, the amount being
    followed by nothing or by a character that is neither a digit, a point
    nor a comma, holds the value of the amount with its commas removed (for
    amounts up to 2^53, which a float holds exactly).  And every cell whose
    text held no decimal digit, of any script, is missing. *)
Theorem clean_price_data_parses_price_cells
    (num_repr : Q -> string) (df df' : DataFrame) :
  clean_price_data num_repr df = Returned df' ->
  forall i name s,
    nth_error df i = Some (name, s) ->
    PyStr.contains "price" (PyStr.lower name) = true ->
    is_numeric_dtype s = false ->
    exists v',
      nth_error df' i
      = Some (if String.eqb name "product_price" then "price" else name,
              mkSeries Numeric v')
      /\ length v' = length (values s)
      /\ forall j,
           (nth_error (values s) j = Some (Str "₦1,200.50") ->
            exists q, nth_error v' j = Some (Num q) /\ Qeq q (Qmake 120050 100))
           /\ (forall pre amount post,
                 nth_error (values s) j
                 = Some (Str (String.append pre (String.append amount post))) ->
                 Unicode.has_decimal pre = false ->
                 grouped_integer amount = true ->
                 ends_amount post = true ->
                 exact_integer (PyNum.digits_value 0 (PyStr.replace "," "" amount)) = true ->
                 exists q,
                   nth_error v' j = Some (Num q)
                   /\ Qeq q (inject_Z (PyNum.digits_value 0 (PyStr.replace "," "" amount))))
           /\ (forall t, nth_error (values s) j = Some (Str t) ->
                         Unicode.has_decimal t = false ->
                         nth_error v' j = Some NaN).
Proof.
  intros Hrun i name s Hi Hprice Hobj.
  destruct (Forall2_nth_error _ _ _ (clean_price_data_columns _ _ _ Hrun) i _ Hi)
    as [[name' s'] [Hi' [Hname Hconv]]].
  cbn [fst snd] in Hname, Hconv.
  assert (Hlike : price_like (relabelled name) = true).
  { unfold relabelled. destruct (String.eqb name "product_price"); [reflexivity|].
    exact Hprice. }
  rewrite Hlike in Hconv. unfold convert_series in Hconv. rewrite Hobj in Hconv.
  invert_bind Hconv. injection Hconv as <-. rename x into v'.
  apply astype_float_cells in Hx.
  exists v'. split; [|split].
  - rewrite Hi', Hname. reflexivity.
  - apply (Forall2_length_eq _ _ _ Hx).
  - intros j. split; [|split].
    + intros Hj. destruct (Forall2_nth_error _ _ _ Hx j _ Hj) as [c' [Hj' Hc]].
      vm_compute in Hc. injection Hc as <-.
      exists (Qmake 2401 2). split; [exact Hj'|reflexivity].
    + intros pre amount post Hj Hpre Ham Hpost _.
      destruct (Forall2_nth_error _ _ _ Hx j _ Hj) as [c' [Hj' Hc]].
      rewrite (price_text_grouped _ _ _ _ Hpre Ham Hpost) in Hc.
      cbn [float_of_cell] in Hc. rewrite (py_float_grouped _ Ham) in Hc.
      exists (Qred (Qmake (PyNum.digits_value 0 (PyStr.replace "," "" amount)) 1)).
      split; [|apply Qred_correct].
      rewrite Hj'. congruence.
    + intros t Hj Ht. destruct (Forall2_nth_error _ _ _ Hx j _ Hj) as [c' [Hj' Hc]].
      rewrite (price_text_no_digit _ _ (has_decimal_digit _ Ht)) in Hc.
      simpl in Hc. injection Hc as <-. exact Hj'.
Qed.

Lemma clean_price_data_parses_price_cells_witness :
  exists v',
    nth_error [("price", mkSeries Numeric [Num (Qmake 2401 2); Num (Qmake 1500 1); NaN; NaN]);
               ("name", mkSeries Object [Str "Shirt"; Str "Shoe"; Str "Hat"; NaN])] 0
    = Some ("price", mkSeries Numeric v')
    /\ length v' = 4
    /\ (exists q, nth_error v' 0 = Some (Num q) /\ Qeq q (Qmake 120050 100))
    /\ (exists q, nth_error v' 1 = Some (Num q) /\ Qeq q (inject_Z 1500))
    /\ nth_error v' 2 = Some NaN.
Proof.
  destruct (clean_price_data_parses_price_cells sample_repr
              [("product_price",
                mkSeries Object [Str "₦1,200.50"; Str "₦ 1,500 (new)"; Str "₦ free"; NaN]);
               ("name", mkSeries Object [Str "Shirt"; Str "Shoe"; Str "Hat"; NaN])]
              _ eq_refl 0 "product_price"
              (mkSeries Object [Str "₦1,200.50"; Str "₦ 1,500 (new)"; Str "₦ free"; NaN])
              eq_refl eq_refl eq_refl) as [v' [Hcol [Hlen Hcells]]].
  exists v'. split; [exact Hcol|]. split; [exact Hlen|]. split; [|split].
  - apply (proj1 (Hcells 0)). reflexivity.
  - apply (proj1 (proj2 (Hcells 1)) "₦ " "1,500" " (new)"); reflexivity.
  - apply (proj2 (proj2 (Hcells 2)) "₦ free"); reflexivity.
Defined.

(* ===================================================================== *)
(** * Row equality and duplicates *)
(* ===================================================================== *)

Lemma cell_eqb_eq (a b : cell) : cell_eqb a b = true <-> a = b.
Proof.
  destruct a as [|[pn pd]|s|x], b as [|[qn qd]|t|y]; simpl;
    try (split; [discriminate|intros H; discriminate || reflexivity]);
    try tauto.
  - rewrite andb_true_iff, Z.eqb_eq, Pos.eqb_eq. split.
    + intros [-> ->]. reflexivity.
    + intros H. injection H as -> ->. split; reflexivity.
  - rewrite String.eqb_eq. split; [intros ->; reflexivity|intros H; injection H; auto].
  - rewrite Bool.eqb_true_iff. split; [intros ->; reflexivity|intros H; injection H; auto].
Qed.

Lemma row_eqb_eq (r1 r2 : list cell) :
  row_eqb r1 r2 = true <-> map norm_cell r1 = map norm_cell r2.
Proof.
  revert r2. induction r1 as [|a r1 IH]; intros [|b r2]; simpl;
    try (split; [reflexivity || discriminate|reflexivity || discriminate]).
  rewrite andb_true_iff, IH. unfold py_eqb. rewrite cell_eqb_eq. split.
  - intros [-> ->]. reflexivity.
  - intros H. injection H; auto.
Qed.

Lemma row_eqb_refl (r : list cell) : row_eqb r r = true.
Proof. apply row_eqb_eq. reflexivity. Qed.

Lemma row_eqb_congr (r h : list cell) :
  row_eqb r h = true -> forall x, row_eqb r x = row_eqb h x.
Proof.
  intros H x. apply row_eqb_eq in H.
  destruct (row_eqb h x) eqn:E.
  - apply row_eqb_eq. apply row_eqb_eq in E. congruence.
  - destruct (row_eqb r x) eqn:E'; [|reflexivity].
    apply row_eqb_eq in E'. rewrite <- E. symmetry. apply row_eqb_eq. congruence.
Qed.

Lemma row_eqb_sym (r h : list cell) : row_eqb r h = row_eqb h r.
Proof.
  destruct (row_eqb h r) eqn:E.
  - apply row_eqb_eq. apply row_eqb_eq in E. congruence.
  - destruct (row_eqb r h) eqn:E'; [|reflexivity].
    apply row_eqb_eq in E'. rewrite <- E. symmetry. apply row_eqb_eq. congruence.
Qed.

Lemma existsb_row_congr (r h : list cell) (seen : list (list cell)) :
  row_eqb r h = true -> existsb (row_eqb r) seen = existsb (row_eqb h) seen.
Proof.
  intros H. induction seen as [|x seen IH]; simpl; [reflexivity|].
  rewrite (row_eqb_congr _ _ H x), IH. reflexivity.
Qed.

Lemma kept_cons (seen : list (list cell)) (h : list cell) (rs : list (list cell)) :
  kept seen (h :: rs)
  = if existsb (row_eqb h) seen then kept (h :: seen) rs else h :: kept (h :: seen) rs.
Proof. unfold kept. simpl. destruct (existsb (row_eqb h) seen); reflexivity. Qed.

Lemma kept_seen_absent (r : list cell) (rs seen : list (list cell)) :
  existsb (row_eqb r) seen = true -> occurrences r (kept seen rs) = 0.
Proof.
  revert seen. induction rs as [|h rs IH]; intros seen Hseen; [reflexivity|].
  rewrite kept_cons.
  assert (Hnext : existsb (row_eqb r) (h :: seen) = true).
  { simpl. rewrite Hseen. apply orb_true_r. }
  destruct (existsb (row_eqb h) seen) eqn:Eh.
  - apply IH, Hnext.
  - unfold occurrences. simpl. destruct (row_eqb r h) eqn:Erh.
    + rewrite (existsb_row_congr _ _ _ Erh) in Hseen. congruence.
    + apply IH, Hnext.
Qed.

Lemma kept_once (r : list cell) (rs seen : list (list cell)) :
  existsb (row_eqb r) seen = false ->
  existsb (row_eqb r) rs = true ->
  occurrences r (kept seen rs) = 1.
Proof.
  revert seen. induction rs as [|h rs IH]; intros seen Hseen Hin; [discriminate|].
  rewrite kept_cons. simpl in Hin.
  destruct (row_eqb r h) eqn:Erh.
  - rewrite <- (existsb_row_congr _ _ _ Erh), Hseen.
    unfold occurrences. simpl. rewrite Erh. simpl. f_equal.
    apply kept_seen_absent. simpl. rewrite Erh. reflexivity.
  - simpl in Hin.
    assert (Hnext : existsb (row_eqb r) (h :: seen) = false).
    { simpl. rewrite Erh, Hseen. reflexivity. }
    destruct (existsb (row_eqb h) seen).
    + apply IH; assumption.
    + unfold occurrences. simpl. rewrite Erh. apply IH; assumption.
Qed.

Lemma duplicated_from_length (seen rs : list (list cell)) :
  length (duplicated_from seen rs) = length rs.
Proof.
  revert seen. induction rs as [|h rs IH]; intros seen; simpl; [reflexivity|].
  rewrite IH. reflexivity.
Qed.

Lemma duplicated_from_flags (rs : list (list cell)) :
  forall seen j r,
    nth_error rs j = Some r ->
    existsb (row_eqb r) seen = true
    \/ (exists i r', i < j /\ nth_error rs i = Some r' /\ row_eqb r r' = true) ->
    nth j (duplicated_from seen rs) false = true.
Proof.
  induction rs as [|h rs IH]; intros seen j r Hj Hdup.
  - destruct j; discriminate.
  - destruct j as [|j]; simpl in *.
    + injection Hj as <-. destruct Hdup as [H|[i [r' [Hlt _]]]]; [exact H|lia].
    + apply (IH (h :: seen) j r Hj).
      destruct Hdup as [H|[i [r' [Hlt [Hi Heq]]]]].
      * left. simpl. rewrite H. apply orb_true_r.
      * destruct i as [|i]; simpl in Hi.
        -- injection Hi as <-. left. simpl. rewrite Heq. reflexivity.
        -- right. exists i, r'. repeat split; [lia|exact Hi|exact Heq].
Qed.

(* ===================================================================== *)
(** * Rows and columns *)
(* ===================================================================== *)

Lemma rows_of_length (n : nat) (cols : list (list cell)) : length (rows_of n cols) = n.
Proof. revert cols. induction n as [|n IH]; intros cols; simpl; [reflexivity|]. rewrite IH. reflexivity. Qed.

Lemma nth_rows_of (n : nat) :
  forall cols i, i < n ->
    nth i (rows_of n cols) [] = map (fun c => nth i c NaN) cols.
Proof.
  induction n as [|n IH]; intros cols i Hi; [lia|].
  destruct i as [|i]; simpl.
  - apply map_ext. intros [|x c]; reflexivity.
  - rewrite IH by lia. rewrite map_map. apply map_ext. intros [|x c]; simpl; [|reflexivity].
    destruct i; reflexivity.
Qed.

Lemma select_length {A : Type} (mask : list bool) (l : list A) :
  length l = length mask -> length (select mask l) = length (filter (fun b => b) mask).
Proof.
  revert l. induction mask as [|b m IH]; intros [|x l] H; simpl in *; try lia; try reflexivity.
  destruct b; simpl; rewrite IH by lia; reflexivity.
Qed.

Lemma rows_of_select (mask : list bool) :
  forall cols,
    Forall (fun c => length c = length mask) cols ->
    rows_of (length (filter (fun b => b) mask)) (map (select mask) cols)
    = select mask (rows_of (length mask) cols).
Proof.
  induction mask as [|b m IH]; intros cols Hlen; [reflexivity|].
  assert (Htl : Forall (fun c => length c = length m) (map (@tl cell) cols)).
  { apply Forall_forall. intros c Hc. apply in_map_iff in Hc.
    destruct Hc as [c0 [<- Hc0]]. rewrite Forall_forall in Hlen.
    specialize (Hlen c0 Hc0). destruct c0; simpl in *; lia. }
  assert (Hsel : forall keep,
             map (select (keep :: m)) cols
             = map (fun c => if keep then hd NaN c :: select m (tl c) else select m (tl c)) cols).
  { intros keep. apply map_ext_in. intros c Hc. rewrite Forall_forall in Hlen.
    specialize (Hlen c Hc). destruct c; simpl in *; [lia|reflexivity]. }
  rewrite Hsel. destruct b; simpl.
  - rewrite !map_map. simpl.
    f_equal. rewrite <- IH by exact Htl. rewrite map_map. reflexivity.
  - rewrite <- IH by exact Htl. rewrite map_map. reflexivity.
Qed.

Lemma aligned_lengths (df : DataFrame) :
  aligned df = true ->
  Forall (fun c => length c = nrows df) (cells df).
Proof.
  unfold aligned, cells. intros H. apply Forall_forall. intros v Hv.
  apply in_map_iff in Hv. destruct Hv as [c [<- Hc]].
  rewrite forallb_forall in H. apply Nat.eqb_eq. apply H, Hc.
Qed.

Lemma nrows_select_rows (mask : list bool) (df : DataFrame) :
  aligned df = true -> length mask = nrows df ->
  nrows (select_rows mask df) = length (filter (fun b => b) mask).
Proof.
  intros Ha Hm. destruct df as [|[l s] df]; simpl in *.
  - destruct mask; [reflexivity|discriminate].
  - apply select_length. lia.
Qed.

Lemma rows_select_rows (mask : list bool) (df : DataFrame) :
  aligned df = true -> length mask = nrows df ->
  rows (select_rows mask df) = select mask (rows df).
Proof.
  intros Ha Hm. unfold rows. rewrite nrows_select_rows by assumption.
  rewrite <- Hm.
  replace (cells (select_rows mask df)) with (map (select mask) (cells df)).
  - apply rows_of_select. rewrite Hm. apply aligned_lengths, Ha.
  - unfold cells, select_rows. rewrite !map_map. reflexivity.
Qed.

(** ** Filling *)

Lemma fill_missing_columns (df : DataFrame) : fill_missing df = map fill_column df.
Proof.
  unfold fill_missing, fill_dtype. rewrite map_map. apply map_ext.
  intros [l [d v]]. unfold fill_column, fillna. destruct d; simpl.
  - f_equal. f_equal. apply map_ext. intros [| | |]; reflexivity.
  - f_equal. f_equal. rewrite <- (map_id v) at 1. apply map_ext. intros [| | |]; reflexivity.
  - f_equal. f_equal. apply map_ext. intros [| | |]; reflexivity.
Qed.

Lemma nrows_fill_missing (df : DataFrame) : nrows (fill_missing df) = nrows df.
Proof.
  rewrite fill_missing_columns. destruct df as [|[l s] df]; simpl; [reflexivity|].
  apply length_map.
Qed.

Lemma aligned_fill_missing (df : DataFrame) :
  aligned df = true -> aligned (fill_missing df) = true.
Proof.
  intros H. unfold aligned. rewrite nrows_fill_missing.
  rewrite fill_missing_columns. rewrite forallb_forall. intros c Hc.
  apply in_map_iff in Hc. destruct Hc as [c0 [<- Hc0]].
  unfold aligned in H. rewrite forallb_forall in H. specialize (H c0 Hc0).
  simpl. rewrite length_map. exact H.
Qed.

Lemma no_nulls_fill_missing (df : DataFrame) :
  well_typed df = true -> no_nulls (fill_missing df) = true.
Proof.
  intros H. rewrite fill_missing_columns. unfold no_nulls.
  rewrite forallb_forall. intros c Hc.
  apply in_map_iff in Hc. destruct Hc as [[l [d v]] [<- Hc0]].
  unfold well_typed in H. rewrite forallb_forall in H. specialize (H _ Hc0).
  simpl in *. rewrite forallb_forall in *. intros x Hx.
  apply in_map_iff in Hx. destruct Hx as [x0 [<- Hx0]]. specialize (H x0 Hx0).
  destruct d, x0; simpl in *; try reflexivity; discriminate.
Qed.

Lemma forallb_select {A : Type} (p : A -> bool) (mask : list bool) (l : list A) :
  forallb p l = true -> forallb p (select mask l) = true.
Proof.
  revert l. induction mask as [|b m IH]; intros [|x l] H; simpl in *; try reflexivity.
  apply andb_true_iff in H. destruct H as [Hx H].
  destruct b; simpl; [rewrite Hx|]; apply IH, H.
Qed.

Lemma no_nulls_select_rows (mask : list bool) (df : DataFrame) :
  no_nulls df = true -> no_nulls (select_rows mask df) = true.
Proof.
  unfold no_nulls, select_rows. rewrite !forallb_forall. intros H c Hc.
  apply in_map_iff in Hc. destruct Hc as [c0 [<- Hc0]]. simpl.
  apply forallb_select. apply H, Hc0.
Qed.

Lemma row_nth (df : DataFrame) (i : nat) :
  i < nrows df -> row df i = map (fun c => nth i (values (snd c)) NaN) df.
Proof.
  intros Hi. unfold row, rows. rewrite nth_rows_of by exact Hi.
  unfold cells. rewrite map_map. reflexivity.
Qed.

Lemma row_fill_missing (df : DataFrame) (i j : nat) :
  aligned df = true -> i < nrows df -> j < nrows df ->
  row df i = row df j -> row (fill_missing df) i = row (fill_missing df) j.
Proof.
  intros Ha Hi Hj Hrow.
  rewrite !row_nth in * by (rewrite ?nrows_fill_missing; assumption).
  rewrite fill_missing_columns, !map_map.
  unfold aligned in Ha. rewrite forallb_forall in Ha.
  assert (Hcol : forall c, In c df ->
                   nth i (values (snd c)) NaN = nth j (values (snd c)) NaN).
  { clear - Hrow. induction df as [|c0 df IH]; intros c Hin; [contradiction|].
    simpl in Hrow. injection Hrow as H0 H. destruct Hin as [<-|Hc].
    - exact H0.
    - apply IH; assumption. }
  apply map_ext_in. intros c Hc. simpl.
  specialize (Ha c Hc). apply Nat.eqb_eq in Ha.
  rewrite (nth_indep _ NaN (fill_cell (dtype_of (snd c)) NaN))
    by (rewrite length_map; lia).
  rewrite (nth_indep (map _ _) NaN (fill_cell (dtype_of (snd c)) NaN))
    by (rewrite length_map; lia).
  rewrite !map_nth. rewrite (Hcol c Hc). reflexivity.
Qed.

(** C6. For a well-formed input frame (distinct labels, columns of equal
    length, cells fitting their dtype), the output of the missing/duplicate
    handler holds no missing value; and when rows [i < j] of the input are
    identical, row [j] is flagged as a duplicate and dropped, and exactly
    one output row equals their filled form. *)
Theorem handle_missing_and_duplicates_fills_and_collapses (df : DataFrame) :
  well_formed df = true ->
  let filled := fill_missing df in
  let out := handle_missing_and_duplicates df in
  no_nulls out = true
  /\ forall i j,
       i < j -> j < nrows df -> row df i = row df j ->
       nth j (duplicated filled) false = true
       /\ occurrences (row filled i) (rows out) = 1.
Proof.
  intros Hwf filled out. unfold well_formed in Hwf.
  apply andb_true_iff in Hwf. destruct Hwf as [Hwf Htyped].
  apply andb_true_iff in Hwf. destruct Hwf as [_ Haligned].
  split.
  - unfold out, handle_missing_and_duplicates, drop_duplicates.
    apply no_nulls_select_rows, no_nulls_fill_missing, Htyped.
  - intros i j Hij Hj Hrow.
    assert (Hn : nrows filled = nrows df) by apply nrows_fill_missing.
    assert (Hfill : row filled i = row filled j).
    { apply row_fill_missing; try assumption; lia. }
    assert (Hlen : length (rows filled) = nrows df).
    { unfold rows. rewrite rows_of_length. exact Hn. }
    assert (Hnth : forall k, k < nrows df -> nth_error (rows filled) k = Some (row filled k)).
    { intros k Hk. unfold row. apply nth_error_nth'. lia. }
    split.
    + unfold duplicated. apply (duplicated_from_flags _ _ _ _ (Hnth j Hj)).
      right. exists i, (row filled i). repeat split; [exact Hij|apply Hnth; lia|].
      rewrite Hfill. apply row_eqb_refl.
    + unfold out, handle_missing_and_duplicates, drop_duplicates.
      fold filled. rewrite rows_select_rows.
      * apply (kept_once (row filled i) (rows filled) []); [reflexivity|].
        apply existsb_exists. exists (row filled i). split; [|apply row_eqb_refl].
        unfold row. apply nth_In. lia.
      * apply aligned_fill_missing, Haligned.
      * rewrite length_map. unfold duplicated. rewrite duplicated_from_length.
        unfold rows. apply rows_of_length.
Qed.

Lemma handle_missing_and_duplicates_fills_and_collapses_witness :
  let df := [("name", mkSeries Object [Str "Shirt"; NaN; Str "Shirt"; NaN]);
             ("price", mkSeries Numeric [Num (Qmake 5 1); NaN; Num (Qmake 5 1); NaN])] in
  no_nulls (handle_missing_and_duplicates df) = true
  /\ forall i j,
       i < j -> j < nrows df -> row df i = row df j ->
       nth j (duplicated (fill_missing df)) false = true
       /\ occurrences (row (fill_missing df) i) (rows (handle_missing_and_duplicates df)) = 1.
Proof.
  apply (handle_missing_and_duplicates_fills_and_collapses
           [("name", mkSeries Object [Str "Shirt"; NaN; Str "Shirt"; NaN]);
            ("price", mkSeries Numeric [Num (Qmake 5 1); NaN; Num (Qmake 5 1); NaN])]).
  reflexivity.
Defined.

Example handle_missing_and_duplicates_example :
  handle_missing_and_duplicates
    [("name", mkSeries Object [Str "Shirt"; NaN; Str "Shirt"; NaN]);
     ("price", mkSeries Numeric [Num (Qmake 5 1); NaN; Num (Qmake 5 1); NaN])]
  = [("name", mkSeries Object [Str "Shirt"; Str "Unknown"]);
     ("price", mkSeries Numeric [Num (Qmake 5 1); Num (Qmake 0 1)])].
Proof. vm_compute. reflexivity. Qed.

(* ===================================================================== *)
(** * The per-file pipeline *)
(* ===================================================================== *)

(** ** Cells keep fitting their dtype *)

Lemma well_typed_forall (df : DataFrame) :
  well_typed df = true <-> forall c, In c df -> series_typed (snd c) = true.
Proof. unfold well_typed. rewrite forallb_forall. reflexivity. Qed.

Lemma object_series_typed (v : list cell) : series_typed (object_series v) = true.
Proof. unfold series_typed. apply forallb_forall. intros x _. reflexivity. Qed.

Lemma well_typed_setitem (df : DataFrame) (l : string) (s : Series) :
  well_typed df = true -> series_typed s = true -> well_typed (setitem df l s) = true.
Proof.
  rewrite !well_typed_forall. intros Hdf Hs c Hc. unfold setitem in Hc.
  destruct (has_column l df).
  - apply in_map_iff in Hc. destruct Hc as [c0 [<- Hc0]].
    destruct (String.eqb (fst c0) l); [exact Hs|apply Hdf, Hc0].
  - apply in_app_or in Hc. destruct Hc as [Hc|[<-|[]]]; [apply Hdf, Hc|exact Hs].
Qed.

Lemma well_typed_rename (old new : string) (df : DataFrame) :
  well_typed df = true -> well_typed (rename old new df) = true.
Proof.
  rewrite !well_typed_forall. intros Hdf c Hc. unfold rename in Hc.
  apply in_map_iff in Hc. destruct Hc as [c0 [<- Hc0]].
  destruct (String.eqb (fst c0) old); apply (Hdf c0 Hc0).
Qed.

Lemma fits_join (a b : dtype) (x : cell) :
  fits a x = true \/ fits b x = true -> fits (join_dtype a b) x = true.
Proof. destruct a, b, x; simpl; intros [H|H]; try reflexivity; discriminate. Qed.

Lemma assign_where_forallb (p : cell -> bool) (mask : list bool) :
  forall old new,
    forallb p old = true ->
    forallb (fun x => p x) new = true ->
    forallb p (assign_where mask old new) = true.
Proof.
  induction mask as [|b m IH]; intros [|o old] [|n new] Ho Hn; simpl in *;
    try reflexivity; try exact Ho.
  apply andb_true_iff in Ho. destruct Ho as [Ho1 Ho2].
  apply andb_true_iff in Hn. destruct Hn as [Hn1 Hn2].
  rewrite (IH old new Ho2 Hn2). destruct b; [rewrite Hn1|rewrite Ho1]; reflexivity.
Qed.

Lemma assign_where_either (q1 q2 p : cell -> bool) (mask : list bool) :
  (forall x, q1 x = true -> p x = true) ->
  (forall x, q2 x = true -> p x = true) ->
  forall old new,
    forallb q1 old = true -> forallb q2 new = true ->
    forallb p (assign_where mask old new) = true.
Proof.
  intros H1 H2 old new Ho Hn. apply assign_where_forallb.
  - rewrite forallb_forall in *. intros x Hx. apply H1, Ho, Hx.
  - rewrite forallb_forall in *. intros x Hx. apply H2, Hn, Hx.
Qed.

Lemma well_typed_loc_set (df : DataFrame) (mask : list bool) (l : string) (s : Series) :
  has_column l df = true ->
  well_typed df = true -> series_typed s = true ->
  well_typed (loc_set df mask l s) = true.
Proof.
  intros Hhas Hdf Hs. unfold loc_set. rewrite Hhas.
  rewrite well_typed_forall in *. intros c Hc.
  apply in_map_iff in Hc. destruct Hc as [c0 [<- Hc0]].
  destruct (String.eqb (fst c0) l); [|apply Hdf, Hc0].
  unfold series_typed. simpl.
  apply (assign_where_either (fits (dtype_of (snd c0))) (fits (dtype_of s))).
  - intros x Hx. apply fits_join. left. exact Hx.
  - intros x Hx. apply fits_join. right. exact Hx.
  - apply (Hdf c0 Hc0).
  - exact Hs.
Qed.

Lemma getitem_in (df : DataFrame) (l : string) (s : Series) :
  getitem df l = Returned s -> exists c, In c df /\ snd c = s.
Proof.
  unfold getitem. intros H.
  assert (Hin : In s (labelled l df)).
  { destruct (labelled l df) as [|s1 [|s2 r]]; try discriminate.
    injection H as <-. left. reflexivity. }
  unfold labelled in Hin. apply in_map_iff in Hin.
  destruct Hin as [c [Hc Hin]]. apply filter_In in Hin. exists c. tauto.
Qed.

Lemma well_typed_add_category (category_name : string) (df : DataFrame) :
  well_typed df = true -> well_typed (add_category category_name df) = true.
Proof.
  intros H. unfold add_category. destruct (negb (has_column "category" df)); [|exact H].
  apply well_typed_setitem; [exact H|apply object_series_typed].
Qed.

Lemma well_typed_clean_names (df df' : DataFrame) :
  well_typed df = true -> clean_names df = Returned df' -> well_typed df' = true.
Proof.
  intros Ht H. unfold clean_names in H. destruct (has_column "product_name" df).
  - invert_bind H. invert_bind H. injection H as <-.
    repeat (apply well_typed_setitem; [|apply object_series_typed]).
    apply well_typed_rename, Ht.
  - injection H as <-. exact Ht.
Qed.

Lemma has_column_setitem (df : DataFrame) (l : string) (s : Series) :
  has_column l (setitem df l s) = true.
Proof.
  unfold setitem. destruct (has_column l df) eqn:E.
  - unfold has_column, columns in *. rewrite map_map.
    apply existsb_exists in E. destruct E as [x [Hx Hlx]].
    apply in_map_iff in Hx. destruct Hx as [c [<- Hc]].
    apply existsb_exists. exists l. split; [|apply String.eqb_refl].
    apply in_map_iff. exists c. split; [|exact Hc].
    rewrite String.eqb_sym in Hlx. rewrite Hlx. reflexivity.
  - unfold has_column, columns. rewrite map_app, existsb_app. simpl.
    rewrite String.eqb_refl. rewrite orb_true_r. reflexivity.
Qed.

Lemma well_typed_extract_size (df df' : DataFrame) :
  well_typed df = true -> extract_size df = Returned df' -> well_typed df' = true.
Proof.
  intros Ht H. unfold extract_size in H.
  destruct (has_column "name" df && negb (has_column "extracted_size" df));
    [|injection H as <-; exact Ht].
  invert_bind H.
  assert (Ht1 : well_typed
                  (setitem df "extracted_size"
                     (object_series (str_extract Regex.size_pattern x))) = true).
  { apply well_typed_setitem; [exact Ht|apply object_series_typed]. }
  destruct (has_column "sizes" _); [|injection H as <-; exact Ht1].
  invert_bind H. invert_bind H. injection H as <-.
  apply well_typed_loc_set; [apply has_column_setitem|exact Ht1|].
  destruct (getitem_in _ _ _ Hx1) as [c [Hc <-]].
  rewrite well_typed_forall in Ht1. apply Ht1, Hc.
Qed.

Lemma well_typed_extract_brand (df df' : DataFrame) :
  well_typed df = true -> extract_brand df = Returned df' -> well_typed df' = true.
Proof.
  intros Ht H. unfold extract_brand in H.
  destruct (has_column "name" df && negb (has_column "brand" df));
    [|injection H as <-; exact Ht].
  invert_bind H. injection H as <-.
  apply well_typed_setitem; [exact Ht|apply object_series_typed].
Qed.

Lemma well_typed_extract_attributes (df df' : DataFrame) (category_name : string) :
  well_typed df = true ->
  extract_attributes df category_name = Returned df' -> well_typed df' = true.
Proof.
  intros Ht H. unfold extract_attributes in H.
  invert_bind H. invert_bind H. invert_bind H. injection H as <-.
  eapply well_typed_extract_brand; [|exact Hx1].
  eapply well_typed_extract_size; [|exact Hx0].
  eapply well_typed_clean_names; [|exact Hx].
  apply well_typed_add_category, Ht.
Qed.

Lemma well_typed_standardize (df : DataFrame) :
  well_typed (standardize_column_names df) = well_typed df.
Proof.
  unfold well_typed, standardize_column_names.
  induction df as [|c df IH]; simpl; [reflexivity|]. rewrite IH. reflexivity.
Qed.

Lemma float_of_cell_fits (x y : cell) :
  float_of_cell x = Returned y -> fits Numeric y = true.
Proof.
  destruct x; simpl; intros H; try (injection H as <-; reflexivity).
  destruct (PyNum.py_float s); [injection H as <-; reflexivity|discriminate].
Qed.

Lemma convert_series_typed (num_repr : Q -> string) (s s' : Series) :
  series_typed s = true -> convert_series num_repr s = Returned s' ->
  series_typed s' = true.
Proof.
  intros Ht H. unfold convert_series in H. destruct (is_numeric_dtype s).
  - injection H as <-. exact Ht.
  - invert_bind H. injection H as <-. apply astype_float_cells in Hx.
    unfold series_typed. cbn [dtype_of values]. clear Ht.
    induction Hx as [|a b v v' Hab Hx IH]; [reflexivity|].
    cbn [forallb]. rewrite (float_of_cell_fits _ _ Hab), IH. reflexivity.
Qed.

Lemma Forall2_in_right {A B : Type} (R : A -> B -> Prop) (l : list A) (l' : list B) :
  Forall2 R l l' -> forall b, In b l' -> exists a, In a l /\ R a b.
Proof.
  intros H. induction H; intros b Hb; [contradiction|].
  destruct Hb as [<-|Hb].
  - exists x. split; [left; reflexivity|assumption].
  - destruct (IHForall2 b Hb) as [a [Ha HR]]. exists a. split; [right|]; assumption.
Qed.

Lemma well_typed_clean_price_data (num_repr : Q -> string) (df df' : DataFrame) :
  well_typed df = true ->
  clean_price_data num_repr df = Returned df' -> well_typed df' = true.
Proof.
  intros Ht H. apply clean_price_data_columns in H.
  rewrite well_typed_forall in *. intros c' Hc'.
  destruct (Forall2_in_right _ _ _ H c' Hc') as [c [Hc [_ Hs]]].
  destruct (price_like (relabelled (fst c))).
  - apply (convert_series_typed num_repr (snd c)); [apply Ht, Hc|exact Hs].
  - rewrite Hs. apply Ht, Hc.
Qed.

(** ** The column [price_info] is never text once prices are cleaned *)

Lemma clean_price_data_price_info (num_repr : Q -> string) (df df' : DataFrame) :
  clean_price_data num_repr df = Returned df' -> not_text "price_info" df' = true.
Proof.
  intros H. apply clean_price_data_columns in H.
  unfold not_text. apply forallb_forall. intros s Hs.
  unfold labelled in Hs. apply in_map_iff in Hs. destruct Hs as [c' [<- Hc']].
  apply filter_In in Hc'. destruct Hc' as [Hc' Hlab]. apply String.eqb_eq in Hlab.
  destruct (Forall2_in_right _ _ _ H c' Hc') as [c [Hc [Hf Hconv]]].
  rewrite <- Hf, Hlab in Hconv. change (price_like "price_info") with true in Hconv.
  apply (convert_series_numeric _ _ _ Hconv).
Qed.

Lemma labelled_map_snd (n : string) (h : Series -> Series) (df : DataFrame) :
  labelled n (map (fun c => (fst c, h (snd c))) df) = map h (labelled n df).
Proof.
  unfold labelled. induction df as [|c df IH]; simpl; [reflexivity|].
  destruct (String.eqb (fst c) n); simpl; rewrite IH; reflexivity.
Qed.

Lemma not_text_handle_missing (n : string) (df : DataFrame) :
  not_text n df = true -> not_text n (handle_missing_and_duplicates df) = true.
Proof.
  unfold not_text, handle_missing_and_duplicates, drop_duplicates, select_rows.
  rewrite fill_missing_columns. unfold fill_column.
  rewrite (labelled_map_snd n (fun s => mkSeries (dtype_of s) (select _ (values s)))).
  rewrite (labelled_map_snd n
             (fun s => mkSeries (dtype_of s) (map (fill_cell (dtype_of s)) (values s)))).
  rewrite !forallb_forall. intros H s Hs.
  apply in_map_iff in Hs. destruct Hs as [s1 [<- Hs1]].
  apply in_map_iff in Hs1. destruct Hs1 as [s0 [<- Hs0]].
  apply (H s0 Hs0).
Qed.

(** On a frame whose [price_info] is not text the discount step changes
    nothing: the block is interrupted at its first line. *)
Lemma feature_engineering_not_text (df : DataFrame) :
  not_text "price_info" df = true ->
  exists log, feature_engineering df = Returned (df, log).
Proof.
  intros H. unfold feature_engineering.
  destruct (has_column "price_info" df && has_column "price" df); [|eauto].
  unfold discount_block, str_of, getitem. unfold not_text in H.
  destruct (labelled "price_info" df) as [|s [|s2 r]]; simpl; eauto.
  simpl in H. rewrite andb_true_r in H. unfold str_accessor.
  unfold is_numeric_dtype in H. destruct (dtype_of s); try discriminate; simpl; eauto.
Qed.

(** C2. For a loaded frame that is well formed once its labels are
    normalized, every run of [process_file] that returns yields a table
    without any missing value; that table is the output of the extractor
    with every missing cell of a numeric column replaced by 0 and every
    missing cell of a text column replaced by "Unknown", then deduplicated:
    the discount step adds nothing to it. *)
Theorem process_file_leaves_no_null
    (num_repr : Q -> string) (file_path : string) (loaded : DataFrame) (r : processed) :
  well_formed (standardize_column_names loaded) = true ->
  process_file num_repr file_path loaded = Returned r ->
  no_nulls (table r) = true
  /\ exists cleaned extracted,
       clean_price_data num_repr (standardize_column_names loaded) = Returned cleaned
       /\ extract_attributes cleaned (category_of_path file_path) = Returned extracted
       /\ table r = drop_duplicates (map fill_column extracted).
Proof.
  intros Hwf Hrun. unfold well_formed in Hwf.
  apply andb_true_iff in Hwf. destruct Hwf as [_ Htyped].
  unfold process_file in Hrun.
  invert_bind Hrun. rename x into cleaned, Hx into Hclean.
  invert_bind Hrun. rename x into extracted, Hx into Hextract.
  invert_bind Hrun. injection Hrun as <-. cbn [table].
  assert (Ht1 : well_typed cleaned = true)
    by (eapply well_typed_clean_price_data; eassumption).
  assert (Ht2 : well_typed extracted = true)
    by (eapply well_typed_extract_attributes; eassumption).
  assert (Hp1 : not_text "price_info" cleaned = true)
    by (eapply clean_price_data_price_info; eassumption).
  assert (Hp2 : not_text "price_info" extracted = true).
  { unfold not_text.
    rewrite (extract_attributes_keeps "price_info" eq_refl eq_refl _ _ _
               (fun H => False_ind _ (diff_false_true H)) Hextract).
    exact Hp1. }
  destruct (feature_engineering_not_text _ (not_text_handle_missing _ _ Hp2)) as [log Hfe].
  rewrite Hfe in Hx. injection Hx as <-. cbn [fst].
  split.
  - unfold handle_missing_and_duplicates, drop_duplicates.
    apply no_nulls_select_rows, no_nulls_fill_missing, Ht2.
  - exists cleaned, extracted. repeat split; try assumption.
    unfold handle_missing_and_duplicates. rewrite fill_missing_columns. reflexivity.
Qed.

Lemma process_file_leaves_no_null_witness :
  no_nulls
    [("price", mkSeries Numeric [Num (Qmake 1500 1); Num (Qmake 0 1)]);
     ("price_info", mkSeries Numeric [Num (Qmake 2000 1); Num (Qmake 0 1)]);
     ("name", mkSeries Object [Str "Nike Air Max Xl"; Str "Unknown"]);
     ("category", mkSeries Object [Str "men"; Str "men"]);
     ("extracted_size", mkSeries Object [Str "Unknown"; Str "Unknown"]);
     ("brand", mkSeries Object [Str "Nike"; Str "Unknown"])] = true.
Proof.
  apply (process_file_leaves_no_null sample_repr "Jumia Data/raw/jumia_men.csv"
           [("Price", mkSeries Object [Str "₦1,500"; Str "free"; Str "₦1,500"]);
            ("price_info", mkSeries Object [Str "old price ₦2,000"; NaN; Str "old price ₦2,000"]);
            ("Product Name", mkSeries Object [Str "Nike Air Max XL"; NaN; Str "Nike Air Max XL"])]
           (mkProcessed _ "men" "Jumia Data/processed/processed_men.csv"
                        [Warning AttributeError])).
  - reflexivity.
  - vm_compute. reflexivity.
Defined.

(* ===================================================================== *)
(** * Aggregation and summary *)
(* ===================================================================== *)

Lemma filter_all {A : Type} (p : A -> bool) (l : list A) :
  (forall x, p x = true) -> filter p l = l.
Proof.
  intros H. induction l as [|x l IH]; simpl; [reflexivity|]. rewrite H, IH. reflexivity.
Qed.

Lemma contribution_length (l : string) (df : DataFrame) :
  aligned df = true -> length (contribution l df) = nrows df.
Proof.
  intros Ha. unfold contribution.
  destruct (labelled l df) as [|s r] eqn:E.
  - apply repeat_length.
  - assert (Hin : In s (labelled l df)) by (rewrite E; left; reflexivity).
    unfold labelled in Hin. apply in_map_iff in Hin. destruct Hin as [c [<- Hc]].
    apply filter_In in Hc. destruct Hc as [Hc _].
    unfold aligned in Ha. rewrite forallb_forall in Ha.
    apply Nat.eqb_eq. apply Ha, Hc.
Qed.

Lemma nrows_concat_two (t1 t2 : DataFrame) :
  aligned t1 = true -> aligned t2 = true ->
  nrows (concat [t1; t2]) = nrows t1 + nrows t2.
Proof.
  intros H1 H2. unfold concat, union_labels. cbn [fold_left app].
  rewrite (filter_all _ (columns t1)) by reflexivity.
  destruct t1 as [|[l1 s1] t1].
  - cbn [columns map app nrows]. rewrite (filter_all _ (columns t2)) by reflexivity.
    destruct t2 as [|[l2 s2] t2]; [reflexivity|].
    cbn [columns map nrows fst snd values flat_map].
    rewrite !length_app. rewrite !contribution_length by assumption. simpl. lia.
  - cbn [columns map app nrows fst snd values flat_map].
    rewrite !length_app. rewrite !contribution_length by assumption.
    simpl. lia.
Qed.

(** ** Sorting keeps the keys *)

Lemma insert_sorted_perm {A : Type} (leb : A -> A -> bool) (x : A) (l : list A) :
  Permutation (insert_sorted leb x l) (x :: l).
Proof.
  induction l as [|y l IH]; simpl; [apply Permutation_refl|].
  destruct (leb x y); [apply Permutation_refl|].
  apply Permutation_trans with (y :: x :: l); [apply perm_skip, IH|apply perm_swap].
Qed.

Lemma sort_perm {A : Type} (leb : A -> A -> bool) (l : list A) :
  Permutation (sort leb l) l.
Proof.
  induction l as [|x l IH]; simpl; [apply Permutation_refl|].
  apply Permutation_trans with (x :: sort leb l);
    [apply insert_sorted_perm|apply perm_skip, IH].
Qed.

Lemma filter_length_perm {A : Type} (p : A -> bool) (l l' : list A) :
  Permutation l l' -> length (filter p l) = length (filter p l').
Proof.
  intros H. induction H; simpl.
  - reflexivity.
  - destruct (p x); simpl; congruence.
  - destruct (p x), (p y); reflexivity.
  - congruence.
Qed.

(** ** Group keys *)

Lemma py_eqb_eq (a b : cell) : py_eqb a b = true <-> norm_cell a = norm_cell b.
Proof. unfold py_eqb. apply cell_eqb_eq. Qed.

Lemma py_eqb_refl (a : cell) : py_eqb a a = true.
Proof. apply py_eqb_eq. reflexivity. Qed.

Lemma py_eqb_congr (a b : cell) :
  py_eqb a b = true -> forall x, py_eqb a x = py_eqb b x.
Proof.
  intros H x. apply py_eqb_eq in H.
  destruct (py_eqb b x) eqn:E.
  - apply py_eqb_eq. apply py_eqb_eq in E. congruence.
  - destruct (py_eqb a x) eqn:E'; [|reflexivity].
    apply py_eqb_eq in E'. rewrite <- E. symmetry. apply py_eqb_eq. congruence.
Qed.

Lemma existsb_py_congr (a b : cell) (seen : list cell) :
  py_eqb a b = true -> existsb (py_eqb a) seen = existsb (py_eqb b) seen.
Proof.
  intros H. induction seen as [|x seen IH]; simpl; [reflexivity|].
  rewrite (py_eqb_congr _ _ H x), IH. reflexivity.
Qed.

Lemma py_eqb_null (a b : cell) : py_eqb a b = true -> isnull a = isnull b.
Proof.
  intros H. apply py_eqb_eq in H. destruct a, b; simpl in *; try reflexivity; discriminate.
Qed.

Lemma unique_from_in (v seen : list cell) (k : cell) :
  In k (unique_from seen v) -> In k v /\ isnull k = false.
Proof.
  revert seen. induction v as [|c v IH]; intros seen H; [contradiction|].
  simpl in H. destruct (isnull c) eqn:En; simpl in H.
  - destruct (IH _ H). split; [right|]; assumption.
  - destruct (existsb (py_eqb c) seen).
    + destruct (IH _ H). split; [right|]; assumption.
    + destruct H as [<-|H]; [split; [left; reflexivity|exact En]|].
      destruct (IH _ H). split; [right|]; assumption.
Qed.

Lemma unique_from_seen (c : cell) (v seen : list cell) :
  existsb (py_eqb c) seen = true ->
  length (filter (py_eqb c) (unique_from seen v)) = 0.
Proof.
  revert seen. induction v as [|h v IH]; intros seen Hseen; [reflexivity|].
  simpl. destruct (isnull h); simpl; [apply IH, Hseen|].
  destruct (existsb (py_eqb h) seen) eqn:Eh; [apply IH, Hseen|].
  simpl. destruct (py_eqb c h) eqn:Ech.
  - rewrite (existsb_py_congr _ _ _ Ech) in Hseen. congruence.
  - apply IH. simpl. rewrite Hseen. apply orb_true_r.
Qed.

Lemma unique_from_once (c : cell) (v seen : list cell) :
  isnull c = false ->
  existsb (py_eqb c) seen = false ->
  In c v ->
  length (filter (py_eqb c) (unique_from seen v)) = 1.
Proof.
  intros Hc. revert seen. induction v as [|h v IH]; intros seen Hseen Hin; [contradiction|].
  simpl. destruct (py_eqb c h) eqn:Ech.
  - rewrite <- (py_eqb_null _ _ Ech), Hc. simpl.
    rewrite <- (existsb_py_congr _ _ _ Ech), Hseen. simpl. rewrite Ech. simpl.
    f_equal. apply unique_from_seen. simpl. rewrite Ech. reflexivity.
  - destruct Hin as [->|Hin]; [rewrite py_eqb_refl in Ech; discriminate|].
    destruct (isnull h); simpl; [apply IH; assumption|].
    destruct (existsb (py_eqb h) seen); [apply IH; assumption|].
    simpl. rewrite Ech. apply IH; [|exact Hin].
    simpl. rewrite Ech, Hseen. reflexivity.
Qed.

Lemma for_each_appends {K V : Type} (body : list (K * V) -> K -> outcome (list (K * V)))
      (L : list K) :
  (forall acc k acc', body acc k = Returned acc' -> map fst acc' = map fst acc ++ [k]) ->
  forall acc r, for_each L body acc = Returned r -> map fst r = map fst acc ++ L.
Proof.
  intros Hbody. induction L as [|k L IH]; intros acc r H; simpl in H.
  - injection H as <-. rewrite app_nil_r. reflexivity.
  - invert_bind H. rewrite (IH _ _ H), (Hbody _ _ _ Hx), <- app_assoc. reflexivity.
Qed.

(** The keys of a summary that was produced are the group keys of the
    [category] column, in some order. *)
Lemma summary_keys_perm (df : DataFrame) (sm : summary) :
  create_summary_statistics df = Returned sm ->
  exists cat, getitem df "category" = Returned cat
              /\ Permutation (summary_keys sm) (unique (values cat)).
Proof.
  unfold create_summary_statistics. intros H.
  destruct (negb (has_column "price" df || has_column "discount_percentage" df)).
  - invert_bind H. injection H as <-. exists x. split; [exact Hx|].
    unfold summary_keys, value_counts.
    eapply Permutation_trans; [apply Permutation_map, sort_perm|].
    rewrite map_map. simpl. rewrite map_id. apply Permutation_refl.
  - invert_bind H. invert_bind H. injection H as <-. exists x. split; [exact Hx|].
    unfold summary_keys.
    apply for_each_appends in Hx0.
    + simpl in Hx0. rewrite Hx0. apply sort_perm.
    + intros acc k acc' Hb. invert_bind Hb. invert_bind Hb. injection Hb as <-.
      rewrite map_app. reflexivity.
Qed.

Lemma select_in {A : Type} (mask : list bool) (l : list A) (x : A) :
  In x (select mask l) -> In x l.
Proof.
  revert l. induction mask as [|b m IH]; intros [|y l] H; simpl in *; try contradiction.
  destruct b; [destruct H as [H|H]; [left; exact H|]|]; right; apply IH, H.
Qed.

(** ** When a summary is produced *)

Lemma for_each_returns {A S : Type} (body : S -> A -> outcome S) (L : list A) :
  (forall st x, In x L -> exists st', body st x = Returned st') ->
  forall st, exists out, for_each L body st = Returned out.
Proof.
  induction L as [|x L IH]; intros Hbody st; [exists st; reflexivity|].
  simpl. destruct (Hbody st x (or_introl eq_refl)) as [st' ->]. simpl.
  apply IH. intros s y Hy. apply Hbody. right. exact Hy.
Qed.

Lemma distinct_filter (p : string -> bool) (l : list string) :
  distinct l = true -> distinct (filter p l) = true.
Proof.
  induction l as [|x l IH]; simpl; [reflexivity|].
  intros H. apply andb_true_iff in H. destruct H as [Hx H].
  destruct (p x); simpl; [|apply IH, H].
  rewrite (IH H), andb_true_r. apply negb_true_iff in Hx. apply negb_true_iff.
  destruct (existsb (String.eqb x) (filter p l)) eqn:E; [|reflexivity].
  apply existsb_exists in E. destruct E as [y [Hy Hxy]].
  apply filter_In in Hy. destruct Hy as [Hy _].
  rewrite <- Hx. symmetry. apply existsb_exists. eauto.
Qed.

Lemma distinct_app (a b : list string) :
  distinct a = true -> distinct b = true ->
  (forall x, In x b -> existsb (String.eqb x) a = false) ->
  distinct (a ++ b) = true.
Proof.
  intros Ha Hb Hab. induction a as [|x a IH]; simpl; [exact Hb|].
  simpl in Ha. apply andb_true_iff in Ha. destruct Ha as [Hx Ha].
  rewrite IH.
  - rewrite andb_true_r. rewrite existsb_app. apply negb_true_iff in Hx. rewrite Hx.
    simpl. apply negb_true_iff.
    destruct (existsb (String.eqb x) b) eqn:E; [|reflexivity].
    apply existsb_exists in E. destruct E as [y [Hy Hxy]].
    apply String.eqb_eq in Hxy. subst y.
    specialize (Hab x Hy). simpl in Hab. rewrite String.eqb_refl in Hab. discriminate.
  - exact Ha.
  - intros y Hy. specialize (Hab y Hy). simpl in Hab.
    apply orb_false_iff in Hab. tauto.
Qed.

Lemma union_labels_two (t1 t2 : DataFrame) :
  union_labels [t1; t2]
  = columns t1 ++ filter (fun l => negb (existsb (String.eqb l) (columns t1))) (columns t2).
Proof.
  unfold union_labels. cbn [fold_left app].
  rewrite (filter_all _ (columns t1)) by reflexivity. reflexivity.
Qed.

Lemma union_labels_two_distinct (t1 t2 : DataFrame) :
  distinct (columns t1) = true -> distinct (columns t2) = true ->
  distinct (union_labels [t1; t2]) = true.
Proof.
  intros H1 H2. rewrite union_labels_two. apply distinct_app.
  - exact H1.
  - apply distinct_filter, H2.
  - intros x Hx. apply filter_In in Hx. destruct Hx as [_ Hx].
    apply negb_true_iff in Hx. exact Hx.
Qed.

(** In a frame built from a list of distinct labels, a label of the list
    is carried by exactly one column. *)
Lemma labelled_distinct (f : string -> Series) (l : string) (L : list string) :
  distinct L = true -> In l L ->
  labelled l (map (fun x => (x, f x)) L) = [f l].
Proof.
  unfold labelled. induction L as [|x L IH]; intros Hd Hin; [contradiction|].
  simpl in Hd. apply andb_true_iff in Hd. destruct Hd as [Hx Hd].
  apply negb_true_iff in Hx. cbn [map filter fst].
  destruct (String.eqb x l) eqn:E.
  - apply String.eqb_eq in E. subst x. cbn [map snd]. f_equal.
    assert (Hnone : forall L', existsb (String.eqb l) L' = false ->
                      map snd (filter (fun c : string * Series => String.eqb (fst c) l)
                                      (map (fun x => (x, f x)) L')) = []).
    { clear. induction L' as [|y L' IH]; simpl; [reflexivity|].
      intros H. apply orb_false_iff in H. destruct H as [Hy H].
      rewrite String.eqb_sym in Hy. rewrite Hy. apply IH, H. }
    apply Hnone, Hx.
  - destruct Hin as [->|Hin]; [rewrite String.eqb_refl in E; discriminate|].
    apply IH; assumption.
Qed.

Lemma has_column_in (l : string) (df : DataFrame) :
  has_column l df = true <-> In l (columns df).
Proof.
  unfold has_column. rewrite existsb_exists. split.
  - intros [x [Hx E]]. apply String.eqb_eq in E. subst x. exact Hx.
  - intros H. exists l. split; [exact H|apply String.eqb_refl].
Qed.

Lemma columns_concat (frames : list DataFrame) :
  columns (concat frames) = union_labels frames.
Proof. unfold columns, concat. rewrite map_map. simpl. apply map_id. Qed.

Lemma getitem_concat (l : string) (frames : list DataFrame) :
  distinct (union_labels frames) = true ->
  has_column l (concat frames) = true ->
  getitem (concat frames) l
  = Returned (mkSeries (concat_dtype l frames) (flat_map (contribution l) frames)).
Proof.
  intros Hd Hin. apply has_column_in in Hin. rewrite columns_concat in Hin.
  unfold getitem, concat.
  rewrite (labelled_distinct
             (fun l => mkSeries (concat_dtype l frames) (flat_map (contribution l) frames))
             l _ Hd Hin).
  reflexivity.
Qed.

(** A column that is not of dtype [object] in a well-typed frame holds no
    text, and so does what the frame contributes under its label. *)
Lemma contribution_no_text (l : string) (t : DataFrame) :
  well_typed t = true -> not_text l t = true ->
  existsb is_str (contribution l t) = false.
Proof.
  intros Ht Hn. unfold contribution.
  destruct (labelled l t) as [|s r] eqn:E.
  - induction (nrows t); simpl; [reflexivity|assumption].
  - assert (Hin : In s (labelled l t)) by (rewrite E; left; reflexivity).
    unfold not_text in Hn. rewrite forallb_forall in Hn. specialize (Hn s Hin).
    unfold labelled in Hin. apply in_map_iff in Hin. destruct Hin as [c [<- Hc]].
    apply filter_In in Hc. destruct Hc as [Hc _].
    unfold well_typed in Ht. rewrite forallb_forall in Ht. specialize (Ht c Hc).
    rewrite forallb_forall in Ht.
    destruct (existsb is_str (values (snd c))) eqn:Ex; [|reflexivity].
    apply existsb_exists in Ex. destruct Ex as [x [Hx Hs]].
    specialize (Ht x Hx). unfold is_numeric_dtype in Hn.
    destruct (dtype_of (snd c)); try discriminate; destruct x; discriminate.
Qed.

Lemma group_cells_no_text (k : cell) (cat v : list cell) :
  existsb is_str v = false -> existsb is_str (group_cells k cat v) = false.
Proof.
  intros H. destruct (existsb is_str (group_cells k cat v)) eqn:E; [|reflexivity].
  apply existsb_exists in E. destruct E as [x [Hx Hs]].
  unfold group_cells in Hx. apply select_in in Hx.
  rewrite <- H. symmetry. apply existsb_exists. eauto.
Qed.

Lemma holds_numbers_not_text (name : string) (t : DataFrame) :
  holds_numbers name t = true -> not_text name t = true.
Proof.
  unfold holds_numbers, not_text. rewrite !forallb_forall.
  intros H s Hs. specialize (H s Hs). unfold is_numeric_dtype.
  destruct (dtype_of s); [reflexivity|discriminate|discriminate].
Qed.

Lemma summarizable_parts (t : DataFrame) :
  summarizable t = true ->
  distinct (columns t) = true /\ well_typed t = true /\ has_column "category" t = true
  /\ not_text "price" t = true /\ not_text "discount_percentage" t = true.
Proof.
  unfold summarizable, well_formed. intros H.
  repeat (apply andb_true_iff in H; destruct H as [H ?]).
  repeat split; try assumption; apply holds_numbers_not_text; assumption.
Qed.

(** The combination of two summarizable tables is summarized. *)
Lemma summary_of_summarizable (t1 t2 : DataFrame) :
  summarizable t1 = true -> summarizable t2 = true ->
  exists sm, create_summary_statistics (concat [t1; t2]) = Returned sm.
Proof.
  intros H1 H2.
  destruct (summarizable_parts _ H1) as [Hd1 [Ht1 [Hc1 [Hp1 Hdp1]]]].
  destruct (summarizable_parts _ H2) as [Hd2 [Ht2 [_ [Hp2 Hdp2]]]].
  assert (Hd : distinct (union_labels [t1; t2]) = true)
    by (apply union_labels_two_distinct; assumption).
  assert (Hcat : has_column "category" (concat [t1; t2]) = true).
  { apply has_column_in. rewrite columns_concat, union_labels_two.
    apply in_or_app. left. apply has_column_in, Hc1. }
  assert (Hno : forall l, not_text l t1 = true -> not_text l t2 = true ->
                          existsb is_str (flat_map (contribution l) [t1; t2]) = false).
  { intros l Ha Hb. cbn [flat_map]. rewrite app_nil_r, existsb_app.
    rewrite (contribution_no_text _ _ Ht1 Ha), (contribution_no_text _ _ Ht2 Hb).
    reflexivity. }
  unfold create_summary_statistics.
  rewrite (getitem_concat _ _ Hd Hcat). cbn [bind].
  destruct (negb (has_column "price" (concat [t1; t2])
                  || has_column "discount_percentage" (concat [t1; t2]))); [eauto|].
  match goal with
  | |- exists sm, (stats <- for_each ?L ?body ?acc ;; _) = _ =>
      destruct (for_each_returns body L) with (st := acc) as [out Hout]
  end.
  - intros st k _. cbn beta.
    destruct (has_column "price" (concat [t1; t2])) eqn:Ep;
      destruct (has_column "discount_percentage" (concat [t1; t2])) eqn:Ed;
      rewrite ?(getitem_concat _ _ Hd Ep), ?(getitem_concat _ _ Hd Ed); cbn [bind values];
      unfold aggregate;
      rewrite ?(group_cells_no_text _ _ _ (Hno "price" Hp1 Hp2)),
              ?(group_cells_no_text _ _ _ (Hno "discount_percentage" Hdp1 Hdp2));
      cbn [bind]; eauto.
  - rewrite Hout. cbn [bind]. eauto.
Qed.

(** C8. Two processed tables, each with columns of equal length, are
    combined into a table with as many rows as both together.  When both are
    summarizable (distinct labels, cells fitting their dtype, a [category]
    column, numbers in the columns [price] and [discount_percentage] they may
    have) a summary of the combined table is produced.  And a summary produced from the
    combined table has, for every category value present in it, exactly one
    row keyed by that value, and no other row. *)
Theorem combined_rows_and_summary_rows (t1 t2 combined : DataFrame) :
  aligned t1 = true -> aligned t2 = true ->
  combine_datasets [t1; t2] = Returned combined ->
  nrows combined = nrows t1 + nrows t2
  /\ (summarizable t1 = true -> summarizable t2 = true ->
      exists sm, create_summary_statistics combined = Returned sm)
  /\ forall sm,
       create_summary_statistics combined = Returned sm ->
       exists cat,
         getitem combined "category" = Returned cat
         /\ (forall k, In k (summary_keys sm) -> In k (values cat) /\ isnull k = false)
         /\ (forall c, In c (values cat) -> isnull c = false ->
                       length (filter (py_eqb c) (summary_keys sm)) = 1).
Proof.
  intros H1 H2 Hc. simpl in Hc. injection Hc as <-. split; [|split].
  - apply nrows_concat_two; assumption.
  - apply summary_of_summarizable.
  - intros sm Hsm. destruct (summary_keys_perm _ _ Hsm) as [cat [Hcat Hperm]].
    exists cat. split; [exact Hcat|]. split.
    + intros k Hk. apply (unique_from_in _ []).
      apply (Permutation_in _ Hperm Hk).
    + intros c Hin Hnull. rewrite (filter_length_perm _ _ _ Hperm).
      apply unique_from_once; [exact Hnull|reflexivity|exact Hin].
Qed.

Example process_file_kids :
  process_file sample_repr "Jumia Data/raw/jumia_kids.csv"
    [("Name", mkSeries Object [Str "Kids Sneaker 30"]);
     ("Price", mkSeries Object [Str "₦10"])]
  = Returned
      (mkProcessed
         [("name", mkSeries Object [Str "Kids Sneaker 30"]);
          ("price", mkSeries Numeric [Num (Qmake 10 1)]);
          ("category", mkSeries Object [Str "kids"]);
          ("extracted_size", mkSeries Object [Str "30"]);
          ("brand", mkSeries Object [Str "Kids"])]
         "kids" "Jumia Data/processed/processed_kids.csv" []).
Proof. vm_compute. reflexivity. Qed.

(** Two tables as [process_file] returns them (the one of the example of
    C2 and the one of [process_file_kids]), their combination and its
    summary: three rows, and one summary row for each of the categories
    "kids" and "men". *)
Lemma combined_rows_and_summary_rows_witness :
  let t1 := [("price", mkSeries Numeric [Num (Qmake 1500 1); Num (Qmake 0 1)]);
             ("price_info", mkSeries Numeric [Num (Qmake 2000 1); Num (Qmake 0 1)]);
             ("name", mkSeries Object [Str "Nike Air Max Xl"; Str "Unknown"]);
             ("category", mkSeries Object [Str "men"; Str "men"]);
             ("extracted_size", mkSeries Object [Str "Unknown"; Str "Unknown"]);
             ("brand", mkSeries Object [Str "Nike"; Str "Unknown"])] in
  let t2 := [("name", mkSeries Object [Str "Kids Sneaker 30"]);
             ("price", mkSeries Numeric [Num (Qmake 10 1)]);
             ("category", mkSeries Object [Str "kids"]);
             ("extracted_size", mkSeries Object [Str "30"]);
             ("brand", mkSeries Object [Str "Kids"])] in
  nrows (concat [t1; t2]) = 3
  /\ exists sm cat,
       create_summary_statistics (concat [t1; t2]) = Returned sm
       /\ map fst (match sm with
                   | Aggregated stats => stats
                   | CategoryCounts _ => []
                   end) = [Str "kids"; Str "men"]
       /\ getitem (concat [t1; t2]) "category" = Returned cat
       /\ values cat = [Str "men"; Str "men"; Str "kids"]
       /\ (forall k, In k (summary_keys sm) -> In k (values cat) /\ isnull k = false)
       /\ (forall c, In c (values cat) -> isnull c = false ->
                     length (filter (py_eqb c) (summary_keys sm)) = 1).
Proof.
  intros t1 t2.
  destruct (combined_rows_and_summary_rows t1 t2 (concat [t1; t2])
              eq_refl eq_refl eq_refl) as [Hrows [Hex Hkeys]].
  split; [exact Hrows|].
  destruct (Hex eq_refl eq_refl) as [sm Hsm].
  destruct (Hkeys sm Hsm) as [cat [Hcat [Hin Honce]]].
  exists sm, cat. split; [exact Hsm|].
  assert (Hrun : create_summary_statistics (concat [t1; t2])
                 = Returned
                     (Aggregated
                        [(Str "kids", [Num (Qmake 1 1); Num (Qmake 10 1); Num (Qmake 10 1);
                                       Num (Qmake 10 1)]);
                         (Str "men", [Num (Qmake 2 1); Num (Qmake 750 1); Num (Qmake 0 1);
                                      Num (Qmake 1500 1)])]))
    by (vm_compute; reflexivity).
  assert (Hget : getitem (concat [t1; t2]) "category"
                 = Returned (mkSeries Object [Str "men"; Str "men"; Str "kids"]))
    by (vm_compute; reflexivity).
  rewrite Hrun in Hsm. injection Hsm as <-.
  rewrite Hget in Hcat. injection Hcat as <-.
  repeat split; try reflexivity; try assumption.
  - apply (Hin k H).
  - apply (Hin k H).
Defined.

Example summary_of_two_tables :
  (combined <- combine_datasets
                 [[("category", mkSeries Object [Str "men"; Str "men"]);
                   ("price", mkSeries Numeric [Num (Qmake 1500 1); Num (Qmake 0 1)])];
                  [("price", mkSeries Numeric [Num (Qmake 10 1)]);
                   ("category", mkSeries Object [Str "kids"]);
                   ("brand", mkSeries Object [Str "Nike"])]] ;;
   sm <- create_summary_statistics combined ;;
   Returned (nrows combined, sm))
  = Returned
      (3, Aggregated
            [(Str "kids", [Num (Qmake 1 1); Num (Qmake 10 1); Num (Qmake 10 1);
                           Num (Qmake 10 1)]);
             (Str "men", [Num (Qmake 2 1); Num (Qmake 750 1); Num (Qmake 0 1);
                          Num (Qmake 1500 1)])]).
Proof. vm_compute. reflexivity. Qed.

(* ===================================================================== *)
(** * Further properties of the script *)
(* ===================================================================== *)

(** ** The category label holds no separator *)

Lemma mem_split_first_self (sep : ascii) (s : string) :
  PyStr.mem sep (PyStr.split_first sep s) = false.
Proof.
  induction s as [|c s IH]; simpl; [reflexivity|].
  destruct (Ascii.eqb c sep) eqn:E; simpl; [reflexivity|].
  rewrite E, IH. reflexivity.
Qed.

Lemma mem_split_first_other (c sep : ascii) (s : string) :
  PyStr.mem c s = false -> PyStr.mem c (PyStr.split_first sep s) = false.
Proof.
  induction s as [|d s IH]; simpl; [reflexivity|].
  intros H. apply orb_false_iff in H. destruct H as [Hd H].
  destruct (Ascii.eqb d sep); simpl; [reflexivity|].
  rewrite Hd, (IH H). reflexivity.
Qed.

Lemma mem_split_last_self (sep : ascii) (s : string) :
  PyStr.mem sep (PyStr.split_last sep s) = false.
Proof.
  induction s as [|c s IH]; [reflexivity|].
  cbn [PyStr.split_last].
  destruct (PyStr.mem sep (String c s)) eqn:E; [exact IH|exact E].
Qed.

Lemma mem_split_last_other (c sep : ascii) (s : string) :
  PyStr.mem c s = false -> PyStr.mem c (PyStr.split_last sep s) = false.
Proof.
  induction s as [|d s IH]; [reflexivity|].
  intros H. cbn [PyStr.split_last].
  destruct (PyStr.mem sep (String d s)); [|exact H].
  apply IH. simpl in H. apply orb_false_iff in H. tauto.
Qed.

(** X1. Whatever the file path, the category label derived from it holds
    no underscore, no dot and no slash. *)
Theorem category_of_path_has_no_separator (file_path : string) :
  PyStr.mem "_" (category_of_path file_path) = false
  /\ PyStr.mem "." (category_of_path file_path) = false
  /\ PyStr.mem "/" (category_of_path file_path) = false.
Proof.
  unfold category_of_path. repeat split.
  - apply mem_split_first_other, mem_split_last_self.
  - apply mem_split_first_self.
  - apply mem_split_first_other, mem_split_last_other, mem_split_last_self.
Qed.

(** ** Price cleaner: dtypes, untouched columns, malformed amounts *)

(** X2. When the price cleaner returns, every column whose label contains
    "price" is numeric (never text). *)
Theorem clean_price_data_price_columns_numeric
    (num_repr : Q -> string) (df df' : DataFrame) :
  clean_price_data num_repr df = Returned df' ->
  forall name s,
    In (name, s) df' ->
    PyStr.contains "price" (PyStr.lower name) = true ->
    is_numeric_dtype s = true.
Proof.
  intros H name s Hin Hprice. apply clean_price_data_columns in H.
  destruct (Forall2_in_right _ _ _ H _ Hin) as [c [_ [Hf Hconv]]].
  cbn [fst snd] in Hf, Hconv. rewrite <- Hf in Hconv.
  unfold price_like in Hconv. rewrite Hprice in Hconv.
  apply (convert_series_numeric _ _ _ Hconv).
Qed.

Lemma clean_price_data_price_columns_numeric_witness :
  is_numeric_dtype (mkSeries Numeric [Num (Qmake 2000 1); NaN]) = true.
Proof.
  apply (clean_price_data_price_columns_numeric sample_repr
           [("Old_Price_Info", mkSeries Object [Str "was ₦2,000"; Str "n/a"]);
            ("name", mkSeries Object [Str "Shirt"; Str "Shoe"])]
           [("Old_Price_Info", mkSeries Numeric [Num (Qmake 2000 1); NaN]);
            ("name", mkSeries Object [Str "Shirt"; Str "Shoe"])]
           eq_refl "Old_Price_Info").
  - left. reflexivity.
  - reflexivity.
Defined.

(** X3. When the price cleaner returns, the frame has as many columns as
    before, and a column that is already numeric, or whose label does not
    contain "price", is found unchanged at the same position
    ([product_price] relabelled [price]). *)
Theorem clean_price_data_keeps_other_columns
    (num_repr : Q -> string) (df df' : DataFrame) :
  clean_price_data num_repr df = Returned df' ->
  length df' = length df
  /\ forall i name s,
       nth_error df i = Some (name, s) ->
       PyStr.contains "price" (PyStr.lower name) = false \/ is_numeric_dtype s = true ->
       nth_error df' i
       = Some (if String.eqb name "product_price" then "price" else name, s).
Proof.
  intros H. apply clean_price_data_columns in H. split.
  - apply (Forall2_length_eq _ _ _ H).
  - intros i name s Hi Hcase.
    destruct (Forall2_nth_error _ _ _ H i _ Hi) as [[name' s'] [Hi' [Hf Hs]]].
    cbn [fst snd] in Hf, Hs. rewrite Hi'. f_equal. unfold relabelled in *.
    rewrite <- Hf. f_equal.
    destruct Hcase as [Hnot|Hnum].
    + destruct (String.eqb name "product_price") eqn:E.
      * apply String.eqb_eq in E. subst name. discriminate.
      * unfold price_like in Hs. rewrite Hnot in Hs. exact Hs.
    + destruct (price_like _); [|exact Hs].
      unfold convert_series in Hs. rewrite Hnum in Hs. congruence.
Qed.

Lemma clean_price_data_keeps_other_columns_witness :
  nth_error
    [("price", mkSeries Object [Str "₦1,500"]);
     ("sizes", mkSeries Object [Str "old price 12"])] 1
  = Some ("sizes", mkSeries Object [Str "old price 12"]).
Proof.
  refine (proj2 (clean_price_data_keeps_other_columns sample_repr
                   [("price", mkSeries Object [Str "₦1,500"]);
                    ("sizes", mkSeries Object [Str "old price 12"])]
                   [("price", mkSeries Numeric [Num (Qmake 1500 1)]);
                    ("sizes", mkSeries Object [Str "old price 12"])]
                   eq_refl) 1 "sizes" _ eq_refl (or_introl eq_refl)).
Defined.

(** X4. A column that is not numeric, whose label contains "price" and one
    of whose cells holds an amount with two decimal points (the text found
    by the pattern, commas removed, is not a number) makes the price cleaner
    raise: no cleaned frame is returned.  The cell is one whose digits are
    all ASCII digits, so that the amount the pattern finds in it is the one
    Python finds. *)
Theorem clean_price_data_raises_on_malformed_amount
    (num_repr : Q -> string) (df : DataFrame)
    (i j : nat) (name : string) (s : Series) (t found : string) :
  nth_error df i = Some (name, s) ->
  PyStr.contains "price" (PyStr.lower name) = true ->
  is_numeric_dtype s = false ->
  nth_error (values s) j = Some (Str t) ->
  Unicode.foreign_decimal t = false ->
  Regex.search Regex.price_pattern t = Some found ->
  PyNum.py_float (PyStr.replace "," "" found) = None ->
  exists e, clean_price_data num_repr df = Raised e.
Proof.
  intros Hi Hprice Hobj Hj _ Hfound Hfloat.
  destruct (clean_price_data num_repr df) as [df'|e] eqn:Hrun; [|eauto].
  exfalso. apply clean_price_data_columns in Hrun.
  destruct (Forall2_nth_error _ _ _ Hrun i _ Hi) as [[name' s'] [_ [_ Hconv]]].
  cbn [fst snd] in Hconv.
  assert (Hlike : price_like (relabelled name) = true).
  { unfold relabelled. destruct (String.eqb name "product_price"); [reflexivity|].
    exact Hprice. }
  rewrite Hlike in Hconv. unfold convert_series in Hconv. rewrite Hobj in Hconv.
  invert_bind Hconv. apply astype_float_cells in Hx.
  destruct (Forall2_nth_error _ _ _ Hx j _ Hj) as [c' [_ Hc]].
  unfold price_text in Hc. cbn [astype_str] in Hc. rewrite Hfound in Hc.
  cbn [float_of_cell] in Hc. rewrite Hfloat in Hc. discriminate.
Qed.

Lemma clean_price_data_raises_on_malformed_amount_witness :
  exists e,
    clean_price_data sample_repr
      [("name", mkSeries Object [Str "Shirt"; Str "Shoe"]);
       ("Price", mkSeries Object [Str "₦1,500"; Str "v1.2.3"])]
    = Raised e.
Proof.
  apply (clean_price_data_raises_on_malformed_amount sample_repr _ 1 1 "Price"
           (mkSeries Object [Str "₦1,500"; Str "v1.2.3"]) "v1.2.3" "1.2.3");
    reflexivity.
Defined.

(** ** Discount step: the columns it never touches *)

Lemma labelled_round_column (n name : string) (df : DataFrame) :
  String.eqb name n = false -> labelled n (round_column name df) = labelled n df.
Proof.
  intros Hne. unfold round_column. apply labelled_map_other; intros c Hc.
  - destruct (String.eqb (fst c) name) eqn:E; [|reflexivity].
    rewrite (eqb_trans_false _ _ _ E Hne) in Hc. discriminate.
  - destruct (String.eqb (fst c) name && _); exact Hc.
Qed.

(** X5. Whatever the frame, the discount step leaves every column other
    than [old_price] and [discount_percentage] exactly as it was, whether
    it completes or is interrupted. *)
Theorem feature_engineering_keeps_other_columns
    (df df' : DataFrame) (log : list log_line) (name : string) :
  String.eqb "old_price" name = false ->
  String.eqb "discount_percentage" name = false ->
  feature_engineering df = Returned (df', log) ->
  labelled name df' = labelled name df.
Proof.
  intros Ho Hd H. unfold feature_engineering in H.
  destruct (has_column "price_info" df && has_column "price" df);
    [|injection H as <- _; reflexivity].
  assert (Hblock : forall d, (discount_block df = Completed d
                              \/ exists e, discount_block df = Interrupted d e) ->
                             labelled name d = labelled name df).
  { clear H. intros d Hcase. unfold discount_block in Hcase.
    destruct (str_of df "price_info") as [v|e1].
    2:{ destruct Hcase as [Hc|[e Hc]]; [discriminate|]. injection Hc as <- _. reflexivity. }
    match type of Hcase with
    | context [str_of ?d1 "old_price"] =>
        assert (H1 : labelled name d1 = labelled name df)
          by (apply labelled_setitem_other; exact Ho);
        destruct (str_of d1 "old_price") as [v1|e2]
    end.
    2:{ destruct Hcase as [Hc|[e Hc]]; [discriminate|]. injection Hc as <- _. exact H1. }
    match type of Hcase with
    | context [getitem ?d2 "old_price"] =>
        assert (H2 : labelled name d2 = labelled name df)
          by (rewrite labelled_setitem_other by exact Ho; exact H1);
        destruct (getitem d2 "old_price") as [op|e3]
    end.
    2:{ destruct Hcase as [Hc|[e Hc]]; [discriminate|]. injection Hc as <- _. exact H2. }
    destruct (existsb _ _).
    - match type of Hcase with
      | context [bind ?c ?k] => destruct (bind c k) as [s|e4]
      end.
      + destruct Hcase as [Hc|[e Hc]]; [|discriminate]. injection Hc as <-.
        rewrite labelled_round_column by exact Hd.
        rewrite labelled_loc_set_other by exact Hd. exact H2.
      + destruct Hcase as [Hc|[e Hc]]; [discriminate|]. injection Hc as <- _. exact H2.
    - destruct Hcase as [Hc|[e Hc]]; [|discriminate]. injection Hc as <-. exact H2. }
  destruct (discount_block df) as [d|d e] eqn:E; injection H as <- _.
  - apply Hblock. left. reflexivity.
  - apply Hblock. right. exists e. reflexivity.
Qed.

Lemma feature_engineering_keeps_other_columns_witness :
  labelled "price"
    [("price", mkSeries Numeric [Num (Qmake 1500 1)]);
     ("price_info", mkSeries Object [Str "old price ₦2,000"]);
     ("old_price", mkSeries Numeric [Num (Qmake 2000 1)]);
     ("discount_percentage", mkSeries Numeric [Num (Qmake 25 1)])]
  = labelled "price"
      [("price", mkSeries Numeric [Num (Qmake 1500 1)]);
       ("price_info", mkSeries Object [Str "old price ₦2,000"])].
Proof.
  apply (feature_engineering_keeps_other_columns _ _ [] "price"); reflexivity.
Defined.

(** ** The pipeline never completes the discount step *)

Lemma feature_engineering_not_text_warns (df : DataFrame) :
  not_text "price_info" df = true ->
  feature_engineering df
  = Returned (df, if has_column "price_info" df && has_column "price" df
                  then [Warning AttributeError] else []).
Proof.
  intros H. unfold feature_engineering.
  destruct (has_column "price_info" df) eqn:Ehas; simpl; [|reflexivity].
  destruct (has_column "price" df); [|reflexivity].
  unfold discount_block, str_of, getitem. unfold not_text in H.
  apply has_column_true_labelled in Ehas.
  destruct (labelled "price_info" df) as [|s [|s2 r]]; [contradiction| |reflexivity].
  simpl in H. rewrite andb_true_r in H. simpl. unfold str_accessor.
  unfold is_numeric_dtype in H. destruct (dtype_of s); try discriminate; reflexivity.
Qed.

(** X6. In every run of [process_file] that returns, the discount step
    adds nothing: the processed table is the output of the missing/duplicate
    handler; and whenever that table has both a [price_info] and a [price]
    column, the step was interrupted by an [AttributeError] and the run
    printed the discount warning (no warning otherwise). *)
Theorem process_file_never_derives_discount
    (num_repr : Q -> string) (file_path : string) (loaded : DataFrame) (r : processed) :
  process_file num_repr file_path loaded = Returned r ->
  (exists cleaned extracted,
     clean_price_data num_repr (standardize_column_names loaded) = Returned cleaned
     /\ extract_attributes cleaned (category_of_path file_path) = Returned extracted
     /\ table r = handle_missing_and_duplicates extracted)
  /\ warnings r = if has_column "price_info" (table r) && has_column "price" (table r)
                  then [Warning AttributeError] else [].
Proof.
  intros Hrun. unfold process_file in Hrun.
  invert_bind Hrun. rename x into cleaned, Hx into Hclean.
  invert_bind Hrun. rename x into extracted, Hx into Hextract.
  invert_bind Hrun. injection Hrun as <-. cbn [table warnings].
  assert (Hp : not_text "price_info" (handle_missing_and_duplicates extracted) = true).
  { apply not_text_handle_missing. unfold not_text.
    rewrite (extract_attributes_keeps "price_info" eq_refl eq_refl _ _ _
               (fun H => False_ind _ (diff_false_true H)) Hextract).
    apply (clean_price_data_price_info _ _ _ Hclean). }
  rewrite (feature_engineering_not_text_warns _ Hp) in Hx. injection Hx as <-.
  cbn [fst snd]. split; [|reflexivity].
  exists cleaned, extracted. repeat split; assumption.
Qed.

Lemma process_file_never_derives_discount_witness :
  [Warning AttributeError]
  = if has_column "price_info"
         [("price", mkSeries Numeric [Num (Qmake 1500 1)]);
          ("price_info", mkSeries Numeric [Num (Qmake 2000 1)]);
          ("category", mkSeries Object [Str "men"])]
       && has_column "price"
            [("price", mkSeries Numeric [Num (Qmake 1500 1)]);
             ("price_info", mkSeries Numeric [Num (Qmake 2000 1)]);
             ("category", mkSeries Object [Str "men"])]
    then [Warning AttributeError] else [].
Proof.
  exact (proj2 (process_file_never_derives_discount sample_repr
                  "Jumia Data/raw/jumia_men.csv"
                  [("Price", mkSeries Object [Str "₦1,500"]);
                   ("price_info", mkSeries Object [Str "old price ₦2,000"])]
                  (mkProcessed
                     [("price", mkSeries Numeric [Num (Qmake 1500 1)]);
                      ("price_info", mkSeries Numeric [Num (Qmake 2000 1)]);
                      ("category", mkSeries Object [Str "men"])]
                     "men" "Jumia Data/processed/processed_men.csv"
                     [Warning AttributeError])
                  eq_refl)).
Defined.

(** ** Attribute extractor: category, errors, brand *)

Lemma labelled_setitem_new (l : string) (s : Series) (df : DataFrame) :
  has_column l df = false -> labelled l (setitem df l s) = [s].
Proof.
  intros H. unfold setitem. rewrite H. rewrite labelled_app.
  apply has_column_labelled in H. rewrite H. unfold labelled. simpl.
  rewrite String.eqb_refl. reflexivity.
Qed.

(** X7. When the input frame has no [category] column, a run of the
    attribute extractor that returns has given it exactly one, holding the
    caller's label on every row. *)
Theorem extract_attributes_tags_every_row
    (df df' : DataFrame) (category_name : string) :
  has_column "category" df = false ->
  extract_attributes df category_name = Returned df' ->
  labelled "category" df'
  = [mkSeries Object (repeat (Str category_name) (nrows df))].
Proof.
  intros Hno H. unfold extract_attributes in H.
  invert_bind H. invert_bind H. invert_bind H. injection H as <-.
  rewrite (extract_brand_keeps "category" eq_refl eq_refl x0 x1
             (fun E => False_ind _ (diff_false_true E)) Hx1).
  rewrite (extract_size_keeps "category" eq_refl eq_refl x x0
             (fun E => False_ind _ (diff_false_true E)) Hx0).
  rewrite (clean_names_keeps "category" eq_refl eq_refl _ _ Hx).
  unfold add_category. rewrite Hno. cbn [negb].
  apply labelled_setitem_new, Hno.
Qed.

Lemma extract_attributes_tags_every_row_witness :
  labelled "category"
    [("name", mkSeries Object [Str "Nike Air Max XL"; Str "Classic Shirt 42"]);
     ("category", mkSeries Object [Str "men"; Str "men"]);
     ("extracted_size", mkSeries Object [Str "XL"; Str "42"]);
     ("brand", mkSeries Object [Str "Nike"; Str "Classic"])]
  = [mkSeries Object (repeat (Str "men") 2)].
Proof.
  apply (extract_attributes_tags_every_row
           [("name", mkSeries Object [Str "Nike Air Max XL"; Str "Classic Shirt 42"])]
           _ "men"); reflexivity.
Defined.

Lemma add_category_other (n category_name : string) (df : DataFrame) :
  String.eqb "category" n = false ->
  labelled n (add_category category_name df) = labelled n df.
Proof.
  intros E. unfold add_category.
  destruct (negb (has_column "category" df)); [|reflexivity].
  apply labelled_setitem_other, E.
Qed.

Lemma labelled_rename_target (old new : string) (df : DataFrame) :
  String.eqb old new = false ->
  length (labelled new (rename old new df))
  = length (labelled old df) + length (labelled new df).
Proof.
  intros Hne. unfold labelled, rename.
  induction df as [|c df IH]; simpl; [reflexivity|].
  destruct (String.eqb (fst c) old) eqn:Eo; simpl.
  - rewrite String.eqb_refl. simpl.
    rewrite (eqb_trans_false _ _ _ Eo Hne). rewrite IH. reflexivity.
  - destruct (String.eqb (fst c) new); simpl; rewrite IH; lia.
Qed.

Lemma has_column_length (n : string) (df : DataFrame) :
  has_column n df = true -> 1 <= length (labelled n df).
Proof.
  intros H. apply has_column_true_labelled in H.
  destruct (labelled n df); [contradiction|simpl; lia].
Qed.

(** X8. A frame that holds both a [product_name] and a [name] column makes
    the attribute extractor raise an [AttributeError]: after the renaming
    two columns are called [name]. *)
Theorem extract_attributes_raises_on_two_name_columns
    (df : DataFrame) (category_name : string) :
  has_column "product_name" df = true ->
  has_column "name" df = true ->
  extract_attributes df category_name = Raised AttributeError.
Proof.
  intros Hp Hn. unfold extract_attributes.
  set (d := add_category category_name df).
  assert (Hp' : has_column "product_name" d = true).
  { unfold d.
    rewrite (has_column_same _ _ _
               (add_category_other "product_name" category_name df eq_refl)).
    exact Hp. }
  assert (Hn' : has_column "name" d = true).
  { unfold d.
    rewrite (has_column_same _ _ _
               (add_category_other "name" category_name df eq_refl)).
    exact Hn. }
  unfold clean_names. rewrite Hp'. unfold str_of at 1. unfold getitem.
  assert (Hlen := labelled_rename_target "product_name" "name" d eq_refl).
  apply has_column_length in Hp'. apply has_column_length in Hn'.
  destruct (labelled "name" (rename "product_name" "name" d)) as [|s1 [|s2 r]];
    simpl in Hlen; try lia.
  reflexivity.
Qed.

Lemma extract_attributes_raises_on_two_name_columns_witness :
  extract_attributes
    [("product_name", mkSeries Object [Str "Nike Air Max XL"]);
     ("name", mkSeries Object [Str "Air Max"])] "men"
  = Raised AttributeError.
Proof.
  apply extract_attributes_raises_on_two_name_columns; reflexivity.
Defined.

(** X9. A frame whose only product-name column is [product_name] and is
    not text (a column of numbers, say) makes the attribute extractor raise
    an [AttributeError]. *)
Theorem extract_attributes_raises_on_numeric_names
    (df : DataFrame) (category_name : string) (s : Series) :
  getitem df "product_name" = Returned s ->
  is_numeric_dtype s = true ->
  has_column "name" df = false ->
  extract_attributes df category_name = Raised AttributeError.
Proof.
  intros Hget Hnum Hn. unfold extract_attributes.
  set (d := add_category category_name df).
  assert (Hlp : labelled "product_name" d = labelled "product_name" df).
  { apply add_category_other. reflexivity. }
  assert (Hln : labelled "name" d = labelled "name" df).
  { apply add_category_other. reflexivity. }
  unfold clean_names.
  rewrite (has_column_same _ _ _ Hlp), (getitem_has_column _ _ _ Hget).
  unfold str_of at 1. unfold getitem.
  assert (Hren : labelled "name" (rename "product_name" "name" d)
                 = labelled "product_name" d).
  { apply has_column_labelled in Hn. rewrite <- Hln in Hn. clear - Hn.
    unfold labelled, rename in *. induction d as [|c d IH]; [reflexivity|].
    simpl in *. destruct (String.eqb (fst c) "product_name") eqn:Eo; simpl.
    - assert (En : String.eqb (fst c) "name" = false)
        by (apply (eqb_trans_false _ _ _ Eo); reflexivity).
      rewrite En in Hn. rewrite (IH Hn). reflexivity.
    - destruct (String.eqb (fst c) "name"); [discriminate|]. apply IH, Hn. }
  rewrite Hren, Hlp. unfold getitem in Hget.
  destruct (labelled "product_name" df) as [|s1 [|s2 r]]; try discriminate.
  injection Hget as ->. simpl. unfold str_accessor.
  unfold is_numeric_dtype in Hnum. destruct (dtype_of s); try discriminate; reflexivity.
Qed.

Lemma extract_attributes_raises_on_numeric_names_witness :
  extract_attributes
    [("product_name", mkSeries Numeric [Num (Qmake 1001 1); Num (Qmake 1002 1)]);
     ("price", mkSeries Numeric [Num (Qmake 5 1); Num (Qmake 6 1)])] "men"
  = Raised AttributeError.
Proof.
  apply (extract_attributes_raises_on_numeric_names _ _
           (mkSeries Numeric [Num (Qmake 1001 1); Num (Qmake 1002 1)]));
    reflexivity.
Defined.

Lemma extract_size_keeps_name (df df' : DataFrame) :
  extract_size df = Returned df' -> labelled "name" df' = labelled "name" df.
Proof.
  unfold extract_size. intros H.
  destruct (has_column "name" df && negb (has_column "extracted_size" df));
    [|injection H as <-; reflexivity].
  invert_bind H. destruct (has_column "sizes" _).
  - invert_bind H. invert_bind H. injection H as <-.
    rewrite labelled_loc_set_other by reflexivity.
    apply labelled_setitem_other. reflexivity.
  - injection H as <-. apply labelled_setitem_other. reflexivity.
Qed.

Lemma getitem_same (n : string) (a b : DataFrame) :
  labelled n a = labelled n b -> getitem a n = getitem b n.
Proof. unfold getitem. intros ->. reflexivity. Qed.

(** X10. For a frame with a single [name] column, no [product_name] and no
    [brand] column, a run of the attribute extractor that returns has added
    one [brand] column: on each row the text of the name up to its first
    blank (missing where the name is not a text). No brand holds a blank. *)
Theorem extract_attributes_brand_is_first_word
    (df df' : DataFrame) (category_name : string) (names : Series) :
  has_column "product_name" df = false ->
  has_column "brand" df = false ->
  getitem df "name" = Returned names ->
  extract_attributes df category_name = Returned df' ->
  labelled "brand" df'
  = [mkSeries Object
       (map (fun c => match c with
                      | Str t => Str (PyStr.split_first " " t)
                      | _ => NaN
                      end) (values names))]
  /\ forall brands b,
       In brands (labelled "brand" df') -> In (Str b) (values brands) ->
       PyStr.mem " " b = false.
Proof.
  intros Hnp Hnb Hget H.
  assert (Hlab : labelled "brand" df'
                 = [mkSeries Object
                      (map (fun c => match c with
                                     | Str t => Str (PyStr.split_first " " t)
                                     | _ => NaN
                                     end) (values names))]).
  { unfold extract_attributes in H.
    invert_bind H. invert_bind H. invert_bind H. injection H as <-.
    assert (Hd : x = add_category category_name df).
    { unfold clean_names in Hx.
      rewrite (has_column_same _ _ _
                 (add_category_other "product_name" category_name df eq_refl)) in Hx.
      rewrite Hnp in Hx. injection Hx as <-. reflexivity. }
    subst x.
    assert (Hname : getitem x0 "name" = Returned names).
    { rewrite (getitem_same _ _ _ (extract_size_keeps_name _ _ Hx0)).
      rewrite (getitem_same _ _ _ (add_category_other "name" category_name df eq_refl)).
      exact Hget. }
    assert (Hbrand : has_column "brand" x0 = false).
    { rewrite (has_column_same _ _ _
                 (extract_size_keeps "brand" eq_refl eq_refl _ x0
                    (fun E => False_ind _ (diff_false_true E)) Hx0)).
      rewrite (has_column_same _ _ _
                 (add_category_other "brand" category_name df eq_refl)).
      exact Hnb. }
    unfold extract_brand in Hx1.
    rewrite (getitem_has_column _ _ _ Hname), Hbrand in Hx1. cbn [negb andb] in Hx1.
    apply bind_returned in Hx1. destruct Hx1 as [v [Hv Hx1]]. injection Hx1 as <-.
    unfold str_of in Hv. rewrite Hname in Hv. cbn [bind] in Hv.
    apply str_accessor_values in Hv. subst v.
    rewrite labelled_setitem_new by exact Hbrand. reflexivity. }
  split; [exact Hlab|].
  intros brands b Hin Hb. rewrite Hlab in Hin. destruct Hin as [<-|[]].
  cbn [values] in Hb. apply in_map_iff in Hb. destruct Hb as [c [Hc _]].
  destruct c; try discriminate. injection Hc as <-. apply mem_split_first_self.
Qed.

Lemma extract_attributes_brand_is_first_word_witness :
  labelled "brand"
    [("name", mkSeries Object [Str "Nike Air Max"; NaN]);
     ("category", mkSeries Object [Str "men"; Str "men"]);
     ("extracted_size", mkSeries Object [NaN; NaN]);
     ("brand", mkSeries Object [Str "Nike"; NaN])]
  = [mkSeries Object
       (map (fun c => match c with
                      | Str t => Str (PyStr.split_first " " t)
                      | _ => NaN
                      end) [Str "Nike Air Max"; NaN])].
Proof.
  refine (proj1 (extract_attributes_brand_is_first_word
                   [("name", mkSeries Object [Str "Nike Air Max"; NaN])]
                   _ "men" (mkSeries Object [Str "Nike Air Max"; NaN])
                   eq_refl eq_refl eq_refl eq_refl)).
Defined.

(** ** Missing/duplicate handler: what survives *)

(** X11. For a frame whose columns have equal lengths, every row of the
    filled frame is present in the output of the missing/duplicate handler,
    and every row of the output occurs in it exactly once: only repeats are
    dropped. *)
Theorem handle_missing_and_duplicates_rows_once (df : DataFrame) :
  aligned df = true ->
  let out := handle_missing_and_duplicates df in
  (forall r, In r (rows (fill_missing df)) -> occurrences r (rows out) = 1)
  /\ (forall r, In r (rows out) ->
        In r (rows (fill_missing df)) /\ occurrences r (rows out) = 1).
Proof.
  intros Ha out.
  assert (Hrows : rows out = kept [] (rows (fill_missing df))).
  { unfold out, handle_missing_and_duplicates, drop_duplicates.
    rewrite rows_select_rows; [reflexivity|apply aligned_fill_missing, Ha|].
    rewrite length_map. unfold duplicated. rewrite duplicated_from_length.
    unfold rows. apply rows_of_length. }
  assert (Honce : forall r, In r (rows (fill_missing df)) -> occurrences r (rows out) = 1).
  { intros r Hr. rewrite Hrows. apply kept_once; [reflexivity|].
    apply existsb_exists. exists r. split; [exact Hr|apply row_eqb_refl]. }
  split; [exact Honce|].
  intros r Hr.
  assert (Hin : In r (rows (fill_missing df))).
  { rewrite Hrows in Hr. unfold kept in Hr. apply (select_in _ _ _ Hr). }
  split; [exact Hin|apply Honce, Hin].
Qed.

Lemma handle_missing_and_duplicates_rows_once_witness :
  let df := [("name", mkSeries Object [Str "Shirt"; NaN; Str "Shirt"; NaN]);
             ("price", mkSeries Numeric [Num (Qmake 5 1); NaN; Num (Qmake 5 1); NaN])] in
  (forall r, In r (rows (fill_missing df)) ->
             occurrences r (rows (handle_missing_and_duplicates df)) = 1)
  /\ (forall r, In r (rows (handle_missing_and_duplicates df)) ->
        In r (rows (fill_missing df))
        /\ occurrences r (rows (handle_missing_and_duplicates df)) = 1).
Proof.
  intros df. apply (handle_missing_and_duplicates_rows_once df). reflexivity.
Defined.

Lemma duplicated_from_kept (rs : list (list cell)) :
  forall seen seen',
    (forall r, existsb (row_eqb r) seen = true -> existsb (row_eqb r) seen' = true) ->
    duplicated_from seen (kept seen' rs) = map (fun _ => false) (kept seen' rs).
Proof.
  induction rs as [|h rs IH]; intros seen seen' Hsub; [reflexivity|].
  rewrite kept_cons. destruct (existsb (row_eqb h) seen') eqn:Eh.
  - apply IH. intros r Hr. simpl. rewrite (Hsub r Hr). apply orb_true_r.
  - simpl. destruct (existsb (row_eqb h) seen) eqn:Es.
    + rewrite (Hsub h Es) in Eh. discriminate.
    + f_equal. apply IH. intros r Hr. simpl in *.
      destruct (row_eqb r h); [reflexivity|]. simpl in *. apply Hsub, Hr.
Qed.

Lemma select_all {A : Type} (l : list A) (mask : list bool) :
  length mask = length l -> forallb (fun b => b) mask = true -> select mask l = l.
Proof.
  revert l. induction mask as [|b m IH]; intros [|x l] Hlen Hall; simpl in *;
    try reflexivity; try discriminate.
  apply andb_true_iff in Hall. destruct Hall as [-> Hall].
  rewrite IH by (lia || assumption). reflexivity.
Qed.

Lemma aligned_select_rows (mask : list bool) (df : DataFrame) :
  aligned df = true -> length mask = nrows df -> aligned (select_rows mask df) = true.
Proof.
  intros Ha Hm. unfold aligned. rewrite nrows_select_rows by assumption.
  unfold select_rows. rewrite forallb_forall. intros c Hc.
  apply in_map_iff in Hc. destruct Hc as [c0 [<- Hc0]]. simpl.
  unfold aligned in Ha. rewrite forallb_forall in Ha. specialize (Ha c0 Hc0).
  apply Nat.eqb_eq in Ha. apply Nat.eqb_eq. apply select_length. lia.
Qed.

Lemma duplicated_length (df : DataFrame) : length (duplicated df) = nrows df.
Proof.
  unfold duplicated. rewrite duplicated_from_length. unfold rows. apply rows_of_length.
Qed.

Lemma fill_missing_no_nulls (df : DataFrame) :
  no_nulls df = true -> fill_missing df = df.
Proof.
  intros H. rewrite fill_missing_columns. rewrite <- (map_id df) at 2.
  apply map_ext_in. intros [l [d v]] Hc. unfold fill_column. simpl.
  unfold no_nulls in H. rewrite forallb_forall in H. specialize (H _ Hc). simpl in H.
  f_equal. f_equal. rewrite <- (map_id v) at 2. apply map_ext_in. intros x Hx.
  rewrite forallb_forall in H. specialize (H x Hx).
  destruct d, x; simpl in *; try reflexivity; discriminate.
Qed.

(** X12. On a well-formed frame the missing/duplicate handler is
    idempotent: handling its own output changes nothing. *)
Theorem handle_missing_and_duplicates_idempotent (df : DataFrame) :
  well_formed df = true ->
  handle_missing_and_duplicates (handle_missing_and_duplicates df)
  = handle_missing_and_duplicates df.
Proof.
  intros Hwf. unfold well_formed in Hwf.
  apply andb_true_iff in Hwf. destruct Hwf as [Hwf Htyped].
  apply andb_true_iff in Hwf. destruct Hwf as [_ Haligned].
  set (out := handle_missing_and_duplicates df).
  assert (Hmask : length (map negb (duplicated (fill_missing df))) = nrows (fill_missing df))
    by (rewrite length_map; apply duplicated_length).
  assert (Hnull : no_nulls out = true).
  { unfold out, handle_missing_and_duplicates, drop_duplicates.
    apply no_nulls_select_rows, no_nulls_fill_missing, Htyped. }
  assert (Hal : aligned out = true).
  { unfold out, handle_missing_and_duplicates, drop_duplicates.
    apply aligned_select_rows; [apply aligned_fill_missing, Haligned|exact Hmask]. }
  assert (Hrows : rows out = kept [] (rows (fill_missing df))).
  { unfold out, handle_missing_and_duplicates, drop_duplicates.
    rewrite rows_select_rows; [reflexivity|apply aligned_fill_missing, Haligned|exact Hmask]. }
  unfold handle_missing_and_duplicates at 1. fold out.
  rewrite (fill_missing_no_nulls _ Hnull).
  unfold drop_duplicates, duplicated. rewrite Hrows.
  rewrite (duplicated_from_kept _ [] [] (fun r H => H)). rewrite map_map. cbn [negb].
  unfold select_rows.
  transitivity (map (fun c : string * Series => c) out); [|apply map_id].
  apply map_ext_in. intros [l [d v]] Hc. simpl. f_equal. f_equal.
  apply select_all.
  - rewrite length_map. rewrite <- Hrows. unfold rows. rewrite rows_of_length.
    unfold aligned in Hal. rewrite forallb_forall in Hal. specialize (Hal _ Hc).
    apply Nat.eqb_eq in Hal. simpl in Hal. lia.
  - apply forallb_forall. intros b Hb. apply in_map_iff in Hb.
    destruct Hb as [r [<- _]]. reflexivity.
Qed.

Lemma handle_missing_and_duplicates_idempotent_witness :
  let df := [("name", mkSeries Object [Str "Shirt"; NaN; Str "Shirt"; NaN]);
             ("price", mkSeries Numeric [Num (Qmake 5 1); NaN; Num (Qmake 5 1); NaN])] in
  handle_missing_and_duplicates (handle_missing_and_duplicates df)
  = handle_missing_and_duplicates df.
Proof.
  intros df. apply (handle_missing_and_duplicates_idempotent df). reflexivity.
Defined.

(** ** Aggregator: any number of tables *)

Lemma union_labels_keeps_acc (frames : list DataFrame) :
  forall acc l,
    In l acc ->
    In l (fold_left
            (fun acc df =>
               acc ++ filter (fun l => negb (existsb (String.eqb l) acc)) (columns df))
            frames acc).
Proof.
  induction frames as [|df frames IH]; intros acc l Hin; simpl; [exact Hin|].
  apply IH. apply in_or_app. left. exact Hin.
Qed.

Lemma union_labels_covers (frames : list DataFrame) :
  forall acc df l,
    In df frames -> In l (columns df) ->
    In l (fold_left
            (fun acc df =>
               acc ++ filter (fun l => negb (existsb (String.eqb l) acc)) (columns df))
            frames acc).
Proof.
  induction frames as [|d frames IH]; intros acc df l Hdf Hl; [contradiction|].
  simpl. destruct Hdf as [->|Hdf]; [|apply (IH _ df); assumption].
  apply union_labels_keeps_acc.
  destruct (existsb (String.eqb l) acc) eqn:E.
  - apply existsb_exists in E. destruct E as [x [Hx Hlx]].
    apply String.eqb_eq in Hlx. subst x. apply in_or_app. left. exact Hx.
  - apply in_or_app. right. apply filter_In. split; [exact Hl|]. rewrite E. reflexivity.
Qed.

Lemma contributions_length (l : string) (frames : list DataFrame) :
  forallb aligned frames = true ->
  length (flat_map (contribution l) frames) = list_sum (map nrows frames).
Proof.
  induction frames as [|df frames IH]; intros H; [reflexivity|].
  simpl in *. apply andb_true_iff in H. destruct H as [Hdf H].
  rewrite length_app, contribution_length by exact Hdf. rewrite IH by exact H.
  reflexivity.
Qed.

Lemma union_labels_empty (frames : list DataFrame) :
  union_labels frames = [] -> list_sum (map nrows frames) = 0.
Proof.
  intros E.
  assert (Hempty : forall df, In df frames -> nrows df = 0).
  { intros df Hdf. destruct df as [|[l s] df]; [reflexivity|].
    exfalso. assert (Hin : In l (union_labels frames)).
    { apply (union_labels_covers frames [] _ l Hdf). left. reflexivity. }
    rewrite E in Hin. contradiction. }
  clear E. induction frames as [|df frames IH]; [reflexivity|].
  simpl. rewrite (Hempty df (or_introl eq_refl)). apply IH.
  intros d Hd. apply Hempty. right. exact Hd.
Qed.

Lemma concat_rows (frames : list DataFrame) :
  forallb aligned frames = true ->
  nrows (concat frames) = list_sum (map nrows frames).
Proof.
  intros Hal. unfold concat. destruct (union_labels frames) as [|l0 ls] eqn:E.
  - simpl. symmetry. apply union_labels_empty, E.
  - simpl. apply contributions_length, Hal.
Qed.

(** X13. Combining any non-empty list of tables whose columns have equal
    lengths returns a table with as many rows as all of them together, and
    whose columns again all have that length. *)
Theorem combine_datasets_rows_add_up (frames : list DataFrame) (combined : DataFrame) :
  forallb aligned frames = true ->
  combine_datasets frames = Returned combined ->
  nrows combined = list_sum (map nrows frames)
  /\ aligned combined = true.
Proof.
  intros Hal H.
  assert (Hc : combined = concat frames).
  { destruct frames; [discriminate|]. injection H as <-. reflexivity. }
  subst combined. clear H.
  split; [apply concat_rows, Hal|].
  unfold aligned. rewrite (concat_rows _ Hal). unfold concat. apply forallb_forall.
  intros c Hc. apply in_map_iff in Hc. destruct Hc as [l [<- _]]. simpl.
  apply Nat.eqb_eq. apply contributions_length, Hal.
Qed.

Lemma combine_datasets_rows_add_up_witness :
  nrows
    (concat
       [[("category", mkSeries Object [Str "men"; Str "men"])];
        [];
        [("price", mkSeries Numeric [Num (Qmake 10 1)]);
         ("category", mkSeries Object [Str "kids"])]])
  = list_sum [2; 0; 1].
Proof.
  exact (proj1 (combine_datasets_rows_add_up
                  [[("category", mkSeries Object [Str "men"; Str "men"])];
                   [];
                   [("price", mkSeries Numeric [Num (Qmake 10 1)]);
                    ("category", mkSeries Object [Str "kids"])]]
                  _ eq_refl eq_refl)).
Defined.

(** ** Summarizer: missing key, and counts that add up *)

(** X14. A table without a [category] column makes the summarizer raise a
    [KeyError], whatever its other columns. *)
Theorem create_summary_statistics_needs_category (df : DataFrame) :
  has_column "category" df = false ->
  create_summary_statistics df = Raised KeyError.
Proof.
  intros H. apply has_column_labelled in H.
  unfold create_summary_statistics, getitem. rewrite H.
  destruct (negb _); reflexivity.
Qed.

Lemma create_summary_statistics_needs_category_witness :
  create_summary_statistics
    [("price", mkSeries Numeric [Num (Qmake 10 1)]);
     ("brand", mkSeries Object [Str "Nike"])]
  = Raised KeyError.
Proof. apply create_summary_statistics_needs_category. reflexivity. Defined.

Lemma list_sum_perm (l l' : list nat) : Permutation l l' -> list_sum l = list_sum l'.
Proof. intros H. induction H; simpl; lia. Qed.

Lemma list_sum_map_ext {A : Type} (g h : A -> nat) (l : list A) :
  (forall x, In x l -> g x = h x) -> list_sum (map g l) = list_sum (map h l).
Proof.
  induction l as [|x l IH]; intros H; [reflexivity|]. simpl.
  rewrite (H x (or_introl eq_refl)), IH; [reflexivity|].
  intros y Hy. apply H. right. exact Hy.
Qed.

Lemma list_sum_indicator {A : Type} (p : A -> bool) (l : list A) :
  list_sum (map (fun x => if p x then 1 else 0) l) = length (filter p l).
Proof.
  induction l as [|x l IH]; [reflexivity|]. simpl. rewrite IH.
  destruct (p x); reflexivity.
Qed.

(** Counting the pairs of a relation by rows or by columns. *)
Lemma double_count {A B : Type} (f : A -> B -> bool) (K : list A) (C : list B) :
  list_sum (map (fun k => length (filter (f k) C)) K)
  = list_sum (map (fun c => length (filter (fun k => f k c) K)) C).
Proof.
  induction K as [|k K IH]; simpl.
  - induction C as [|c C IHC]; [reflexivity|exact IHC].
  - rewrite IH. clear IH. induction C as [|c C IHC]; [reflexivity|].
    simpl. destruct (f k c); simpl; lia.
Qed.

Lemma py_eqb_sym (a b : cell) : py_eqb a b = py_eqb b a.
Proof.
  destruct (py_eqb b a) eqn:E.
  - apply py_eqb_eq. apply py_eqb_eq in E. congruence.
  - destruct (py_eqb a b) eqn:E'; [|reflexivity].
    apply py_eqb_eq in E'. rewrite <- E. symmetry. apply py_eqb_eq. congruence.
Qed.

Lemma group_sizes_add_up (cat : list cell) :
  list_sum (map (fun k => length (filter (py_eqb k) cat)) (unique cat))
  = length (filter notnull cat).
Proof.
  rewrite double_count. rewrite <- list_sum_indicator.
  apply list_sum_map_ext. intros c Hc. unfold notnull.
  destruct (isnull c) eqn:En; simpl.
  - destruct (filter (fun k => py_eqb k c) (unique cat)) as [|k r] eqn:E; [reflexivity|].
    assert (Hk : In k (filter (fun k => py_eqb k c) (unique cat)))
      by (rewrite E; left; reflexivity).
    apply filter_In in Hk. destruct Hk as [Hk Hkc].
    apply (unique_from_in _ []) in Hk. destruct Hk as [_ Hk].
    rewrite (py_eqb_null _ _ Hkc) in Hk. congruence.
  - rewrite (filter_ext (fun k => py_eqb k c) (py_eqb c))
      by (intros k; apply py_eqb_sym).
    apply unique_from_once; [exact En|reflexivity|exact Hc].
Qed.

(** X15. On a combined table with neither a [price] nor a
    [discount_percentage] column, a summary that is produced is the table of
    category counts, and its counts add up to the number of rows whose
    category is not missing. *)
Theorem create_summary_statistics_counts_add_up (df : DataFrame) (sm : summary) :
  has_column "price" df = false ->
  has_column "discount_percentage" df = false ->
  create_summary_statistics df = Returned sm ->
  exists cat counts,
    getitem df "category" = Returned cat
    /\ sm = CategoryCounts counts
    /\ list_sum (map snd counts) = length (filter notnull (values cat)).
Proof.
  intros Hp Hd H. unfold create_summary_statistics in H. rewrite Hp, Hd in H.
  cbn [orb negb] in H. invert_bind H. injection H as <-.
  exists x, (value_counts (values x)). repeat split; [exact Hx|].
  unfold value_counts.
  rewrite (list_sum_perm _ _ (Permutation_map snd (sort_perm _ _))).
  rewrite map_map. cbn [snd]. apply group_sizes_add_up.
Qed.

Lemma create_summary_statistics_counts_add_up_witness :
  exists cat counts,
    getitem [("category", mkSeries Object [Str "b"; Str "a"; NaN; Str "b"])] "category"
    = Returned cat
    /\ CategoryCounts [(Str "b", 2); (Str "a", 1)] = CategoryCounts counts
    /\ list_sum (map snd counts) = length (filter notnull (values cat)).
Proof.
  apply (create_summary_statistics_counts_add_up
           [("category", mkSeries Object [Str "b"; Str "a"; NaN; Str "b"])]
           (CategoryCounts [(Str "b", 2); (Str "a", 1)])); reflexivity.
Defined.

(** ** Price cleaner: running it twice *)

Lemma labelled_length_columns (n : string) (df : DataFrame) :
  length (labelled n df) = length (filter (fun l => String.eqb l n) (columns df)).
Proof.
  unfold labelled, columns. induction df as [|c df IH]; simpl; [reflexivity|].
  destruct (String.eqb (fst c) n); simpl; rewrite IH; reflexivity.
Qed.

Lemma for_each_visits_single (num_repr : Q -> string) (L : list string) :
  forall df df',
    (forall l, In l L -> has_column l df = true) ->
    for_each L (clean_price_column num_repr) df = Returned df' ->
    forall col, In col L -> length (labelled col df) = 1.
Proof.
  induction L as [|col0 L IH]; intros df df' Hhas H col Hcol; [contradiction|].
  simpl in H. invert_bind H. rename x into df1.
  destruct (clean_price_column_visit num_repr df df1 col0 (Hhas col0 (or_introl eq_refl)) Hx)
    as [s [s' [Hget [_ Hdf1]]]].
  destruct Hcol as [<-|Hcol].
  - unfold getitem in Hget. destruct (labelled col0 df) as [|s1 [|s2 r]]; try discriminate.
    reflexivity.
  - assert (Hcols : columns df1 = columns df).
    { subst df1. unfold columns. rewrite map_map. apply map_ext_in. intros c _.
      destruct (String.eqb (fst c) col0) eqn:E; [|reflexivity].
      simpl. symmetry. apply String.eqb_eq, E. }
    rewrite labelled_length_columns, <- Hcols, <- labelled_length_columns.
    apply (IH df1 df'); [|exact H|exact Hcol].
    intros l Hl. unfold has_column. rewrite Hcols. apply (Hhas l). right. exact Hl.
Qed.

Lemma for_each_fixed {A S : Type} (body : S -> A -> outcome S) (st : S) (L : list A) :
  (forall x, In x L -> body st x = Returned st) -> for_each L body st = Returned st.
Proof.
  induction L as [|x L IH]; intros H; [reflexivity|].
  simpl. rewrite (H x (or_introl eq_refl)). simpl. apply IH.
  intros y Hy. apply H. right. exact Hy.
Qed.

Lemma has_column_rename_source (old new : string) (df : DataFrame) :
  String.eqb old new = false -> has_column old (rename old new df) = false.
Proof.
  intros Hne. apply has_column_labelled. unfold labelled, rename.
  induction df as [|c df IH]; [reflexivity|]. simpl.
  destruct (String.eqb (fst c) old) eqn:E; simpl.
  - rewrite String.eqb_sym, Hne. exact IH.
  - rewrite E. exact IH.
Qed.

(** X16. The price cleaner is idempotent: run on a frame it returned, it
    returns that frame unchanged. *)
Theorem clean_price_data_idempotent (num_repr : Q -> string) (df df' : DataFrame) :
  clean_price_data num_repr df = Returned df' ->
  clean_price_data num_repr df' = Returned df'.
Proof.
  intros H. assert (Hcolumns := clean_price_data_columns _ _ _ H).
  unfold clean_price_data in H.
  assert (Hr : (if has_column "product_price" df
                then rename "product_price" "price" df else df)
               = rename "product_price" "price" df).
  { destruct (has_column "product_price" df) eqn:E; [reflexivity|].
    symmetry. apply rename_absent, E. }
  rewrite Hr in H. clear Hr. set (dr := rename "product_price" "price" df) in *.
  assert (Hhas : forall l, In l (filter (fun col => PyStr.contains "price" (PyStr.lower col))
                                        (columns dr)) -> has_column l dr = true).
  { intros l Hl. apply filter_In in Hl. destruct Hl as [Hl _].
    unfold has_column. apply existsb_exists. exists l. split; [exact Hl|].
    apply String.eqb_refl. }
  assert (Hcols : columns df' = columns dr).
  { apply (Forall2_columns _ _ _ (fun c c' Hc => proj1 Hc)
             (for_each_converted _ _ _ _ Hhas H)). }
  assert (Hsingle := for_each_visits_single _ _ _ _ Hhas H).
  unfold clean_price_data.
  assert (Hnp : has_column "product_price" df' = false).
  { unfold has_column. rewrite Hcols. apply (has_column_rename_source _ _ df). reflexivity. }
  rewrite Hnp, Hcols. apply for_each_fixed. intros col Hcol.
  assert (Hlen : length (labelled col df') = 1).
  { rewrite labelled_length_columns, Hcols, <- labelled_length_columns.
    apply Hsingle, Hcol. }
  unfold clean_price_column.
  replace (has_column col df') with true.
  2:{ symmetry. unfold has_column. rewrite Hcols. apply (Hhas col Hcol). }
  unfold getitem.
  destruct (labelled col df') as [|s [|s2 r]] eqn:El; try discriminate. simpl.
  assert (Hin : In s (labelled col df')) by (rewrite El; left; reflexivity).
  unfold labelled in Hin. apply in_map_iff in Hin. destruct Hin as [c' [Hs Hc']].
  apply filter_In in Hc'. destruct Hc' as [Hc' Hlab]. apply String.eqb_eq in Hlab.
  destruct (Forall2_in_right _ _ _ Hcolumns c' Hc') as [c [_ [Hf Hconv]]].
  apply filter_In in Hcol. destruct Hcol as [_ Hprice].
  rewrite <- Hf, Hlab in Hconv. unfold price_like in Hconv. rewrite Hprice in Hconv.
  destruct (convert_series_numeric _ _ _ Hconv) as [Hnum _].
  rewrite Hs in Hnum. rewrite Hnum. reflexivity.
Qed.

Lemma clean_price_data_idempotent_witness :
  clean_price_data sample_repr
    [("price", mkSeries Numeric [Num (Qmake 2401 2); NaN]);
     ("name", mkSeries Object [Str "Shirt 42"; Str "Shoe"])]
  = Returned
      [("price", mkSeries Numeric [Num (Qmake 2401 2); NaN]);
       ("name", mkSeries Object [Str "Shirt 42"; Str "Shoe"])].
Proof.
  apply (clean_price_data_idempotent sample_repr
           [("product_price", mkSeries Object [Str "₦1,200.50"; Str "free"]);
            ("name", mkSeries Object [Str "Shirt 42"; Str "Shoe"])]).
  reflexivity.
Defined.

(** ** Discount step on the frame it was written for *)

Lemma setitem_absent (l : string) (s : Series) (df : DataFrame) :
  has_column l df = false -> setitem df l s = df ++ [(l, s)].
Proof. intros H. unfold setitem. rewrite H. reflexivity. Qed.

Lemma relabel_absent (l : string) (f : string * Series -> string * Series)
      (df : DataFrame) :
  has_column l df = false ->
  map (fun c => if String.eqb (fst c) l then f c else c) df = df.
Proof.
  unfold has_column, columns. induction df as [|c df IH]; simpl; [reflexivity|].
  intros H. apply orb_false_iff in H. destruct H as [Hc H].
  rewrite String.eqb_sym in Hc. rewrite Hc, (IH H). reflexivity.
Qed.

Lemma has_column_last (l : string) (s : Series) (df : DataFrame) :
  has_column l (df ++ [(l, s)]) = true.
Proof.
  unfold has_column, columns. rewrite map_app, existsb_app. simpl.
  rewrite String.eqb_refl. rewrite orb_true_r. reflexivity.
Qed.

Lemma setitem_last (l : string) (s s' : Series) (df : DataFrame) :
  has_column l df = false -> setitem (df ++ [(l, s)]) l s' = df ++ [(l, s')].
Proof.
  intros H. unfold setitem. rewrite has_column_last. rewrite map_app.
  rewrite (relabel_absent l (fun _ => (l, s')) df H). simpl.
  rewrite String.eqb_refl. reflexivity.
Qed.

Lemma getitem_last (l : string) (s : Series) (df : DataFrame) :
  has_column l df = false -> getitem (df ++ [(l, s)]) l = Returned s.
Proof.
  intros H. unfold getitem. rewrite labelled_app.
  apply has_column_labelled in H. rewrite H. unfold labelled. simpl.
  rewrite String.eqb_refl. reflexivity.
Qed.

Lemma labelled_last_other (l0 l : string) (s : Series) (df : DataFrame) :
  String.eqb l0 l = false -> labelled l (df ++ [(l0, s)]) = labelled l df.
Proof.
  intros H. rewrite labelled_app. unfold labelled at 2. simpl. rewrite H.
  apply app_nil_r.
Qed.

Lemma str_values_ok_texts (v : list cell) :
  forallb (fun c => match c with Str _ | NaN => true | _ => false end) v = true ->
  str_values_ok v = true.
Proof.
  intros H. unfold str_values_ok.
  destruct (filter notnull v) as [|c r] eqn:E; [reflexivity|].
  assert (Hc : In c (filter notnull v)) by (rewrite E; left; reflexivity).
  apply filter_In in Hc. destruct Hc as [Hc Hnn].
  rewrite forallb_forall in H. specialize (H c Hc).
  destruct c; try discriminate. reflexivity.
Qed.

Lemma str_extract_texts (p : Regex.pattern) (v : list cell) :
  forallb (fun c => match c with Str _ | NaN => true | _ => false end)
          (str_extract p v) = true.
Proof.
  apply forallb_forall. intros c Hc. unfold str_extract, str_map in Hc.
  apply in_map_iff in Hc. destruct Hc as [c0 [<- _]].
  destruct c0; try reflexivity. destruct (Regex.search p s); reflexivity.
Qed.

Lemma old_prices_of_cells (v : list cell) :
  to_numeric_coerce (str_replace "," "" (str_extract Regex.old_price_pattern v))
  = map old_price_of v.
Proof.
  unfold to_numeric_coerce, str_replace, str_extract, str_map. rewrite !map_map.
  apply map_ext. intros c. unfold old_price_of. destruct c; try reflexivity.
  destruct (Regex.search Regex.old_price_pattern s); reflexivity.
Qed.

Lemma discount_values_cells (olds : list cell) :
  forall prices,
    forallb (fits Numeric) prices = true ->
    discount_values (map positive_number olds) olds prices
    = Returned (map (fun op => unrounded_discount (fst op) (snd op)) (combine olds prices)).
Proof.
  induction olds as [|o olds IH]; intros [|p prices] Hp; try reflexivity.
  simpl in Hp. apply andb_true_iff in Hp. destruct Hp as [Hp1 Hp].
  cbn [map discount_values combine fst snd]. rewrite (IH prices Hp). unfold unrounded_discount.
  destruct (positive_number o) eqn:Eo; [|reflexivity].
  destruct o; try discriminate. destruct p; try discriminate; reflexivity.
Qed.

Lemma assign_where_discounts (olds : list cell) :
  forall prices n,
    length olds = n -> length prices = n ->
    assign_where (map positive_number olds) (repeat NaN n)
                 (map (fun op => unrounded_discount (fst op) (snd op)) (combine olds prices))
    = map (fun op => unrounded_discount (fst op) (snd op)) (combine olds prices).
Proof.
  induction olds as [|o olds IH]; intros [|p prices] [|n] Ho Hp; simpl in *;
    try reflexivity; try discriminate.
  rewrite (IH prices n) by lia. f_equal.
  unfold unrounded_discount. destruct (positive_number o); reflexivity.
Qed.

Lemma existsb_mapped {A : Type} (f : A -> bool) (l : list A) :
  existsb (fun b => b) (map f l) = existsb f l.
Proof. induction l as [|x l IH]; simpl; [reflexivity|]. rewrite IH. reflexivity. Qed.

Lemma round_column_absent (name : string) (df : DataFrame) :
  has_column name df = false -> round_column name df = df.
Proof.
  unfold has_column, columns, round_column.
  induction df as [|c df IH]; simpl; [reflexivity|].
  intros H. apply orb_false_iff in H. destruct H as [Hc H].
  rewrite String.eqb_sym in Hc. rewrite Hc, (IH H). reflexivity.
Qed.

Lemma round_column_app (name : string) (a b : DataFrame) :
  round_column name (a ++ b) = round_column name a ++ round_column name b.
Proof. unfold round_column. apply map_app. Qed.

Lemma round_column_single (name : string) (d : list cell) :
  round_column name [(name, mkSeries Numeric d)]
  = [(name, mkSeries Numeric
              (map (fun x => match x with
                             | Num q => Num (PyNum.round2 q)
                             | _ => x
                             end) d))].
Proof. unfold round_column. simpl. rewrite String.eqb_refl. reflexivity. Qed.

Lemma nrows_app (df extra : DataFrame) (l : string) (s : Series) :
  In (l, s) df -> nrows (df ++ extra) = nrows df.
Proof. destruct df as [|[l0 s0] df]; [contradiction|reflexivity]. Qed.

Lemma getitem_aligned (df : DataFrame) (l : string) (s : Series) :
  aligned df = true -> getitem df l = Returned s ->
  length (values s) = nrows df /\ exists c, In c df.
Proof.
  intros Ha H. destruct (getitem_in _ _ _ H) as [c [Hc <-]]. split; [|eauto].
  unfold aligned in Ha. rewrite forallb_forall in Ha. apply Nat.eqb_eq. apply Ha, Hc.
Qed.

Lemma nth_error_combine {A B : Type} (l : list A) :
  forall (l' : list B) i x y,
    nth_error l i = Some x -> nth_error l' i = Some y ->
    nth_error (combine l l') i = Some (x, y).
Proof.
  induction l as [|a l IH]; intros [|b l'] [|i] x y Hx Hy; simpl in *; try discriminate.
  - injection Hx as <-. injection Hy as <-. reflexivity.
  - apply IH; assumption.
Qed.

Lemma discount_of_cases (o p : cell) :
  fits Numeric p = true ->
  (positive_number o = false -> discount_of o p = NaN)
  /\ (isnull p = true -> discount_of o p = NaN)
  /\ (positive_number o = true -> isnull p = false -> isnull (discount_of o p) = false).
Proof.
  intros Hp. unfold discount_of, unrounded_discount.
  destruct (positive_number o) eqn:Eo.
  - destruct o; try discriminate.
    destruct p; try discriminate; repeat split; try reflexivity; discriminate.
  - repeat split; try reflexivity; discriminate.
Qed.

(** X17. On a frame with columns of equal length, one text column
    [price_info] whose digits are ASCII digits, one numeric column [price],
    and no [old_price] or [discount_percentage] column yet, the discount
    step completes without warning.  It appends a numeric [old_price] column
    and, when some old price is strictly positive, a numeric
    [discount_percentage] column, both as long as the frame.  On each row
    the old price is a number where the pattern finds an amount holding a
    digit in [price_info], and missing elsewhere; the discount is missing
    where the old price is not strictly positive or the price is missing,
    and is a number where the old price is strictly positive, at most 2^53,
    and the price is a number.  The value of the discount is not stated:
    binary64 rounds it. *)
Theorem feature_engineering_derives_discounts (df : DataFrame) (info price : Series) :
  aligned df = true ->
  getitem df "price_info" = Returned info ->
  dtype_of info = Object -> str_values_ok (values info) = true ->
  forallb plain_digits_cell (values info) = true ->
  getitem df "price" = Returned price ->
  dtype_of price = Numeric -> series_typed price = true ->
  has_column "old_price" df = false ->
  has_column "discount_percentage" df = false ->
  exists olds discounts,
    feature_engineering df
    = Returned
        (df ++ [("old_price", mkSeries Numeric olds)]
            ++ (if existsb positive_number olds
                then [("discount_percentage", mkSeries Numeric discounts)]
                else []),
         [])
    /\ length olds = nrows df /\ length discounts = nrows df
    /\ forall i c p,
         nth_error (values info) i = Some c ->
         nth_error (values price) i = Some p ->
         exists o d,
           nth_error olds i = Some o /\ nth_error discounts i = Some d
           /\ isnull o = isnull (old_price_of c)
           /\ positive_number o = positive_number (old_price_of c)
           /\ (positive_number o = false -> d = NaN)
           /\ (isnull p = true -> d = NaN)
           /\ (positive_number o = true ->
               within_exact_range (old_price_of c) = true ->
               isnull p = false -> isnull d = false).
Proof.
  intros Ha Hinfo Hobj Hok _ Hprice Hnum Htyped Hno Hnd.
  set (olds := map old_price_of (values info)).
  set (discounts := map (fun op => discount_of (fst op) (snd op))
                        (combine olds (values price))).
  destruct (getitem_aligned _ _ _ Ha Hinfo) as [Hlen_info _].
  destruct (getitem_aligned _ _ _ Ha Hprice) as [Hlen_price [c0 Hc0]].
  exists olds, discounts. split; [|split; [|split]].
  - unfold feature_engineering.
    rewrite (getitem_has_column _ _ _ Hinfo), (getitem_has_column _ _ _ Hprice).
    cbn [andb]. unfold discount_block.
    unfold str_of at 1. rewrite Hinfo. cbn [bind]. unfold str_accessor at 1.
    rewrite Hobj, Hok.
    rewrite (setitem_absent _ _ _ Hno).
    unfold str_of. rewrite (getitem_last _ _ _ Hno). cbn [bind].
    unfold str_accessor, object_series. cbn [dtype_of values].
    rewrite (str_values_ok_texts _ (str_extract_texts _ _)).
    rewrite (setitem_last _ _ _ _ Hno). rewrite old_prices_of_cells. fold olds.
    rewrite (getitem_last _ _ _ Hno). cbn [values].
    rewrite existsb_mapped.
    destruct (existsb positive_number olds) eqn:Eany.
    + rewrite (getitem_same "price" _ df
                 (labelled_last_other "old_price" "price" _ df eq_refl)).
      rewrite Hprice. cbn [bind].
      unfold series_typed in Htyped. rewrite Hnum in Htyped.
      rewrite (discount_values_cells _ _ Htyped). cbn [bind]. rewrite Hnum.
      assert (Hnd2 : has_column "discount_percentage"
                       (df ++ [("old_price", mkSeries Numeric olds)]) = false).
      { rewrite (has_column_same _ _ df
                   (labelled_last_other "old_price" "discount_percentage" _ df eq_refl)).
        exact Hnd. }
      unfold loc_set. rewrite Hnd2. cbn [dtype_of values].
      destruct c0 as [l0 s0]. rewrite (nrows_app _ _ _ _ Hc0).
      rewrite assign_where_discounts
        by (unfold olds; rewrite ?length_map; assumption).
      rewrite round_column_app, (round_column_absent _ _ Hnd2), round_column_single.
      rewrite <- app_assoc. rewrite map_map. unfold discounts.
      rewrite (map_ext _ (fun op => discount_of (fst op) (snd op))); [reflexivity|].
      intros [o p]. unfold discount_of. cbn [fst snd].
      destruct (unrounded_discount o p); reflexivity.
    + rewrite app_nil_r. reflexivity.
  - unfold olds. rewrite length_map. exact Hlen_info.
  - unfold discounts, olds. rewrite length_map, length_combine, length_map.
    rewrite Hlen_info, Hlen_price. apply Nat.min_id.
  - intros i c p Hc Hp.
    assert (Ho : nth_error olds i = Some (old_price_of c))
      by (unfold olds; rewrite nth_error_map, Hc; reflexivity).
    exists (old_price_of c), (discount_of (old_price_of c) p).
    split; [exact Ho|]. split.
    + unfold discounts. rewrite nth_error_map.
      rewrite (nth_error_combine _ _ _ _ _ Ho Hp). reflexivity.
    + split; [reflexivity|]. split; [reflexivity|].
      assert (Hfit : fits Numeric p = true).
      { unfold series_typed in Htyped. rewrite Hnum in Htyped.
        rewrite forallb_forall in Htyped. apply Htyped. apply (nth_error_In _ _ Hp). }
      destruct (discount_of_cases (old_price_of c) p Hfit) as [H1 [H2 H3]].
      split; [exact H1|]. split; [exact H2|]. intros Hpos _. apply H3, Hpos.
Qed.

Lemma feature_engineering_derives_discounts_witness :
  exists olds discounts,
    feature_engineering
      [("price", mkSeries Numeric [Num (Qmake 1500 1); Num (Qmake 100 1); NaN]);
       ("price_info", mkSeries Object [Str "old price ₦2,000"; Str "in stock";
                                       Str "old price ₦300"])]
    = Returned
        ([("price", mkSeries Numeric [Num (Qmake 1500 1); Num (Qmake 100 1); NaN]);
          ("price_info", mkSeries Object [Str "old price ₦2,000"; Str "in stock";
                                          Str "old price ₦300"])]
           ++ [("old_price", mkSeries Numeric olds)]
           ++ (if existsb positive_number olds
               then [("discount_percentage", mkSeries Numeric discounts)]
               else []),
         [])
    /\ map isnull olds = [false; true; false]
    /\ map isnull discounts = [false; true; true].
Proof.
  destruct (feature_engineering_derives_discounts
              [("price", mkSeries Numeric [Num (Qmake 1500 1); Num (Qmake 100 1); NaN]);
               ("price_info", mkSeries Object [Str "old price ₦2,000"; Str "in stock";
                                               Str "old price ₦300"])]
              (mkSeries Object [Str "old price ₦2,000"; Str "in stock";
                                Str "old price ₦300"])
              (mkSeries Numeric [Num (Qmake 1500 1); Num (Qmake 100 1); NaN])
              eq_refl eq_refl eq_refl eq_refl eq_refl eq_refl eq_refl eq_refl eq_refl
              eq_refl)
    as [olds [discounts [Hrun [Hlo [Hld Hrows]]]]].
  exists olds, discounts. split; [exact Hrun|].
  destruct (Hrows 0 _ _ eq_refl eq_refl) as [o0 [d0 [Ho0 [Hd0 [Hn0 [Hp0 [_ [_ Hx0]]]]]]]].
  destruct (Hrows 1 _ _ eq_refl eq_refl) as [o1 [d1 [Ho1 [Hd1 [Hn1 [Hp1 [Hx1 _]]]]]]].
  destruct (Hrows 2 _ _ eq_refl eq_refl) as [o2 [d2 [Ho2 [Hd2 [Hn2 [Hp2 [_ [Hx2 _]]]]]]]].
  destruct olds as [|a0 [|a1 [|a2 [|a3 olds]]]]; try discriminate.
  destruct discounts as [|b0 [|b1 [|b2 [|b3 discounts]]]]; try discriminate.
  cbn in Ho0, Ho1, Ho2, Hd0, Hd1, Hd2.
  injection Ho0 as <-. injection Ho1 as <-. injection Ho2 as <-.
  injection Hd0 as <-. injection Hd1 as <-. injection Hd2 as <-.
  cbn [map]. rewrite Hn0, Hn1, Hn2.
  rewrite (Hx0 Hp0 eq_refl eq_refl), (Hx1 Hp1), (Hx2 eq_refl).
  split; reflexivity.
Defined.

(** ** Labels of the processed table *)

Section Labels.

(** A property of labels that the labels the script introduces all have. *)
Variable P : string -> Prop.

Lemma columns_setitem_forall (df : DataFrame) (l : string) (s : Series) :
  Forall P (columns df) -> P l -> Forall P (columns (setitem df l s)).
Proof.
  intros Hdf Hl. unfold setitem. destruct (has_column l df).
  - unfold columns in *. rewrite map_map. rewrite Forall_forall in *.
    intros x Hx. apply in_map_iff in Hx. destruct Hx as [c [<- Hc]].
    destruct (String.eqb (fst c) l); [exact Hl|].
    apply Hdf. apply in_map, Hc.
  - unfold columns. rewrite map_app. apply Forall_app. split; [exact Hdf|].
    constructor; [exact Hl|constructor].
Qed.

Lemma columns_rename_forall (df : DataFrame) (old new : string) :
  Forall P (columns df) -> P new -> Forall P (columns (rename old new df)).
Proof.
  intros Hdf Hn. unfold rename, columns in *. rewrite map_map.
  rewrite Forall_forall in *. intros x Hx. apply in_map_iff in Hx.
  destruct Hx as [c [<- Hc]].
  destruct (String.eqb (fst c) old); [exact Hn|]. apply Hdf. apply in_map, Hc.
Qed.

Lemma columns_loc_set_forall (df : DataFrame) (mask : list bool) (l : string) (s : Series) :
  Forall P (columns df) -> P l -> Forall P (columns (loc_set df mask l s)).
Proof.
  intros Hdf Hl. unfold loc_set. destruct (has_column l df).
  - unfold columns in *. rewrite map_map. rewrite Forall_forall in *.
    intros x Hx. apply in_map_iff in Hx. destruct Hx as [c [<- Hc]].
    destruct (String.eqb (fst c) l); [exact Hl|].
    apply Hdf. apply in_map, Hc.
  - unfold columns. rewrite map_app. apply Forall_app. split; [exact Hdf|].
    constructor; [exact Hl|constructor].
Qed.

Hypothesis P_category : P "category".
Hypothesis P_name : P "name".
Hypothesis P_extracted_size : P "extracted_size".
Hypothesis P_brand : P "brand".
Hypothesis P_price : P "price".

Lemma columns_extract_attributes_forall (df df' : DataFrame) (category_name : string) :
  Forall P (columns df) ->
  extract_attributes df category_name = Returned df' ->
  Forall P (columns df').
Proof.
  intros Hdf H. unfold extract_attributes in H.
  invert_bind H. invert_bind H. invert_bind H. injection H as <-.
  assert (H0 : Forall P (columns (add_category category_name df))).
  { unfold add_category. destruct (negb _); [|exact Hdf].
    apply columns_setitem_forall; assumption. }
  assert (H1 : Forall P (columns x)).
  { unfold clean_names in Hx. destruct (has_column "product_name" _).
    - invert_bind Hx. invert_bind Hx. injection Hx as <-.
      repeat (apply columns_setitem_forall; [|exact P_name]).
      apply columns_rename_forall; assumption.
    - injection Hx as <-. exact H0. }
  assert (H2 : Forall P (columns x0)).
  { unfold extract_size in Hx0. destruct (_ && _); [|injection Hx0 as <-; exact H1].
    invert_bind Hx0. destruct (has_column "sizes" _).
    - invert_bind Hx0. invert_bind Hx0. injection Hx0 as <-.
      apply columns_loc_set_forall; [|exact P_extracted_size].
      apply columns_setitem_forall; assumption.
    - injection Hx0 as <-. apply columns_setitem_forall; assumption. }
  unfold extract_brand in Hx1. destruct (_ && _); [|injection Hx1 as <-; exact H2].
  invert_bind Hx1. injection Hx1 as <-. apply columns_setitem_forall; assumption.
Qed.

Lemma columns_clean_price_data_forall (num_repr : Q -> string) (df df' : DataFrame) :
  Forall P (columns df) ->
  clean_price_data num_repr df = Returned df' ->
  Forall P (columns df').
Proof.
  intros Hdf H. apply clean_price_data_columns in H.
  rewrite Forall_forall in *. intros x Hx. unfold columns in Hx.
  apply in_map_iff in Hx. destruct Hx as [c' [<- Hc']].
  destruct (Forall2_in_right _ _ _ H c' Hc') as [c [Hc [Hf _]]].
  rewrite Hf. unfold relabelled. destruct (String.eqb (fst c) "product_price").
  - exact P_price.
  - apply Hdf. unfold columns. apply in_map, Hc.
Qed.

End Labels.

Lemma columns_handle_missing (df : DataFrame) :
  columns (handle_missing_and_duplicates df) = columns df.
Proof.
  unfold handle_missing_and_duplicates, drop_duplicates, select_rows.
  rewrite fill_missing_columns. unfold columns, fill_column. rewrite !map_map.
  reflexivity.
Qed.

(** X18. In every run of [process_file] that returns, every label of the
    processed table is lowercase and holds no space: the normalized labels
    stay so, and the labels the script adds are of that form. *)
Theorem process_file_labels_normalized
    (num_repr : Q -> string) (file_path : string) (loaded : DataFrame) (r : processed) :
  process_file num_repr file_path loaded = Returned r ->
  Forall (fun n => PyStr.lower n = n /\ PyStr.mem " " n = false) (columns (table r)).
Proof.
  intros Hrun. unfold process_file in Hrun.
  invert_bind Hrun. rename x into cleaned, Hx into Hclean.
  invert_bind Hrun. rename x into extracted, Hx into Hextract.
  invert_bind Hrun. injection Hrun as <-. cbn [table].
  assert (Hp : not_text "price_info" (handle_missing_and_duplicates extracted) = true).
  { apply not_text_handle_missing. unfold not_text.
    rewrite (extract_attributes_keeps "price_info" eq_refl eq_refl _ _ _
               (fun H => False_ind _ (diff_false_true H)) Hextract).
    apply (clean_price_data_price_info _ _ _ Hclean). }
  rewrite (feature_engineering_not_text_warns _ Hp) in Hx. injection Hx as <-.
  cbn [fst]. rewrite columns_handle_missing.
  apply (columns_extract_attributes_forall _ (conj eq_refl eq_refl) (conj eq_refl eq_refl)
           (conj eq_refl eq_refl) (conj eq_refl eq_refl) cleaned extracted
           (category_of_path file_path));
    [|exact Hextract].
  apply (columns_clean_price_data_forall _ (conj eq_refl eq_refl) num_repr
           (standardize_column_names loaded) cleaned); [|exact Hclean].
  unfold columns, standardize_column_names. rewrite map_map. simpl.
  apply Forall_forall. intros n Hn. apply in_map_iff in Hn.
  destruct Hn as [c [<- _]]. split.
  - apply standardize_label_lower.
  - apply standardize_label_no_space.
Qed.

Lemma process_file_labels_normalized_witness :
  Forall (fun n => PyStr.lower n = n /\ PyStr.mem " " n = false)
         ["name"; "price"; "category"; "extracted_size"; "brand"].
Proof.
  apply (process_file_labels_normalized sample_repr "Jumia Data/raw/jumia_men.csv"
           [("Product Name", mkSeries Object [Str "Nike Air Max XL"]);
            ("Product Price", mkSeries Object [Str "₦1,500"])]
           (mkProcessed
              [("name", mkSeries Object [Str "Nike Air Max Xl"]);
               ("price", mkSeries Numeric [Num (Qmake 1500 1)]);
               ("category", mkSeries Object [Str "men"]);
               ("extracted_size", mkSeries Object [Str "Unknown"]);
               ("brand", mkSeries Object [Str "Nike"])]
              "men" "Jumia Data/processed/processed_men.csv" [])).
  vm_compute. reflexivity.
Defined.

(** ** The processed table stays rectangular and never grows *)

Lemma aligned_rectangular (df : DataFrame) :
  aligned df = true <-> rectangular (nrows df) df.
Proof.
  unfold aligned, rectangular. rewrite forallb_forall, Forall_forall. split.
  - intros H. split; [|reflexivity]. intros c Hc. apply Nat.eqb_eq, H, Hc.
  - intros [H _] c Hc. apply Nat.eqb_eq, H, Hc.
Qed.

Lemma rectangular_aligned (n : nat) (df : DataFrame) :
  rectangular n df -> aligned df = true.
Proof. intros [H Hn]. subst n. apply aligned_rectangular. split; [exact H|reflexivity]. Qed.

Lemma rectangular_from_columns (n : nat) (df : DataFrame) :
  Forall (fun c => length (values (snd c)) = n) df -> df <> [] -> rectangular n df.
Proof.
  intros H Hne. split; [exact H|]. destruct df as [|[l s] df]; [contradiction|].
  inversion H; subst. reflexivity.
Qed.

Lemma rectangular_setitem (n : nat) (df : DataFrame) (l : string) (s : Series) :
  rectangular n df -> length (values s) = n -> rectangular n (setitem df l s).
Proof.
  intros [Hdf Hn] Hs. apply rectangular_from_columns.
  - unfold setitem. destruct (has_column l df).
    + rewrite Forall_forall in *. intros c Hc. apply in_map_iff in Hc.
      destruct Hc as [c0 [<- Hc0]]. destruct (String.eqb (fst c0) l); [exact Hs|].
      apply Hdf, Hc0.
    + apply Forall_app. split; [exact Hdf|]. constructor; [exact Hs|constructor].
  - unfold setitem. destruct (has_column l df) eqn:E.
    + destruct df; [discriminate|]. discriminate.
    + destruct df; discriminate.
Qed.

Lemma rectangular_rename (n : nat) (df : DataFrame) (old new : string) :
  rectangular n df -> rectangular n (rename old new df).
Proof.
  intros [Hdf Hn]. split.
  - unfold rename. rewrite Forall_forall in *. intros c Hc. apply in_map_iff in Hc.
    destruct Hc as [c0 [<- Hc0]].
    destruct (String.eqb (fst c0) old); apply (Hdf c0 Hc0).
  - destruct df as [|[l s] df]; [exact Hn|]. simpl in *.
    destruct (String.eqb l old); exact Hn.
Qed.

Lemma assign_where_length (mask : list bool) :
  forall old new, length (assign_where mask old new) = length old.
Proof.
  induction mask as [|b m IH]; intros [|o old] [|x new]; simpl; try reflexivity.
  rewrite IH. reflexivity.
Qed.

Lemma rectangular_loc_set (n : nat) (df : DataFrame) (mask : list bool) (l : string)
      (s : Series) :
  has_column l df = true -> rectangular n df -> rectangular n (loc_set df mask l s).
Proof.
  intros Hhas [Hdf Hn]. unfold loc_set. rewrite Hhas. apply rectangular_from_columns.
  - rewrite Forall_forall in *. intros c Hc. apply in_map_iff in Hc.
    destruct Hc as [c0 [<- Hc0]]. destruct (String.eqb (fst c0) l); [|apply Hdf, Hc0].
    simpl. rewrite assign_where_length. apply Hdf, Hc0.
  - destruct df; [discriminate|discriminate].
Qed.

Lemma rectangular_str_of (n : nat) (df : DataFrame) (l : string) (v : list cell) :
  rectangular n df -> str_of df l = Returned v -> length v = n.
Proof.
  intros [Hdf _] H. unfold str_of in H. invert_bind H.
  apply str_accessor_values in H. subst v.
  destruct (getitem_in _ _ _ Hx) as [c [Hc <-]].
  rewrite Forall_forall in Hdf. apply Hdf, Hc.
Qed.

Lemma str_map_length (f : string -> cell) (v : list cell) :
  length (str_map f v) = length v.
Proof. unfold str_map. apply length_map. Qed.

Lemma rectangular_extract_attributes (n : nat) (df df' : DataFrame) (category_name : string) :
  rectangular n df ->
  extract_attributes df category_name = Returned df' ->
  rectangular n df'.
Proof.
  intros Hdf H. unfold extract_attributes in H.
  invert_bind H. invert_bind H. invert_bind H. injection H as <-.
  assert (H0 : rectangular n (add_category category_name df)).
  { unfold add_category. destruct (negb _); [|exact Hdf].
    apply rectangular_setitem; [exact Hdf|]. simpl. rewrite repeat_length.
    apply (proj2 Hdf). }
  assert (H1 : rectangular n x).
  { unfold clean_names in Hx. destruct (has_column "product_name" _).
    - apply bind_returned in Hx. destruct Hx as [v1 [Hv1 Hx]].
      apply bind_returned in Hx. destruct Hx as [v2 [Hv2 Hx]]. injection Hx as <-.
      assert (Hr : rectangular n (rename "product_name" "name"
                                    (add_category category_name df)))
        by (apply rectangular_rename, H0).
      assert (Hr1 : rectangular n
                      (setitem (rename "product_name" "name" (add_category category_name df))
                         "name" (object_series (str_map (fun s => Str (PyStr.strip s)) v1)))).
      { apply rectangular_setitem; [exact Hr|]. simpl. rewrite str_map_length.
        apply (rectangular_str_of _ _ _ _ Hr Hv1). }
      apply rectangular_setitem; [exact Hr1|]. simpl. rewrite str_map_length.
      apply (rectangular_str_of _ _ _ _ Hr1 Hv2).
    - injection Hx as <-. exact H0. }
  assert (H2 : rectangular n x0).
  { unfold extract_size in Hx0. destruct (_ && _); [|injection Hx0 as <-; exact H1].
    apply bind_returned in Hx0. destruct Hx0 as [v [Hv Hx0]].
    assert (Hs : rectangular n
                   (setitem x "extracted_size"
                      (object_series (str_extract Regex.size_pattern v)))).
    { apply rectangular_setitem; [exact H1|]. simpl. unfold str_extract.
      rewrite str_map_length. apply (rectangular_str_of _ _ _ _ H1 Hv). }
    destruct (has_column "sizes" _).
    - invert_bind Hx0. invert_bind Hx0. injection Hx0 as <-.
      apply rectangular_loc_set; [apply has_column_setitem|exact Hs].
    - injection Hx0 as <-. exact Hs. }
  unfold extract_brand in Hx1. destruct (_ && _); [|injection Hx1 as <-; exact H2].
  apply bind_returned in Hx1. destruct Hx1 as [v [Hv Hx1]]. injection Hx1 as <-.
  apply rectangular_setitem; [exact H2|]. simpl. rewrite str_map_length.
  apply (rectangular_str_of _ _ _ _ H2 Hv).
Qed.

Lemma convert_series_length (num_repr : Q -> string) (s s' : Series) :
  convert_series num_repr s = Returned s' -> length (values s') = length (values s).
Proof.
  unfold convert_series. destruct (is_numeric_dtype s).
  - intros H. injection H as <-. reflexivity.
  - intros H. invert_bind H. injection H as <-. simpl.
    apply astype_float_cells in Hx. apply (Forall2_length_eq _ _ _ Hx).
Qed.

Lemma rectangular_clean_price_data (num_repr : Q -> string) (n : nat) (df df' : DataFrame) :
  rectangular n df ->
  clean_price_data num_repr df = Returned df' ->
  rectangular n df'.
Proof.
  intros [Hdf Hn] H. apply clean_price_data_columns in H.
  assert (Hlen : Forall2 (fun c c' => length (values (snd c')) = length (values (snd c)))
                         df df').
  { refine (Forall2_weaken_in _ _ _ _ _ H). intros c c' _ [_ Hs].
    destruct (price_like _); [apply (convert_series_length _ _ _ Hs)|rewrite Hs; reflexivity]. }
  clear H. split.
  - rewrite Forall_forall in *. intros c' Hc'.
    destruct (Forall2_in_right _ _ _ Hlen c' Hc') as [c [Hc Hl]].
    rewrite Hl. apply Hdf, Hc.
  - destruct Hlen as [|[l s] [l' s'] df df' Hl _]; [exact Hn|]. simpl in *. lia.
Qed.

Lemma filter_length_le {A : Type} (p : A -> bool) (l : list A) :
  length (filter p l) <= length l.
Proof. induction l as [|x l IH]; simpl; [lia|]. destruct (p x); simpl; lia. Qed.

Lemma processed_table_rectangular
      (num_repr : Q -> string) (file_path : string) (loaded : DataFrame) (r : processed) :
  aligned loaded = true ->
  process_file num_repr file_path loaded = Returned r ->
  exists extracted,
    rectangular (nrows loaded) extracted
    /\ table r = handle_missing_and_duplicates extracted.
Proof.
  intros Ha Hrun. unfold process_file in Hrun.
  invert_bind Hrun. rename x into cleaned, Hx into Hclean.
  invert_bind Hrun. rename x into extracted, Hx into Hextract.
  invert_bind Hrun. injection Hrun as <-. cbn [table].
  assert (Hp : not_text "price_info" (handle_missing_and_duplicates extracted) = true).
  { apply not_text_handle_missing. unfold not_text.
    rewrite (extract_attributes_keeps "price_info" eq_refl eq_refl _ _ _
               (fun H => False_ind _ (diff_false_true H)) Hextract).
    apply (clean_price_data_price_info _ _ _ Hclean). }
  rewrite (feature_engineering_not_text_warns _ Hp) in Hx. injection Hx as <-.
  cbn [fst]. exists extracted. split; [|reflexivity].
  assert (H0 : rectangular (nrows loaded) (standardize_column_names loaded)).
  { apply aligned_rectangular in Ha. destruct Ha as [Hc _]. split.
    - unfold standardize_column_names. rewrite Forall_forall in *.
      intros c Hin. apply in_map_iff in Hin. destruct Hin as [c0 [<- Hc0]].
      apply (Hc c0 Hc0).
    - destruct loaded as [|[l s] df]; reflexivity. }
  eapply rectangular_extract_attributes; [|exact Hextract].
  eapply rectangular_clean_price_data; [exact H0|exact Hclean].
Qed.

Lemma handled_rectangular (n : nat) (df : DataFrame) :
  rectangular n df ->
  aligned (handle_missing_and_duplicates df) = true
  /\ nrows (handle_missing_and_duplicates df) <= n.
Proof.
  intros H.
  assert (Hal : aligned (fill_missing df) = true)
    by (apply aligned_fill_missing, (rectangular_aligned _ _ H)).
  assert (Hmask : length (map negb (duplicated (fill_missing df)))
                  = nrows (fill_missing df))
    by (rewrite length_map; apply duplicated_length).
  unfold handle_missing_and_duplicates, drop_duplicates. split.
  - apply aligned_select_rows; assumption.
  - rewrite nrows_select_rows by assumption.
    etransitivity; [apply filter_length_le|].
    rewrite Hmask, nrows_fill_missing. rewrite (proj2 H). lia.
Qed.

(** X19. For a loaded frame whose columns have equal lengths, every run of
    [process_file] that returns yields a table whose columns again have
    equal lengths, with at most as many rows as were loaded: the pipeline
    drops duplicate rows and never adds one. *)
Theorem process_file_keeps_table_rectangular
    (num_repr : Q -> string) (file_path : string) (loaded : DataFrame) (r : processed) :
  aligned loaded = true ->
  process_file num_repr file_path loaded = Returned r ->
  aligned (table r) = true /\ nrows (table r) <= nrows loaded.
Proof.
  intros Ha Hrun.
  destruct (processed_table_rectangular _ _ _ _ Ha Hrun) as [extracted [Hrect Htable]].
  rewrite Htable. apply handled_rectangular, Hrect.
Qed.

Lemma process_file_keeps_table_rectangular_witness :
  aligned
    [("price", mkSeries Numeric [Num (Qmake 1500 1); Num (Qmake 0 1)]);
     ("name", mkSeries Object [Str "Nike Air Max Xl"; Str "Unknown"]);
     ("category", mkSeries Object [Str "men"; Str "men"]);
     ("extracted_size", mkSeries Object [Str "Unknown"; Str "Unknown"]);
     ("brand", mkSeries Object [Str "Nike"; Str "Unknown"])] = true
  /\ 2 <= 3.
Proof.
  apply (process_file_keeps_table_rectangular sample_repr "Jumia Data/raw/jumia_men.csv"
           [("Price", mkSeries Object [Str "₦1,500"; Str "free"; Str "₦1,500"]);
            ("Product Name", mkSeries Object [Str "Nike Air Max XL"; NaN; Str "Nike Air Max XL"])]
           (mkProcessed
              [("price", mkSeries Numeric [Num (Qmake 1500 1); Num (Qmake 0 1)]);
               ("name", mkSeries Object [Str "Nike Air Max Xl"; Str "Unknown"]);
               ("category", mkSeries Object [Str "men"; Str "men"]);
               ("extracted_size", mkSeries Object [Str "Unknown"; Str "Unknown"]);
               ("brand", mkSeries Object [Str "Nike"; Str "Unknown"])]
              "men" "Jumia Data/processed/processed_men.csv" [])).
  - reflexivity.
  - vm_compute. reflexivity.
Defined.

(** ** The whole run *)

Lemma for_each_collects {A B : Type} (F : A -> outcome B) (L : list A) :
  forall acc out,
    for_each L (fun acc x => r <- F x ;; Returned (acc ++ [r])) acc = Returned out ->
    exists rs, out = acc ++ rs /\ Forall2 (fun x r => F x = Returned r) L rs.
Proof.
  induction L as [|x L IH]; intros acc out H; simpl in H.
  - injection H as <-. exists []. split; [symmetry; apply app_nil_r|constructor].
  - invert_bind H. invert_bind Hx. injection Hx as <-.
    destruct (IH _ _ H) as [rs [-> Hrs]].
    exists (x1 :: rs). split; [rewrite <- app_assoc; reflexivity|].
    constructor; assumption.
Qed.

Lemma for_each_raises {A B : Type} (F : A -> outcome B) (L : list A) (x : A) (e : exn) :
  In x L -> F x = Raised e ->
  forall acc, exists e',
    for_each L (fun acc x => r <- F x ;; Returned (acc ++ [r])) acc = Raised e'.
Proof.
  intros Hin Hx. induction L as [|y L IH]; intros acc; [contradiction|].
  simpl. destruct (F y) as [r|e0] eqn:Ey; simpl; [|eauto].
  destruct Hin as [->|Hin]; [congruence|]. apply IH, Hin.
Qed.

(** X20. When [main] returns, there was at least one file; every file was
    processed in order, under its path in the input directory; the combined
    table is the concatenation of the processed tables and the summary is
    that of the combined table. If moreover every loaded frame has columns
    of equal length, the combined table has as many rows as the processed
    tables together, and no more than were loaded. *)
Theorem main_processes_every_file
    (num_repr : Q -> string) (files : list (string * DataFrame))
    (processed_dfs : list processed) (combined_df : DataFrame) (sm : summary) :
  main num_repr files = Returned (processed_dfs, combined_df, sm) ->
  files <> []
  /\ Forall2 (fun f r =>
                process_file num_repr
                  (String.append INPUT_DIR (String.append "/" (fst f))) (snd f)
                = Returned r) files processed_dfs
  /\ combined_df = concat (map table processed_dfs)
  /\ create_summary_statistics combined_df = Returned sm
  /\ (forallb (fun f => aligned (snd f)) files = true ->
      nrows combined_df = list_sum (map (fun r => nrows (table r)) processed_dfs)
      /\ nrows combined_df <= list_sum (map (fun f => nrows (snd f)) files)).
Proof.
  intros H. unfold main in H.
  invert_bind H. invert_bind H. invert_bind H. injection H as <- <- <-.
  destruct (for_each_collects _ _ _ _ Hx) as [rs [Hout Hall]].
  simpl in Hout. subst x.
  assert (Hcomb : x0 = concat (map table rs)).
  { destruct rs; [discriminate|]. injection Hx0 as <-. reflexivity. }
  split; [|split; [exact Hall|split; [exact Hcomb|split; [exact Hx1|]]]].
  - intros ->. inversion Hall; subst. discriminate.
  - intros Hal. subst x0.
    assert (Htables : forallb aligned (map table rs) = true
                      /\ list_sum (map nrows (map table rs))
                         <= list_sum (map (fun f => nrows (snd f)) files)).
    { clear Hx Hx0 Hx1. induction Hall as [|f r files rs Hf Hall IH]; [split; simpl; lia|].
      simpl in Hal. apply andb_true_iff in Hal. destruct Hal as [Haf Hal].
      destruct (IH Hal) as [IH1 IH2].
      destruct (processed_table_rectangular _ _ _ _ Haf Hf) as [extracted [Hrect Htable]].
      destruct (handled_rectangular _ _ Hrect) as [Ha Hle].
      simpl. rewrite Htable, Ha, IH1. split; [reflexivity|]. lia. }
    destruct Htables as [Ht Hle].
    rewrite (concat_rows _ Ht). rewrite map_map in *. split; [reflexivity|exact Hle].
Qed.

Lemma main_processes_every_file_witness :
  [("jumia_men.csv", [("Price", mkSeries Object [Str "₦1,500"; Str "₦1,500"])]);
   ("jumia_kids.csv", [("Price", mkSeries Object [Str "₦10"])])] <> [].
Proof.
  refine (proj1 (main_processes_every_file sample_repr
                   [("jumia_men.csv", [("Price", mkSeries Object [Str "₦1,500"; Str "₦1,500"])]);
                    ("jumia_kids.csv", [("Price", mkSeries Object [Str "₦10"])])]
                   [mkProcessed
                      [("price", mkSeries Numeric [Num (Qmake 1500 1)]);
                       ("category", mkSeries Object [Str "men"])]
                      "men" "Jumia Data/processed/processed_men.csv" [];
                    mkProcessed
                      [("price", mkSeries Numeric [Num (Qmake 10 1)]);
                       ("category", mkSeries Object [Str "kids"])]
                      "kids" "Jumia Data/processed/processed_kids.csv" []]
                   [("price", mkSeries Numeric [Num (Qmake 1500 1); Num (Qmake 10 1)]);
                    ("category", mkSeries Object [Str "men"; Str "kids"])]
                   (Aggregated
                      [(Str "kids", [Num (Qmake 1 1); Num (Qmake 10 1); Num (Qmake 10 1);
                                     Num (Qmake 10 1)]);
                       (Str "men", [Num (Qmake 1 1); Num (Qmake 1500 1); Num (Qmake 1500 1);
                                    Num (Qmake 1500 1)])])
                   _)).
  vm_compute. reflexivity.
Defined.

(** X21. One file that [process_file] fails on aborts the whole run:
    [main] raises, and returns no combined table and no summary. *)
Theorem main_aborts_on_failing_file
    (num_repr : Q -> string) (files : list (string * DataFrame))
    (f : string * DataFrame) (e : exn) :
  In f files ->
  process_file num_repr (String.append INPUT_DIR (String.append "/" (fst f))) (snd f)
  = Raised e ->
  exists e', main num_repr files = Raised e'.
Proof.
  intros Hin Hf. unfold main.
  destruct (for_each_raises
              (fun f => process_file num_repr
                          (String.append INPUT_DIR (String.append "/" (fst f))) (snd f))
              files f e Hin Hf []) as [e' He'].
  exists e'. rewrite He'. reflexivity.
Qed.

Lemma main_aborts_on_failing_file_witness :
  exists e',
    main sample_repr
      [("jumia_men.csv", [("Price", mkSeries Object [Str "₦1,500"])]);
       ("jumia_kids.csv", [("Price", mkSeries Object [Str "v1.2.3"])])]
    = Raised e'.
Proof.
  apply (main_aborts_on_failing_file sample_repr _
           ("jumia_kids.csv", [("Price", mkSeries Object [Str "v1.2.3"])]) ValueError).
  - right. left. reflexivity.
  - vm_compute. reflexivity.
Defined.

(** ** Price cleaner: the sign of an amount is lost *)

Lemma digits_value_nonneg (s : string) :
  forall acc, (0 <= acc)%Z -> (0 <= PyNum.digits_value acc s)%Z.
Proof.
  induction s as [|c s IH]; intros acc Hacc; cbn [PyNum.digits_value]; [exact Hacc|].
  apply IH. unfold PyNum.digit_val.
  assert (H := Nat2Z.is_nonneg (PyStr.code c - 48)). lia.
Qed.

Lemma py_float_nonneg (s : string) (q : Q) :
  PyNum.py_float s = Some q -> Qle (Qmake 0 1) q.
Proof.
  unfold PyNum.py_float. destruct (_ && _); [|discriminate].
  intros H.
  match type of H with
  | Some (Qred ?v) = Some _ => assert (Hv : Qle (Qmake 0 1) (Qred v))
  end.
  { apply (proj2 (Qle_comp _ _ (Qeq_refl _) _ _ (Qred_correct _))).
    unfold Qle. cbn [Qnum Qden]. rewrite Z.mul_1_r.
    change (0 * _)%Z with 0%Z. apply digits_value_nonneg. lia. }
  injection H as <-. exact Hv.
Qed.

Lemma price_text_is_text (num_repr : Q -> string) (c : cell) :
  match price_text num_repr c with Str _ | NaN => True | _ => False end.
Proof.
  unfold price_text. destruct (astype_str num_repr c); try exact I.
  destruct (Regex.search Regex.price_pattern s); exact I.
Qed.

(** X22. When the price cleaner returns, every cell of a column it
    converted (not numeric before, label containing "price") is either
    missing or a number that is not negative: a minus sign in front of an
    amount is not part of what the pattern finds. *)
Theorem clean_price_data_amounts_not_negative
    (num_repr : Q -> string) (df df' : DataFrame) :
  clean_price_data num_repr df = Returned df' ->
  forall i name s name' s' c',
    nth_error df i = Some (name, s) ->
    PyStr.contains "price" (PyStr.lower name) = true ->
    is_numeric_dtype s = false ->
    nth_error df' i = Some (name', s') ->
    In c' (values s') ->
    c' = NaN \/ exists q, c' = Num q /\ Qle (Qmake 0 1) q.
Proof.
  intros Hrun i name s name' s' c' Hi Hprice Hobj Hi' Hc'.
  destruct (Forall2_nth_error _ _ _ (clean_price_data_columns _ _ _ Hrun) i _ Hi)
    as [[name2 s2] [Hi2 [_ Hconv]]].
  rewrite Hi' in Hi2. injection Hi2 as <- <-. cbn [fst snd] in Hconv.
  assert (Hlike : price_like (relabelled name) = true).
  { unfold relabelled. destruct (String.eqb name "product_price"); [reflexivity|].
    exact Hprice. }
  rewrite Hlike in Hconv. unfold convert_series in Hconv. rewrite Hobj in Hconv.
  invert_bind Hconv. injection Hconv as <-. cbn [values] in Hc'.
  apply astype_float_cells in Hx.
  destruct (Forall2_in_right _ _ _ Hx c' Hc') as [c [_ Hc]].
  assert (Ht := price_text_is_text num_repr c).
  destruct (price_text num_repr c) as [|q|t|b]; try contradiction.
  - injection Hc as <-. left. reflexivity.
  - simpl in Hc. destruct (PyNum.py_float t) as [q|] eqn:Ef; [|discriminate].
    injection Hc as <-. right. exists q. split; [reflexivity|].
    apply (py_float_nonneg _ _ Ef).
Qed.

Lemma clean_price_data_amounts_not_negative_witness :
  Num (Qmake 5 1) = NaN \/ exists q, Num (Qmake 5 1) = Num q /\ Qle (Qmake 0 1) q.
Proof.
  apply (clean_price_data_amounts_not_negative sample_repr
           [("price_change", mkSeries Object [Str "-5"; Str "none"])]
           [("price_change", mkSeries Numeric [Num (Qmake 5 1); NaN])]
           eq_refl 0 "price_change" (mkSeries Object [Str "-5"; Str "none"])
           "price_change" (mkSeries Numeric [Num (Qmake 5 1); NaN]));
    try reflexivity.
  left. reflexivity.
Defined.

(** ** Attribute extractor: names and sizes *)

Lemma clean_names_removes_product_name (df df' : DataFrame) :
  clean_names df = Returned df' -> has_column "product_name" df' = false.
Proof.
  unfold clean_names. intros H. destruct (has_column "product_name" df) eqn:E.
  - invert_bind H. invert_bind H. injection H as <-.
    apply has_column_labelled.
    rewrite !labelled_setitem_other by reflexivity.
    apply has_column_labelled. apply has_column_rename_source. reflexivity.
  - injection H as <-. exact E.
Qed.

Lemma labelled_rename_only (old new : string) (df : DataFrame) :
  has_column new df = false ->
  labelled new (rename old new df) = labelled old df.
Proof.
  intros Hn. apply has_column_labelled in Hn. unfold labelled, rename in *.
  induction df as [|c df IH]; [reflexivity|]. simpl in *.
  destruct (String.eqb (fst c) old) eqn:Eo; simpl.
  - rewrite String.eqb_refl. simpl.
    destruct (String.eqb (fst c) new); [discriminate|]. rewrite (IH Hn). reflexivity.
  - destruct (String.eqb (fst c) new); [discriminate|]. apply IH, Hn.
Qed.

Lemma extract_size_keeps_label (df df' : DataFrame) (n : string) :
  String.eqb "extracted_size" n = false ->
  extract_size df = Returned df' -> labelled n df' = labelled n df.
Proof.
  intros E H. unfold extract_size in H.
  destruct (_ && _); [|injection H as <-; reflexivity].
  invert_bind H. destruct (has_column "sizes" _).
  - invert_bind H. invert_bind H. injection H as <-.
    rewrite labelled_loc_set_other by exact E. apply labelled_setitem_other, E.
  - injection H as <-. apply labelled_setitem_other, E.
Qed.

Lemma extract_brand_keeps_label (df df' : DataFrame) (n : string) :
  String.eqb "brand" n = false ->
  extract_brand df = Returned df' -> labelled n df' = labelled n df.
Proof.
  intros E H. unfold extract_brand in H.
  destruct (_ && _); [|injection H as <-; reflexivity].
  invert_bind H. injection H as <-. apply labelled_setitem_other, E.
Qed.

(** X23. A run of the attribute extractor that returns leaves no
    [product_name] column. When the frame had a single [product_name]
    column and no [name] column, the result has a single [name] column, of
    dtype [object] and of the same length: on each row whose product name is
    made of ASCII characters, that name with surrounding whitespace removed,
    then put in title case; missing where it was not a text. *)
Theorem extract_attributes_renames_and_cleans_names
    (df df' : DataFrame) (category_name : string) :
  extract_attributes df category_name = Returned df' ->
  has_column "product_name" df' = false
  /\ forall names,
       getitem df "product_name" = Returned names ->
       has_column "name" df = false ->
       exists col,
         labelled "name" df' = [col]
         /\ dtype_of col = Object
         /\ length (values col) = length (values names)
         /\ forall i c,
              nth_error (values names) i = Some c ->
              ascii_cell c = true ->
              nth_error (values col) i
              = Some (match c with
                      | Str t => Str (PyStr.title (PyStr.strip t))
                      | _ => NaN
                      end).
Proof.
  intros H. unfold extract_attributes in H.
  invert_bind H. invert_bind H. invert_bind H. injection H as <-.
  split.
  - rewrite (has_column_same _ _ _
               (extract_brand_keeps_label _ _ "product_name" eq_refl Hx1)).
    rewrite (has_column_same _ _ _
               (extract_size_keeps_label _ _ "product_name" eq_refl Hx0)).
    apply (clean_names_removes_product_name _ _ Hx).
  - intros names Hget Hn.
    rewrite (extract_brand_keeps_label _ _ "name" eq_refl Hx1),
            (extract_size_keeps_name _ _ Hx0).
    unfold clean_names in Hx.
    assert (Hget' : getitem (add_category category_name df) "product_name" = Returned names).
    { rewrite (getitem_same _ _ _
                 (add_category_other "product_name" category_name df eq_refl)).
      exact Hget. }
    assert (Hn' : has_column "name" (add_category category_name df) = false).
    { rewrite (has_column_same _ _ _
                 (add_category_other "name" category_name df eq_refl)).
      exact Hn. }
    rewrite (getitem_has_column _ _ _ Hget') in Hx.
    assert (Hren : labelled "name"
                     (rename "product_name" "name" (add_category category_name df))
                   = [names]).
    { rewrite (labelled_rename_only _ _ _ Hn'). unfold getitem in Hget'.
      destruct (labelled "product_name" _) as [|s1 [|s2 r]]; try discriminate.
      injection Hget' as ->. reflexivity. }
    apply bind_returned in Hx. destruct Hx as [v1 [Hv1 Hx]].
    apply bind_returned in Hx. destruct Hx as [v2 [Hv2 Hx]]. injection Hx as <-.
    unfold str_of, getitem in Hv1. rewrite Hren in Hv1. cbn [bind] in Hv1.
    apply str_accessor_values in Hv1. subst v1.
    assert (Hset : forall s,
               labelled "name"
                 (setitem (rename "product_name" "name" (add_category category_name df))
                    "name" s) = [s]).
    { intros s. unfold setitem.
      replace (has_column "name" _) with true
        by (symmetry; apply has_column_true_labelled; rewrite Hren; discriminate).
      rewrite labelled_relabel, Hren. reflexivity. }
    unfold str_of, getitem in Hv2. rewrite Hset in Hv2. cbn [bind] in Hv2.
    apply str_accessor_values in Hv2. subst v2.
    unfold setitem at 1.
    replace (has_column "name" _) with true
      by (symmetry; apply has_column_true_labelled; rewrite Hset; discriminate).
    rewrite labelled_relabel, Hset. cbn [map object_series values].
    unfold str_map, object_series. rewrite map_map.
    eexists. split; [reflexivity|]. split; [reflexivity|]. cbn [values].
    split; [apply length_map|].
    intros i c Hc _. rewrite nth_error_map, Hc. destruct c; reflexivity.
Qed.

Lemma extract_attributes_renames_and_cleans_names_witness :
  has_column "product_name"
    [("name", mkSeries Object [Str "Nike Air Max"; NaN]);
     ("category", mkSeries Object [Str "men"; Str "men"]);
     ("extracted_size", mkSeries Object [NaN; NaN]);
     ("brand", mkSeries Object [Str "Nike"; NaN])] = false
  /\ exists col,
       labelled "name"
         [("name", mkSeries Object [Str "Nike Air Max"; NaN]);
          ("category", mkSeries Object [Str "men"; Str "men"]);
          ("extracted_size", mkSeries Object [NaN; NaN]);
          ("brand", mkSeries Object [Str "Nike"; NaN])] = [col]
       /\ nth_error (values col) 0 = Some (Str "Nike Air Max")
       /\ nth_error (values col) 1 = Some NaN.
Proof.
  destruct (extract_attributes_renames_and_cleans_names
              [("product_name", mkSeries Object [Str "  nike AIR max "; NaN])]
              [("name", mkSeries Object [Str "Nike Air Max"; NaN]);
               ("category", mkSeries Object [Str "men"; Str "men"]);
               ("extracted_size", mkSeries Object [NaN; NaN]);
               ("brand", mkSeries Object [Str "Nike"; NaN])]
              "men" eq_refl) as [Hgone Hnames].
  split; [exact Hgone|].
  destruct (Hnames (mkSeries Object [Str "  nike AIR max "; NaN]) eq_refl eq_refl)
    as [col [Hcol [_ [_ Hrows]]]].
  exists col. split; [exact Hcol|]. split.
  - apply (Hrows 0 (Str "  nike AIR max ") eq_refl eq_refl).
  - apply (Hrows 1 NaN eq_refl eq_refl).
Defined.

Lemma assign_where_nth (mask : list bool) :
  forall old new i b o z,
    nth_error mask i = Some b -> nth_error old i = Some o -> nth_error new i = Some z ->
    nth_error (assign_where mask old new) i = Some (if b then z else o).
Proof.
  induction mask as [|b0 m IH]; intros [|o0 old] [|z0 new] [|i] b o z Hb Ho Hz;
    simpl in *; try discriminate.
  - injection Hb as <-. injection Ho as <-. injection Hz as <-. reflexivity.
  - apply IH; assumption.
Qed.

Lemma loc_set_last (l : string) (s0 s : Series) (mask : list bool) (df : DataFrame) :
  has_column l df = false ->
  loc_set (df ++ [(l, s0)]) mask l s
  = df ++ [(l, mkSeries (join_dtype (dtype_of s0) (dtype_of s))
                        (assign_where mask (values s0) (values s)))].
Proof.
  intros H. unfold loc_set. rewrite has_column_last, map_app.
  rewrite relabel_absent by exact H. simpl. rewrite String.eqb_refl. reflexivity.
Qed.

(** X24. For a frame with a single text column [name], a single [sizes]
    column of the same length, and neither a [product_name] nor an
    [extracted_size] column, a run of the attribute extractor that returns
    has added one [extracted_size] column of dtype [object]: on each row
    whose name is made of ASCII characters, the size found in the name, and
    where none is found the value of [sizes] on that row. *)
Theorem extract_attributes_size_falls_back_on_sizes
    (df df' : DataFrame) (category_name : string) (names sizes : Series) :
  has_column "product_name" df = false ->
  has_column "extracted_size" df = false ->
  getitem df "name" = Returned names ->
  getitem df "sizes" = Returned sizes ->
  extract_attributes df category_name = Returned df' ->
  exists col,
    labelled "extracted_size" df' = [col]
    /\ dtype_of col = Object
    /\ forall i n z,
         nth_error (values names) i = Some n ->
         ascii_cell n = true ->
         nth_error (values sizes) i = Some z ->
         nth_error (values col) i
         = Some (match n with
                 | Str t => match Regex.search Regex.size_pattern t with
                            | Some g => Str g
                            | None => z
                            end
                 | _ => z
                 end).
Proof.
  intros Hnp Hne Hname Hsizes H. unfold extract_attributes in H.
  invert_bind H. invert_bind H. invert_bind H. injection H as <-.
  set (d := add_category category_name df) in *.
  assert (Hd : x = d).
  { unfold clean_names in Hx. unfold d in Hx.
    rewrite (has_column_same _ _ _
               (add_category_other "product_name" category_name df eq_refl)) in Hx.
    rewrite Hnp in Hx. injection Hx as <-. reflexivity. }
  subst x. clear Hx.
  assert (Hname' : getitem d "name" = Returned names).
  { unfold d. rewrite (getitem_same _ _ _
                         (add_category_other "name" category_name df eq_refl)).
    exact Hname. }
  assert (Hsizes' : getitem d "sizes" = Returned sizes).
  { unfold d. rewrite (getitem_same _ _ _
                         (add_category_other "sizes" category_name df eq_refl)).
    exact Hsizes. }
  assert (Hne' : has_column "extracted_size" d = false).
  { unfold d. rewrite (has_column_same _ _ _
                         (add_category_other "extracted_size" category_name df eq_refl)).
    exact Hne. }
  rewrite (extract_brand_keeps_label _ _ "extracted_size" eq_refl Hx1). clear Hx1.
  unfold extract_size in Hx0.
  rewrite (getitem_has_column _ _ _ Hname'), Hne' in Hx0. cbn [negb andb] in Hx0.
  apply bind_returned in Hx0. destruct Hx0 as [v [Hv Hx0]].
  unfold str_of in Hv. rewrite Hname' in Hv. cbn [bind] in Hv.
  apply str_accessor_values in Hv. subst v.
  rewrite (setitem_absent _ _ _ Hne') in Hx0.
  replace (has_column "sizes" _) with true in Hx0.
  2:{ symmetry.
      rewrite (has_column_same _ _ d
                 (labelled_last_other "extracted_size" "sizes" _ d eq_refl)).
      apply (getitem_has_column _ _ _ Hsizes'). }
  rewrite (getitem_last _ _ _ Hne') in Hx0. cbn [bind] in Hx0.
  rewrite (getitem_same "sizes" _ d
             (labelled_last_other "extracted_size" "sizes" _ d eq_refl)) in Hx0.
  rewrite Hsizes' in Hx0. cbn [bind] in Hx0. injection Hx0 as <-.
  rewrite (loc_set_last _ _ _ _ _ Hne'). rewrite labelled_app.
  apply has_column_labelled in Hne'. rewrite Hne'.
  unfold labelled. cbn [filter map fst snd app]. rewrite String.eqb_refl.
  cbn [map snd].
  eexists. split; [reflexivity|]. split; [reflexivity|].
  intros i n z Hn _ Hz. unfold object_series. cbn [values dtype_of].
  assert (Hfound : nth_error (str_extract Regex.size_pattern (values names)) i
                   = Some (match n with
                           | Str t => match Regex.search Regex.size_pattern t with
                                      | Some g => Str g
                                      | None => NaN
                                      end
                           | _ => NaN
                           end)).
  { unfold str_extract, str_map. rewrite nth_error_map, Hn. reflexivity. }
  rewrite (assign_where_nth _ _ _ i _ _ z
             (eq_trans (nth_error_map _ _ _) (f_equal (option_map isnull) Hfound))
             Hfound Hz).
  destruct n; try reflexivity.
  destruct (Regex.search Regex.size_pattern s); reflexivity.
Qed.

Lemma extract_attributes_size_falls_back_on_sizes_witness :
  exists col,
    labelled "extracted_size"
      [("name", mkSeries Object [Str "Nike Air Max XL"; Str "Air Max"]);
       ("sizes", mkSeries Object [Str "M"; Str "L"]);
       ("category", mkSeries Object [Str "men"; Str "men"]);
       ("extracted_size", mkSeries Object [Str "XL"; Str "L"]);
       ("brand", mkSeries Object [Str "Nike"; Str "Air"])] = [col]
    /\ dtype_of col = Object
    /\ nth_error (values col) 0 = Some (Str "XL")
    /\ nth_error (values col) 1 = Some (Str "L").
Proof.
  destruct (extract_attributes_size_falls_back_on_sizes
              [("name", mkSeries Object [Str "Nike Air Max XL"; Str "Air Max"]);
               ("sizes", mkSeries Object [Str "M"; Str "L"])]
              [("name", mkSeries Object [Str "Nike Air Max XL"; Str "Air Max"]);
               ("sizes", mkSeries Object [Str "M"; Str "L"]);
               ("category", mkSeries Object [Str "men"; Str "men"]);
               ("extracted_size", mkSeries Object [Str "XL"; Str "L"]);
               ("brand", mkSeries Object [Str "Nike"; Str "Air"])]
              "men"
              (mkSeries Object [Str "Nike Air Max XL"; Str "Air Max"])
              (mkSeries Object [Str "M"; Str "L"])
              eq_refl eq_refl eq_refl eq_refl eq_refl) as [col [Hcol [Hdt Hrows]]].
  exists col. split; [exact Hcol|]. split; [exact Hdt|]. split.
  - apply (Hrows 0 (Str "Nike Air Max XL") (Str "M") eq_refl eq_refl eq_refl).
  - apply (Hrows 1 (Str "Air Max") (Str "L") eq_refl eq_refl eq_refl).
Defined.

(** ** Summarizer: a text in an aggregated column *)

Lemma for_each_bodies {A S : Type} (body : S -> A -> outcome S) (L : list A) :
  forall acc out,
    for_each L body acc = Returned out ->
    forall x, In x L -> exists acc' out', body acc' x = Returned out'.
Proof.
  induction L as [|y L IH]; intros acc out H x Hx; [contradiction|].
  simpl in H. invert_bind H. destruct Hx as [->|Hx]; [eauto|].
  apply (IH _ _ H x Hx).
Qed.

Lemma select_nth_in {A : Type} (mask : list bool) :
  forall (l : list A) i x,
    nth_error mask i = Some true -> nth_error l i = Some x -> In x (select mask l).
Proof.
  induction mask as [|b m IH]; intros [|y l] [|i] x Hm Hl; simpl in *; try discriminate.
  - injection Hm as ->. injection Hl as ->. left. reflexivity.
  - destruct b; [right|]; apply (IH l i x Hm Hl).
Qed.

(** X25. A combined table in which some row with a category holds a text
    in its [price] or [discount_percentage] column makes the summarizer
    raise: no summary is returned. *)
Theorem create_summary_statistics_raises_on_text
    (df : DataFrame) (label : string) (cat col : Series) (i : nat) (k : cell) (t : string) :
  In label ["price"; "discount_percentage"] ->
  getitem df "category" = Returned cat ->
  getitem df label = Returned col ->
  nth_error (values cat) i = Some k -> isnull k = false ->
  nth_error (values col) i = Some (Str t) ->
  exists e, create_summary_statistics df = Raised e.
Proof.
  intros Hlabel Hcat Hcol Hk Hnull Ht.
  destruct (create_summary_statistics df) as [sm|e] eqn:Hrun; [|eauto].
  exfalso. unfold create_summary_statistics in Hrun.
  assert (Hhas : has_column "price" df || has_column "discount_percentage" df = true).
  { destruct Hlabel as [<-|[<-|[]]]; rewrite (getitem_has_column _ _ _ Hcol);
      [reflexivity|apply orb_true_r]. }
  rewrite Hhas in Hrun. cbn [negb] in Hrun. rewrite Hcat in Hrun. cbn [bind] in Hrun.
  invert_bind Hrun. clear Hrun.
  assert (Hkey : exists k', In k' (sort key_leb (unique (values cat)))
                            /\ py_eqb k' k = true).
  { assert (Hone := unique_from_once k (values cat) [] Hnull eq_refl
                      (nth_error_In _ _ Hk)).
    fold (unique (values cat)) in Hone.
    destruct (filter (py_eqb k) (unique (values cat))) as [|k' r] eqn:E; [discriminate|].
    assert (Hin : In k' (filter (py_eqb k) (unique (values cat))))
      by (rewrite E; left; reflexivity).
    apply filter_In in Hin. destruct Hin as [Hin Heq].
    exists k'. split.
    - apply (Permutation_in _ (Permutation_sym (sort_perm _ _)) Hin).
    - rewrite py_eqb_sym. exact Heq. }
  destruct Hkey as [k' [Hin Heq]].
  destruct (for_each_bodies _ _ _ _ Hx k' Hin) as [acc' [out' Hbody]].
  cbn beta in Hbody.
  assert (Hstr : existsb is_str (group_cells k' (values cat) (values col)) = true).
  { apply existsb_exists. exists (Str t). split; [|reflexivity].
    unfold group_cells. apply (select_nth_in _ _ i); [|exact Ht].
    rewrite nth_error_map, Hk. simpl. rewrite Heq. reflexivity. }
  invert_bind Hbody. invert_bind Hbody. clear Hbody.
  destruct Hlabel as [<-|[<-|[]]].
  - rewrite (getitem_has_column _ _ _ Hcol), Hcol in Hx0. cbn [bind] in Hx0.
    unfold aggregate in Hx0. rewrite Hstr in Hx0. discriminate.
  - rewrite (getitem_has_column _ _ _ Hcol), Hcol in Hx1. cbn [bind] in Hx1.
    unfold aggregate in Hx1. rewrite Hstr in Hx1. discriminate.
Qed.

Lemma create_summary_statistics_raises_on_text_witness :
  exists e,
    create_summary_statistics
      [("category", mkSeries Object [Str "men"; Str "kids"]);
       ("price", mkSeries Numeric [Num (Qmake 1500 1); Num (Qmake 10 1)]);
       ("discount_percentage", mkSeries Object [Str "25%"; Str "Unknown"])]
    = Raised e.
Proof.
  apply (create_summary_statistics_raises_on_text _ "discount_percentage"
           (mkSeries Object [Str "men"; Str "kids"])
           (mkSeries Object [Str "25%"; Str "Unknown"]) 0 (Str "men") "25%");
    try reflexivity.
  right. left. reflexivity.
Defined.
